(** * All Assist API: request lifecycle and nearest-provider matching

    A shallow embedding of [main.py] (FastAPI handlers over a MongoDB
    document store) and of the document shapes of [schemas.py].

    - A collection is the list of its documents in insertion order;
      [find_one] and [update_one] act on the first match, [find] keeps
      every match in order.
    - A handler is a function of the database state that returns the
      HTTP outcome together with the new state.
    - Python [float]s are kept abstract: the handlers are written against
      the interface [PyFloat] (arithmetic, the [math] functions the code
      calls, comparison, [round(x, 2)] and [int(x)]).  Exact real
      arithmetic is one instance of it, used for closed examples. *)

From Stdlib Require Import List String Ascii Bool ZArith QArith Lia.
From Stdlib Require Import Sorted Permutation.
From Stdlib Require Import Reals Lra.
Import ListNotations.

Local Open Scope string_scope.
Local Open Scope list_scope.

Set Implicit Arguments.

(** ** Python floats *)

(** The operations on [float] that [main.py] uses.  [float_of_Q] reads a
    numeric literal, [fpow2 x] is [x ** 2], [round2 x] is [round(x, 2)] and
    [float_to_int x] is [int(x)] (truncation towards zero). *)
Class PyFloat : Type := {
  float : Type;
  float_of_Q : Q -> float;
  fadd : float -> float -> float;
  fsub : float -> float -> float;
  fmul : float -> float -> float;
  fdiv : float -> float -> float;
  fpow2 : float -> float;
  radians : float -> float;
  sin : float -> float;
  cos : float -> float;
  sqrt : float -> float;
  atan2 : float -> float -> float;
  fleb : float -> float -> bool;
  fltb : float -> float -> bool;
  round2 : float -> float;
  float_to_int : float -> Z
}.

Declare Scope pyfloat_scope.
Delimit Scope pyfloat_scope with fl.
Bind Scope pyfloat_scope with float.
Infix "+" := fadd : pyfloat_scope.
Infix "-" := fsub : pyfloat_scope.
Infix "*" := fmul : pyfloat_scope.
Infix "/" := fdiv : pyfloat_scope.
Infix "<=?" := fleb : pyfloat_scope.
Infix "<?" := fltb : pyfloat_scope.

(** Python truthiness of an optional string: [None] and [""] are falsy. *)
Definition truthy (o : option string) : bool :=
  match o with
  | Some s => negb (s =? "")%string
  | None => false
  end.

(** [x or y] where [y] is a string: [x] when truthy, else [y]. *)
Definition or_str (x : option string) (y : string) : string :=
  match x with
  | Some s => if (s =? "")%string then y else s
  | None => y
  end.

(** ** Request bodies *)

Record LocationDTO {F : PyFloat} : Type := {
  lat : float;
  lng : float
}.

(** ** Utility functions *)

Section Geo.
Context {F : PyFloat}.

(** [distance_km] (main.py, lines 110-119). *)
Definition distance_km (a b : LocationDTO) : float :=
  let R := float_of_Q 6371 in
  let lat1 := radians (lat a) in
  let lon1 := radians (lng a) in
  let lat2 := radians (lat b) in
  let lon2 := radians (lng b) in
  let dlon := (lon2 - lon1)%fl in
  let dlat := (lat2 - lat1)%fl in
  let aa := (fpow2 (sin (dlat / float_of_Q 2))
             + cos lat1 * cos lat2 * fpow2 (sin (dlon / float_of_Q 2)))%fl in
  let c := (float_of_Q 2 * atan2 (sqrt aa) (sqrt (float_of_Q 1 - aa)))%fl in
  (R * c)%fl.

End Geo.

(** ** Documents

    Every stored document carries the storage-native [_id], the mirrored
    string [id] (absent on documents that were never mirrored) and the two
    timestamps; [body] holds the keys that [main.py] writes for the
    collection.  Keys of [schemas.py] that no handler reads or writes
    (vehicle, rating, jobs_completed, quoted_amount, paid, notes, ...) are
    left out. *)

Record Doc (A : Type) : Type := {
  _id : string;
  id : option string;
  created_at : option Z;
  updated_at : option Z;
  body : A
}.

Inductive Role : Type := motorist | provider | admin.

Module User.
Record t : Type := {
  name : string;
  email : option string;
  phone : option string;
  role : Role;
  password_hash : option string;
  is_verified : bool;
  is_active : bool
}.
End User.

Module Providerapplication.
Inductive status_t : Type := pending | approved | rejected.
Record t : Type := {
  user_id : string;
  company_name : option string;
  service_types : list string;
  license_number : option string;
  insurance_policy : option string;
  documents : list string;
  status : status_t
}.
End Providerapplication.

Module Providerprofile.
Inductive status_t : Type := offline | online | busy.
Record t {F : PyFloat} : Type := {
  user_id : string;
  status : status_t;
  service_types : option (list string);
  lat : option float;
  lng : option float
}.
End Providerprofile.

Module Servicerequest.
Inductive status_t : Type :=
  pending | assigned | enroute | in_progress | completed | cancelled.
Record t {F : PyFloat} : Type := {
  motorist_id : string;
  service_type : string;
  description : option string;
  pickup_lat : float;
  pickup_lng : float;
  provider_id : option string;
  status : status_t
}.
End Servicerequest.

Module Payment.
Record t {F : PyFloat} : Type := {
  request_id : string;
  motorist_id : string;
  provider_id : option string;
  amount : float;
  currency : string;
  status : string;
  gateway : string
}.
End Payment.

Module Review.
Record t : Type := {
  request_id : string;
  motorist_id : string;
  provider_id : string;
  rating : Z;
  comment : option string
}.
End Review.

Module Dispute.
Record t : Type := {
  request_id : string;
  raised_by : Role;
  reason : string;
  details : option string;
  status : string
}.
End Dispute.

Module Notificationtoken.
Record t : Type := {
  user_id : string;
  fcm_token : string;
  platform : string
}.
End Notificationtoken.

(** The database handle [db]: one list per collection. *)
Record DB {F : PyFloat} : Type := {
  db_user : list (Doc User.t);
  db_providerapplication : list (Doc Providerapplication.t);
  db_providerprofile : list (Doc Providerprofile.t);
  db_servicerequest : list (Doc Servicerequest.t);
  db_payment : list (Doc Payment.t);
  db_review : list (Doc Review.t);
  db_dispute : list (Doc Dispute.t);
  db_notificationtoken : list (Doc Notificationtoken.t)
}.

(** ** Request bodies and responses *)

Record RegisterDTO : Type := {
  reg_name : string;
  reg_email : option string;
  reg_phone : option string;
  reg_password : option string;
  reg_role : Role
}.

Record LoginDTO : Type := {
  login_email : option string;
  login_phone : option string;
  login_password : option string
}.

Record RequestCreateDTO {F : PyFloat} : Type := {
  rc_service_type : string;
  rc_description : option string;
  pickup_lat : float;
  pickup_lng : float
}.

Record ProviderStatusDTO {F : PyFloat} : Type := {
  ps_status : Providerprofile.status_t;
  ps_lat : option float;
  ps_lng : option float
}.

Record ProviderApplyDTO : Type := {
  pa_company_name : option string;
  pa_service_types : list string;
  pa_license_number : option string;
  pa_insurance_policy : option string
}.

Record PaymentIntentDTO {F : PyFloat} : Type := {
  pi_request_id : string;
  pi_amount : float;
  pi_currency : string
}.

(** The target statuses that [update_request_status] accepts
    ([Literal["enroute", "in_progress", "completed", "cancelled"]]). *)
Inductive TargetStatus : Type :=
  to_enroute | to_in_progress | to_completed | to_cancelled.

Definition target_status (s : TargetStatus) : Servicerequest.status_t :=
  match s with
  | to_enroute => Servicerequest.enroute
  | to_in_progress => Servicerequest.in_progress
  | to_completed => Servicerequest.completed
  | to_cancelled => Servicerequest.cancelled
  end.

(** The claim set of a bearer token (its signature is not modelled). *)
Record Token : Type := {
  sub : string;
  token_role : Role;
  exp : Z;
  iat : Z
}.

Record UserView : Type := {
  uv_id : string;
  uv_name : string;
  uv_role : Role
}.

Record AuthResponse : Type := {
  token : Token;
  user_view : UserView
}.

(** One entry of the [providers] list returned by [providers_nearby]. *)
Module Nearby.
Record t {F : PyFloat} : Type := {
  user_id : string;
  lat : float;
  lng : float;
  distance_km : float
}.
End Nearby.

Record Match : Type := {
  match_provider_id : string;
  eta_min : Z
}.

Record CreateRequestResponse : Type := {
  request_id : string;
  match_ : option Match
}.

(** A handler either returns a body or raises [HTTPException]. *)
Inductive Response (A : Type) : Type :=
| Ok (r : A)
| HTTPException (status_code : Z) (detail : string).
Arguments HTTPException {A} status_code detail.

(** ** The document store *)

Section Mongo.
Variable A : Type.

(** [collection.find_one(q)]: the first document that satisfies [q]. *)
Definition find_one (q : Doc A -> bool) (c : list (Doc A)) : option (Doc A) :=
  List.find q c.

(** [collection.find(q)]: every document that satisfies [q], in order. *)
Definition find (q : Doc A -> bool) (c : list (Doc A)) : list (Doc A) :=
  List.filter q c.

(** [collection.update_one(q, {"$set": ...})]: the first document that
    satisfies [q] is rewritten by [set]; with no match nothing changes. *)
Fixpoint update_one (q : Doc A -> bool) (set : Doc A -> Doc A)
    (c : list (Doc A)) : list (Doc A) :=
  match c with
  | [] => []
  | d :: c' => if q d then set d :: c' else d :: update_one q set c'
  end.

(** The filter [{"id": x}]. *)
Definition by_id (x : string) (d : Doc A) : bool :=
  match id d with
  | Some y => (y =? x)%string
  | None => false
  end.

(** The filter [{"_id": x}]. *)
Definition by__id (x : string) (d : Doc A) : bool :=
  (_id d =? x)%string.

Definition set_body (f : A -> A) (d : Doc A) : Doc A :=
  {| _id := _id d; id := id d; created_at := created_at d;
     updated_at := updated_at d; body := f (body d) |}.

Definition set_id (x : string) (d : Doc A) : Doc A :=
  {| _id := _id d; id := Some x; created_at := created_at d;
     updated_at := updated_at d; body := body d |}.

Definition set_updated_at (now : Z) (d : Doc A) : Doc A :=
  {| _id := _id d; id := id d; created_at := created_at d;
     updated_at := Some now; body := body d |}.

(** Modelled from the spec: [create_document] of [database.py], which is
    not among the sources.  Section 6 of the specification: "each entity
    type maps to one collection/table keyed by a generated id ([id] field,
    created at document creation, mirrored from the storage-native
    identifier for convenient lookup)"; section 3 lists timestamps among
    the fields.  The generated identifier [oid] and the clock reading [now]
    are inputs.  [new_document] is the document that is stored; the
    insertion itself is [create_document] below. *)
Definition new_document (oid : string) (now : Z) (data : A) : Doc A :=
  {| _id := oid; id := Some oid; created_at := Some now;
     updated_at := Some now; body := data |}.

End Mongo.

Section Store.
Context {F : PyFloat}.

Definition on_user (f : list (Doc User.t) -> list (Doc User.t))
    (db : DB) : DB :=
  {| db_user := f (db_user db);
     db_providerapplication := db_providerapplication db;
     db_providerprofile := db_providerprofile db;
     db_servicerequest := db_servicerequest db;
     db_payment := db_payment db;
     db_review := db_review db;
     db_dispute := db_dispute db;
     db_notificationtoken := db_notificationtoken db |}.

Definition on_providerapplication
    (f : list (Doc Providerapplication.t) -> list (Doc Providerapplication.t))
    (db : DB) : DB :=
  {| db_user := db_user db;
     db_providerapplication := f (db_providerapplication db);
     db_providerprofile := db_providerprofile db;
     db_servicerequest := db_servicerequest db;
     db_payment := db_payment db;
     db_review := db_review db;
     db_dispute := db_dispute db;
     db_notificationtoken := db_notificationtoken db |}.

Definition on_providerprofile
    (f : list (Doc Providerprofile.t) -> list (Doc Providerprofile.t))
    (db : DB) : DB :=
  {| db_user := db_user db;
     db_providerapplication := db_providerapplication db;
     db_providerprofile := f (db_providerprofile db);
     db_servicerequest := db_servicerequest db;
     db_payment := db_payment db;
     db_review := db_review db;
     db_dispute := db_dispute db;
     db_notificationtoken := db_notificationtoken db |}.

Definition on_servicerequest
    (f : list (Doc Servicerequest.t) -> list (Doc Servicerequest.t))
    (db : DB) : DB :=
  {| db_user := db_user db;
     db_providerapplication := db_providerapplication db;
     db_providerprofile := db_providerprofile db;
     db_servicerequest := f (db_servicerequest db);
     db_payment := db_payment db;
     db_review := db_review db;
     db_dispute := db_dispute db;
     db_notificationtoken := db_notificationtoken db |}.

Definition on_payment (f : list (Doc Payment.t) -> list (Doc Payment.t))
    (db : DB) : DB :=
  {| db_user := db_user db;
     db_providerapplication := db_providerapplication db;
     db_providerprofile := db_providerprofile db;
     db_servicerequest := db_servicerequest db;
     db_payment := f (db_payment db);
     db_review := db_review db;
     db_dispute := db_dispute db;
     db_notificationtoken := db_notificationtoken db |}.

Definition on_review (f : list (Doc Review.t) -> list (Doc Review.t))
    (db : DB) : DB :=
  {| db_user := db_user db;
     db_providerapplication := db_providerapplication db;
     db_providerprofile := db_providerprofile db;
     db_servicerequest := db_servicerequest db;
     db_payment := db_payment db;
     db_review := f (db_review db);
     db_dispute := db_dispute db;
     db_notificationtoken := db_notificationtoken db |}.

Definition on_dispute (f : list (Doc Dispute.t) -> list (Doc Dispute.t))
    (db : DB) : DB :=
  {| db_user := db_user db;
     db_providerapplication := db_providerapplication db;
     db_providerprofile := db_providerprofile db;
     db_servicerequest := db_servicerequest db;
     db_payment := db_payment db;
     db_review := db_review db;
     db_dispute := f (db_dispute db);
     db_notificationtoken := db_notificationtoken db |}.

Definition on_notificationtoken
    (f : list (Doc Notificationtoken.t) -> list (Doc Notificationtoken.t))
    (db : DB) : DB :=
  {| db_user := db_user db;
     db_providerapplication := db_providerapplication db;
     db_providerprofile := db_providerprofile db;
     db_servicerequest := db_servicerequest db;
     db_payment := db_payment db;
     db_review := db_review db;
     db_dispute := db_dispute db;
     db_notificationtoken := f (db_notificationtoken db) |}.

(** *** Handlers as state transformers

    A handler runs against the database and ends with a response; writes
    made before an exception is raised stay in the store. *)
Definition M (A : Type) : Type := DB -> Response A * DB.

Definition ret {A : Type} (a : A) : M A := fun db => (Ok a, db).

Definition bind {A B : Type} (m : M A) (k : A -> M B) : M B :=
  fun db =>
    match m db with
    | (Ok a, db') => k a db'
    | (HTTPException code detail, db') => (HTTPException code detail, db')
    end.

Definition raise {A : Type} (code : Z) (detail : string) : M A :=
  fun db => (HTTPException code detail, db).

(** Read the store. *)
Definition query {A : Type} (f : DB -> A) : M A := fun db => (Ok (f db), db).

(** Write the store. *)
Definition write (f : DB -> DB) : M unit := fun db => (Ok tt, f db).

(** [create_document(collection, data)]: stores [new_document] at the end
    of the collection and returns its identifier. *)
Definition create_document {A : Type}
    (collection : (list (Doc A) -> list (Doc A)) -> DB -> DB)
    (oid : string) (now : Z) (data : A) : M string :=
  fun db =>
    (Ok oid, collection (fun c => c ++ [new_document oid now data]) db).

End Store.

Notation "x <- m ;; k" := (bind m (fun x => k))
  (at level 61, m at next level, right associativity).
Notation "m ;;; k" := (bind m (fun _ => k))
  (at level 61, right associativity).

(** ** The application *)

Definition role_eqb (a b : Role) : bool :=
  match a, b with
  | motorist, motorist | provider, provider | admin, admin => true
  | _, _ => false
  end.

Definition option_string_eqb (a b : option string) : bool :=
  match a, b with
  | Some x, Some y => (x =? y)%string
  | None, None => true
  | _, _ => false
  end.

(** [x in l] for a list of strings. *)
Definition str_in (x : string) (l : list string) : bool :=
  existsb (String.eqb x) l.

(** [a or b] for two lookups. *)
Definition or_else {A : Type} (a b : option A) : option A :=
  match a with
  | Some x => Some x
  | None => b
  end.

(** [user.get("id") or str(user.get("_id"))]. *)
Definition caller_id (user : Doc User.t) : string :=
  or_str (id user) (_id user).

(** [x in (user.get("id"), str(user.get("_id")))]. *)
Definition in_caller_ids (x : option string) (user : Doc User.t) : bool :=
  option_string_eqb x (id user) || option_string_eqb x (Some (_id user)).

Section API.
Context {F : PyFloat}.

(** Environment and the external libraries: the token lifetime
    ([JWT_EXPIRES_IN]) and passlib's [pwd_context.hash] and
    [pwd_context.verify]. *)
Variable JWT_EXPIRES_IN : Z.
Variable pwd_hash : string -> string.
Variable pwd_verify : string -> string -> bool.

(** *** Auth helpers *)

(** [create_token] (lines 83-90), called with [{"_id": uid, "role": r}]. *)
Definition create_token (uid : string) (r : Role) (now : Z) : Token :=
  {| sub := uid; token_role := r; exp := now + JWT_EXPIRES_IN; iat := now |}.

(** [get_current_user] (lines 93-107): [jwt.decode] rejects a token whose
    [exp] is not in the future. *)
Definition get_current_user (creds : Token) (now : Z) : M (Doc User.t) :=
  if (exp creds <=? now)%Z then raise 401 "Invalid token"
  else
    let user_id := sub creds in
    if (user_id =? "")%string then raise 401 "Invalid token"
    else
      user <- query (fun db =>
                or_else (find_one (by_id user_id) (db_user db))
                        (find_one (by__id user_id) (db_user db))) ;;
      match user with
      | None => raise 401 "User not found"
      | Some u => ret u
      end.

(** *** Auth *)

Definition by_email (e : string) (d : Doc User.t) : bool :=
  option_string_eqb (User.email (body d)) (Some e).

Definition by_phone (p : string) (d : Doc User.t) : bool :=
  option_string_eqb (User.phone (body d)) (Some p).

Definition is_some {A : Type} (o : option A) : bool :=
  match o with
  | Some _ => true
  | None => false
  end.

(** [register] (lines 165-188). *)
Definition register (payload : RegisterDTO) (now : Z) (oid : string)
    : M AuthResponse :=
  email_taken <- query (fun db =>
    truthy (reg_email payload)
    && is_some (find_one (by_email (or_str (reg_email payload) ""))
                  (db_user db))) ;;
  if email_taken : bool then raise 400 "Email already registered"
  else
    phone_taken <- query (fun db =>
      truthy (reg_phone payload)
      && is_some (find_one (by_phone (or_str (reg_phone payload) ""))
                    (db_user db))) ;;
    if phone_taken : bool then raise 400 "Phone already registered"
    else
      let doc :=
        {| User.name := reg_name payload;
           User.email := reg_email payload;
           User.phone := reg_phone payload;
           User.role := reg_role payload;
           User.is_verified := false;
           User.is_active := true;
           User.password_hash :=
             if truthy (reg_password payload)
             then Some (pwd_hash (or_str (reg_password payload) ""))
             else None |} in
      user_id <- create_document on_user oid now doc ;;
      write (on_user (update_one
               (fun d => negb (is_some (id d)) && by__id user_id d)
               (set_id user_id))) ;;;
      user <- query (fun db => find_one (by_id user_id) (db_user db)) ;;
      match user with
      | None => raise 500 "Internal Server Error"
      | Some u =>
          let token := create_token user_id (User.role (body u)) now in
          ret {| token := token;
                 user_view := {| uv_id := user_id;
                                 uv_name := User.name (body u);
                                 uv_role := User.role (body u) |} |}
      end.

(** The query [q] that [login] builds: a field takes part when it is
    truthy in the payload. *)
Definition login_query_empty (payload : LoginDTO) : bool :=
  negb (truthy (login_email payload)) && negb (truthy (login_phone payload)).

Definition login_query (payload : LoginDTO) (d : Doc User.t) : bool :=
  (if truthy (login_email payload)
   then by_email (or_str (login_email payload) "") d else true)
  && (if truthy (login_phone payload)
      then by_phone (or_str (login_phone payload) "") d else true).

(** [login] (lines 190-204). *)
Definition login (payload : LoginDTO) (now : Z) : M AuthResponse :=
  user <- query (fun db =>
            if login_query_empty payload then None
            else find_one (login_query payload) (db_user db)) ;;
  match user with
  | None => raise 401 "Invalid credentials"
  | Some u =>
      if truthy (login_password payload)
         && truthy (User.password_hash (body u))
         && negb (pwd_verify (or_str (login_password payload) "")
                    (or_str (User.password_hash (body u)) ""))
      then raise 401 "Invalid credentials"
      else
        let token := create_token (caller_id u) (User.role (body u)) now in
        ret {| token := token;
               user_view := {| uv_id := caller_id u;
                               uv_name := User.name (body u);
                               uv_role := User.role (body u) |} |}
  end.

(** *** Provider onboarding and presence *)

Definition provider_or_admin (user : Doc User.t) : bool :=
  match User.role (body user) with
  | provider | admin => true
  | motorist => false
  end.

(** [provider_apply] (lines 207-221). *)
Definition provider_apply (payload : ProviderApplyDTO) (user : Doc User.t)
    (now : Z) (oid : string) : M (string * Providerapplication.status_t) :=
  if negb (provider_or_admin user) then raise 403 "Only providers can apply"
  else
    let application :=
      {| Providerapplication.user_id := caller_id user;
         Providerapplication.company_name := pa_company_name payload;
         Providerapplication.service_types := pa_service_types payload;
         Providerapplication.license_number := pa_license_number payload;
         Providerapplication.insurance_policy := pa_insurance_policy payload;
         Providerapplication.documents := [];
         Providerapplication.status := Providerapplication.pending |} in
    app_id <- create_document on_providerapplication oid now application ;;
    ret (app_id, Providerapplication.pending).

(** The filter [{"user_id": x}] on provider profiles. *)
Definition by_user_id (x : string) (d : Doc Providerprofile.t) : bool :=
  (Providerprofile.user_id (body d) =? x)%string.

(** [{"$set": data}] of [provider_status]: [lat] and [lng] are written
    only when both are given. *)
Definition set_presence (uid : string) (payload : ProviderStatusDTO)
    (p : Providerprofile.t) : Providerprofile.t :=
  match ps_lat payload, ps_lng payload with
  | Some la, Some lo =>
      {| Providerprofile.user_id := uid;
         Providerprofile.status := ps_status payload;
         Providerprofile.service_types := Providerprofile.service_types p;
         Providerprofile.lat := Some la;
         Providerprofile.lng := Some lo |}
  | _, _ =>
      {| Providerprofile.user_id := uid;
         Providerprofile.status := ps_status payload;
         Providerprofile.service_types := Providerprofile.service_types p;
         Providerprofile.lat := Providerprofile.lat p;
         Providerprofile.lng := Providerprofile.lng p |}
  end.

(** The document [data] that [provider_status] creates when the provider
    has no profile yet. *)
Definition presence_data (uid : string) (payload : ProviderStatusDTO)
    : Providerprofile.t :=
  set_presence uid payload
    {| Providerprofile.user_id := uid;
       Providerprofile.status := ps_status payload;
       Providerprofile.service_types := None;
       Providerprofile.lat := None;
       Providerprofile.lng := None |}.

(** [provider_status] (lines 223-235). *)
Definition provider_status (payload : ProviderStatusDTO) (user : Doc User.t)
    (now : Z) (oid : string) : M unit :=
  if negb (provider_or_admin user)
  then raise 403 "Only providers can set status"
  else
    profile <- query (fun db =>
                 find_one (by_user_id (caller_id user))
                   (db_providerprofile db)) ;;
    match profile with
    | Some prof =>
        write (on_providerprofile
                 (update_one (by__id (_id prof))
                    (set_body (set_presence (caller_id user) payload))))
    | None =>
        create_document on_providerprofile oid now
          (presence_data (caller_id user) payload) ;;;
        ret tt
    end.

(** *** Nearby providers *)

Definition is_online (p : Doc Providerprofile.t) : bool :=
  match Providerprofile.status (body p) with
  | Providerprofile.online => true
  | _ => false
  end.

(** [service_type and service_type not in (p.get("service_types") or [])]. *)
Definition lacks_service (service_type : option string)
    (p : Doc Providerprofile.t) : bool :=
  match service_type with
  | Some st =>
      negb (st =? "")%string
      && negb (str_in st
                 match Providerprofile.service_types (body p) with
                 | Some l => l
                 | None => []
                 end)
  | None => false
  end.

(** One turn of the loop of [providers_nearby] (lines 241-248). *)
Definition nearby_step (origin : LocationDTO) (service_type : option string)
    (radius_km : float) (results : list Nearby.t)
    (p : Doc Providerprofile.t) : list Nearby.t :=
  if lacks_service service_type p then results
  else
    match Providerprofile.lat (body p), Providerprofile.lng (body p) with
    | Some plat, Some plng =>
        let d := distance_km origin {| lat := plat; lng := plng |} in
        if (d <=? radius_km)%fl
        then results ++ [ {| Nearby.user_id := Providerprofile.user_id (body p);
                             Nearby.lat := plat;
                             Nearby.lng := plng;
                             Nearby.distance_km := round2 d |} ]
        else results
    | _, _ => results
    end.

(** [results.sort(key=lambda x: x["distance_km"])]: Python's sort is stable
    and compares keys with [<]; each element is placed after the elements
    already there whose key is not greater. *)
Fixpoint insert_by_distance (x : Nearby.t) (l : list Nearby.t)
    : list Nearby.t :=
  match l with
  | [] => [x]
  | y :: l' =>
      if (Nearby.distance_km x <? Nearby.distance_km y)%fl
      then x :: y :: l'
      else y :: insert_by_distance x l'
  end.

Definition sort_by_distance (l : list Nearby.t) : list Nearby.t :=
  fold_left (fun sorted x => insert_by_distance x sorted) l [].

(** [providers_nearby] (lines 237-250); the value of the ["providers"]
    key. *)
Definition providers_nearby (lat lng : float) (service_type : option string)
    (radius_km : float) (db : DB) : list Nearby.t :=
  let origin := {| lat := lat; lng := lng |} in
  let results :=
    fold_left (nearby_step origin service_type radius_km)
      (find is_online (db_providerprofile db)) [] in
  sort_by_distance results.

(** The default of the [radius_km] parameter. *)
Definition default_radius_km : float := float_of_Q 30.

(** *** Requests and matching *)

Definition assign_provider (provider_id : string) (r : Servicerequest.t)
    : Servicerequest.t :=
  {| Servicerequest.motorist_id := Servicerequest.motorist_id r;
     Servicerequest.service_type := Servicerequest.service_type r;
     Servicerequest.description := Servicerequest.description r;
     Servicerequest.pickup_lat := Servicerequest.pickup_lat r;
     Servicerequest.pickup_lng := Servicerequest.pickup_lng r;
     Servicerequest.provider_id := Some provider_id;
     Servicerequest.status := Servicerequest.assigned |}.

Definition set_request_status (s : Servicerequest.status_t)
    (r : Servicerequest.t) : Servicerequest.t :=
  {| Servicerequest.motorist_id := Servicerequest.motorist_id r;
     Servicerequest.service_type := Servicerequest.service_type r;
     Servicerequest.description := Servicerequest.description r;
     Servicerequest.pickup_lat := Servicerequest.pickup_lat r;
     Servicerequest.pickup_lng := Servicerequest.pickup_lng r;
     Servicerequest.provider_id := Servicerequest.provider_id r;
     Servicerequest.status := s |}.

Definition set_profile_status (s : Providerprofile.status_t)
    (p : Providerprofile.t) : Providerprofile.t :=
  {| Providerprofile.user_id := Providerprofile.user_id p;
     Providerprofile.status := s;
     Providerprofile.service_types := Providerprofile.service_types p;
     Providerprofile.lat := Providerprofile.lat p;
     Providerprofile.lng := Providerprofile.lng p |}.

(** The document that [create_request] stores (lines 257-264). *)
Definition request_doc (payload : RequestCreateDTO) (user : Doc User.t)
    : Servicerequest.t :=
  {| Servicerequest.motorist_id := caller_id user;
     Servicerequest.service_type := rc_service_type payload;
     Servicerequest.description := rc_description payload;
     Servicerequest.pickup_lat := pickup_lat payload;
     Servicerequest.pickup_lng := pickup_lng payload;
     Servicerequest.provider_id := None;
     Servicerequest.status := Servicerequest.pending |}.

(** [max(3, int(chosen["distance_km"] / 0.6))]. *)
Definition eta_of (chosen : Nearby.t) : Z :=
  Z.max 3 (float_to_int (Nearby.distance_km chosen / float_of_Q (6 # 10))%fl).

(** The two writes of a match (lines 270-271). *)
Definition assign_request (req_id : string) (chosen : Nearby.t) : M unit :=
  write (on_servicerequest
           (update_one (by_id req_id)
              (set_body (assign_provider (Nearby.user_id chosen))))).

Definition mark_busy (chosen : Nearby.t) : M unit :=
  write (on_providerprofile
           (update_one (by_user_id (Nearby.user_id chosen))
              (set_body (set_profile_status Providerprofile.busy)))).

(** [create_request] (lines 253-275). *)
Definition create_request (payload : RequestCreateDTO) (user : Doc User.t)
    (now : Z) (oid : string) : M CreateRequestResponse :=
  if negb (role_eqb (User.role (body user)) motorist)
  then raise 403 "Only motorists can create requests"
  else
    req_id <- create_document on_servicerequest oid now
                (request_doc payload user) ;;
    nearby <- query (providers_nearby (pickup_lat payload)
                       (pickup_lng payload)
                       (Some (rc_service_type payload))
                       default_radius_km) ;;
    match nearby with
    | chosen :: _ =>
        assign_request req_id chosen ;;;
        mark_busy chosen ;;;
        ret {| request_id := req_id;
               match_ := Some {| match_provider_id := Nearby.user_id chosen;
                                 eta_min := eta_of chosen |} |}
    | [] => ret {| request_id := req_id; match_ := None |}
    end.

(** [update_request_status] (lines 290-301). *)
Definition update_request_status (request_id : string)
    (status : TargetStatus) (user : Doc User.t) (now : Z) : M unit :=
  req <- query (fun db =>
           or_else (find_one (by_id request_id) (db_servicerequest db))
                   (find_one (by__id request_id) (db_servicerequest db))) ;;
  match req with
  | None => raise 404 "Request not found"
  | Some req =>
      let role := User.role (body user) in
      if role_eqb role provider
         && negb (in_caller_ids (Servicerequest.provider_id (body req)) user)
      then raise 403 "Not your job"
      else if role_eqb role motorist
              && negb (in_caller_ids
                         (Some (Servicerequest.motorist_id (body req))) user)
      then raise 403 "Not your request"
      else
        write (on_servicerequest
                 (update_one (by_id request_id)
                    (fun d => set_updated_at now
                       (set_body (set_request_status (target_status status))
                          d))))
  end.

(** *** Payments, notifications, reviews, disputes *)

(** [create_payment_intent] (lines 304-317); the value of ["intent_id"]. *)
Definition create_payment_intent (payload : PaymentIntentDTO)
    (user : Doc User.t) (now : Z) (oid : string) : M string :=
  sr <- query (fun db =>
          find_one (by_id (pi_request_id payload)) (db_servicerequest db)) ;;
  create_document on_payment oid now
    {| Payment.request_id := pi_request_id payload;
       Payment.motorist_id := caller_id user;
       Payment.provider_id :=
         match sr with
         | Some r => Servicerequest.provider_id (body r)
         | None => None
         end;
       Payment.amount := pi_amount payload;
       Payment.currency := pi_currency payload;
       Payment.status := "initiated";
       Payment.gateway := "peach" |}.

Definition set_payment_status (s : string) (p : Payment.t) : Payment.t :=
  {| Payment.request_id := Payment.request_id p;
     Payment.motorist_id := Payment.motorist_id p;
     Payment.provider_id := Payment.provider_id p;
     Payment.amount := Payment.amount p;
     Payment.currency := Payment.currency p;
     Payment.status := s;
     Payment.gateway := Payment.gateway p |}.

(** [payments_webhook] (lines 319-335), with the two query parameters. *)
Definition payments_webhook (intent_id status : option string) (now : Z)
    : M unit :=
  let status :=
    match status with
    | Some s => s
    | None => "succeeded"
    end in
  if truthy intent_id
  then write (on_payment
                (update_one (by_id (or_str intent_id ""))
                   (fun d => set_updated_at now
                      (set_body (set_payment_status status) d))))
  else ret tt.

(** [register_fcm_token] (lines 338-341). *)
Definition register_fcm_token (token platform : string) (user : Doc User.t)
    (now : Z) (oid : string) : M unit :=
  create_document on_notificationtoken oid now
    {| Notificationtoken.user_id := caller_id user;
       Notificationtoken.fcm_token := token;
       Notificationtoken.platform := platform |} ;;;
  ret tt.

(** [post_review] (lines 371-380); the bounds on [rating] are those of
    [Body(..., ge=1, le=5)]. *)
Definition post_review (request_id provider_id : string) (rating : Z)
    (comment : option string) (user : Doc User.t) (now : Z) (oid : string)
    : M unit :=
  if ((rating <? 1) || (5 <? rating))%Z
  then raise 422 "Unprocessable Entity"
  else
    create_document on_review oid now
      {| Review.request_id := request_id;
         Review.motorist_id := caller_id user;
         Review.provider_id := provider_id;
         Review.rating := rating;
         Review.comment := comment |} ;;;
    ret tt.

(** [raise_dispute] (lines 382-385). *)
Definition raise_dispute (request_id reason : string)
    (details : option string) (user : Doc User.t) (now : Z) (oid : string)
    : M unit :=
  create_document on_dispute oid now
    {| Dispute.request_id := request_id;
       Dispute.raised_by := User.role (body user);
       Dispute.reason := reason;
       Dispute.details := details;
       Dispute.status := "open" |} ;;;
  ret tt.

(** *** Admin *)

Definition set_application_status (s : Providerapplication.status_t)
    (a : Providerapplication.t) : Providerapplication.t :=
  {| Providerapplication.user_id := Providerapplication.user_id a;
     Providerapplication.company_name := Providerapplication.company_name a;
     Providerapplication.service_types :=
       Providerapplication.service_types a;
     Providerapplication.license_number :=
       Providerapplication.license_number a;
     Providerapplication.insurance_policy :=
       Providerapplication.insurance_policy a;
     Providerapplication.documents := Providerapplication.documents a;
     Providerapplication.status := s |}.

(** [admin_set_application_status] (lines 415-426); [approve] tells
    ["approved"] from ["rejected"]. *)
Definition admin_set_application_status (app_id : string) (approve : bool)
    (user : Doc User.t) (now : Z) (oid : string) : M unit :=
  if negb (role_eqb (User.role (body user)) admin)
  then raise 403 "Admins only"
  else
    let status :=
      if approve then Providerapplication.approved
      else Providerapplication.rejected in
    write (on_providerapplication
             (update_one (by_id app_id)
                (set_body (set_application_status status)))) ;;;
    app_doc <- query (fun db =>
                 find_one (by_id app_id) (db_providerapplication db)) ;;
    match app_doc with
    | Some a =>
        if approve
        then
          prof <- query (fun db =>
                    find_one
                      (by_user_id (Providerapplication.user_id (body a)))
                      (db_providerprofile db)) ;;
          match prof with
          | Some _ => ret tt
          | None =>
              create_document on_providerprofile oid now
                {| Providerprofile.user_id :=
                     Providerapplication.user_id (body a);
                   Providerprofile.status := Providerprofile.offline;
                   Providerprofile.service_types :=
                     Some (Providerapplication.service_types (body a));
                   Providerprofile.lat := None;
                   Providerprofile.lng := None |} ;;;
              ret tt
          end
        else ret tt
    | None => ret tt
    end.

(** The handlers that only read: [root], [get_schema], [test_database],
    [list_requests] (which fills ["id"] in the dictionaries it returns, not
    in the store), [send_notification], [admin_overview] and
    [admin_list_applications] call nothing but [find], [find_one],
    [count_documents], [aggregate] and [list_collection_names]. *)
Definition read_only : M unit := ret tt.

(** *** The HTTP surface

    A call names the endpoint and carries its arguments; the endpoints that
    depend on [get_current_user] carry the bearer token. *)
Inductive Call : Type :=
| POST_auth_register (payload : RegisterDTO)
| POST_auth_login (payload : LoginDTO)
| POST_providers_apply (creds : Token) (payload : ProviderApplyDTO)
| POST_providers_status (creds : Token) (payload : ProviderStatusDTO)
| GET_providers_nearby (lat lng : float) (service_type : option string)
    (radius_km : option float)
| POST_requests (creds : Token) (payload : RequestCreateDTO)
| GET_requests (creds : Token)
| POST_requests_status (creds : Token) (request_id : string)
    (status : TargetStatus)
| POST_payments_intent (creds : Token) (payload : PaymentIntentDTO)
| POST_payments_webhook (intent_id status : option string)
| POST_notifications_register (creds : Token) (token platform : string)
| POST_notifications_send (creds : Token)
| POST_reviews (creds : Token) (request_id provider_id : string)
    (rating : Z) (comment : option string)
| POST_disputes (creds : Token) (request_id reason : string)
    (details : option string)
| GET_admin_overview (creds : Token)
| GET_admin_applications (creds : Token)
| POST_admin_applications_status (creds : Token) (app_id : string)
    (approve : bool)
| GET_root
| GET_schema
| GET_test.

(** Forget the body of the response. *)
Definition void {A : Type} (m : M A) : M unit := m ;;; ret tt.

(** A handler behind [Depends(get_current_user)]. *)
Definition authenticated {A : Type} (creds : Token) (now : Z)
    (handler : Doc User.t -> M A) : M unit :=
  user <- get_current_user creds now ;;
  void (handler user).

(** Serve one call at clock reading [now]; [oid] is the identifier the
    store generates if the call inserts a document. *)
Definition serve (c : Call) (now : Z) (oid : string) : M unit :=
  match c with
  | POST_auth_register payload => void (register payload now oid)
  | POST_auth_login payload => void (login payload now)
  | POST_providers_apply creds payload =>
      authenticated creds now (fun user => provider_apply payload user now oid)
  | POST_providers_status creds payload =>
      authenticated creds now
        (fun user => provider_status payload user now oid)
  | GET_providers_nearby _ _ _ _ => read_only
  | POST_requests creds payload =>
      authenticated creds now (fun user => create_request payload user now oid)
  | GET_requests creds => authenticated creds now (fun _ => read_only)
  | POST_requests_status creds request_id status =>
      authenticated creds now
        (fun user => update_request_status request_id status user now)
  | POST_payments_intent creds payload =>
      authenticated creds now
        (fun user => create_payment_intent payload user now oid)
  | POST_payments_webhook intent_id status =>
      payments_webhook intent_id status now
  | POST_notifications_register creds token platform =>
      authenticated creds now
        (fun user => register_fcm_token token platform user now oid)
  | POST_notifications_send creds =>
      authenticated creds now (fun _ => read_only)
  | POST_reviews creds request_id provider_id rating comment =>
      authenticated creds now
        (fun user =>
           post_review request_id provider_id rating comment user now oid)
  | POST_disputes creds request_id reason details =>
      authenticated creds now
        (fun user => raise_dispute request_id reason details user now oid)
  | GET_admin_overview creds => authenticated creds now (fun _ => read_only)
  | GET_admin_applications creds =>
      authenticated creds now (fun _ => read_only)
  | POST_admin_applications_status creds app_id approve =>
      authenticated creds now
        (fun user =>
           admin_set_application_status app_id approve user now oid)
  | GET_root | GET_schema | GET_test => read_only
  end.

(** The store after a sequence of calls, each with its clock reading and
    generated identifier. *)
Fixpoint serve_all (calls : list (Call * Z * string)) (db : DB) : DB :=
  match calls with
  | [] => db
  | (c, now, oid) :: rest => serve_all rest (snd (serve c now oid db))
  end.

(** *** Concurrent handlers

    FastAPI runs handlers declared with [def] on a thread pool, so two
    calls of [create_request] interleave at the granularity of their
    database operations.  A running call is at one of these points. *)
Inductive CreateRequestPoint : Type :=
| at_start
| inserted (req_id : string)
| queried (req_id : string) (nearby : list Nearby.t)
| request_assigned (req_id : string) (chosen : Nearby.t)
| returned (r : Response CreateRequestResponse).

(** One database operation of [create_request]: the insert of line 265,
    the query of line 267, the write of line 270, the write of line 271. *)
Definition create_request_step (payload : RequestCreateDTO)
    (user : Doc User.t) (now : Z) (oid : string)
    (pt : CreateRequestPoint) (db : DB) : CreateRequestPoint * DB :=
  match pt with
  | at_start =>
      if negb (role_eqb (User.role (body user)) motorist)
      then (returned (HTTPException 403 "Only motorists can create requests"),
            db)
      else
        (inserted oid,
         snd (create_document on_servicerequest oid now
                (request_doc payload user) db))
  | inserted req_id =>
      (queried req_id
         (providers_nearby (pickup_lat payload) (pickup_lng payload)
            (Some (rc_service_type payload)) default_radius_km db),
       db)
  | queried req_id [] =>
      (returned (Ok {| request_id := req_id; match_ := None |}), db)
  | queried req_id (chosen :: _) =>
      (request_assigned req_id chosen, snd (assign_request req_id chosen db))
  | request_assigned req_id chosen =>
      (returned
         (Ok {| request_id := req_id;
                match_ := Some {| match_provider_id := Nearby.user_id chosen;
                                  eta_min := eta_of chosen |} |}),
       snd (mark_busy chosen db))
  | returned r => (returned r, db)
  end.

(** The arguments of one call of [create_request]. *)
Record CreateRequestCall : Type := {
  call_payload : RequestCreateDTO;
  call_user : Doc User.t;
  call_now : Z;
  call_oid : string
}.

Definition step_call (c : CreateRequestCall)
    : CreateRequestPoint -> DB -> CreateRequestPoint * DB :=
  create_request_step (call_payload c) (call_user c) (call_now c)
    (call_oid c).

(** Two calls in flight over one store. *)
Record Race : Type := {
  first_point : CreateRequestPoint;
  second_point : CreateRequestPoint;
  store : DB
}.

(** The scheduler lets the first ([true]) or the second ([false]) call
    perform its next database operation. *)
Definition race_step (c1 c2 : CreateRequestCall) (s : Race) (first : bool)
    : Race :=
  if first
  then let (pt, db) := step_call c1 (first_point s) (store s) in
       {| first_point := pt; second_point := second_point s; store := db |}
  else let (pt, db) := step_call c2 (second_point s) (store s) in
       {| first_point := first_point s; second_point := pt; store := db |}.

Definition run_schedule (c1 c2 : CreateRequestCall) (schedule : list bool)
    (db : DB) : Race :=
  fold_left (race_step c1 c2) schedule
    {| first_point := at_start; second_point := at_start; store := db |}.

(** The requests of the store that are assigned to provider [p]. *)
Definition assigned_to (p : string) (db : DB)
    : list (Doc Servicerequest.t) :=
  filter (fun d =>
            match Servicerequest.status (body d) with
            | Servicerequest.assigned =>
                option_string_eqb (Servicerequest.provider_id (body d))
                  (Some p)
            | _ => false
            end)
    (db_servicerequest db).

(** [n] database operations of one call, without interruption. *)
Fixpoint run_steps (c : CreateRequestCall) (n : nat)
    (pt : CreateRequestPoint) (db : DB) : CreateRequestPoint * DB :=
  match n with
  | O => (pt, db)
  | S n' =>
      let (pt', db') := step_call c pt db in
      run_steps c n' pt' db'
  end.

(** A call, run as a whole. *)
Definition run_call (c : CreateRequestCall) : M CreateRequestResponse :=
  create_request (call_payload c) (call_user c) (call_now c) (call_oid c).

(** The first call runs to its end, then the second. *)
Definition one_after_the_other : list bool :=
  [true; true; true; true; false; false; false; false].

(** Both calls insert and query before either writes a match. *)
Definition both_query_first : list bool :=
  [true; true; false; false; true; true; false; false].

End API.

(** ** The ownership test, in one piece *)

Section Ownership.
Context {F : PyFloat}.

(** The ownership test of [update_request_status]: what lets [user] pass
    for request [req]. *)
Definition may_update (user : Doc User.t) (req : Doc Servicerequest.t)
    : bool :=
  match User.role (body user) with
  | provider => in_caller_ids (Servicerequest.provider_id (body req)) user
  | motorist =>
      in_caller_ids (Some (Servicerequest.motorist_id (body req))) user
  | admin => true
  end.

End Ownership.

(** ** Assignments are kept *)

Section Assignments.
Context {F : PyFloat}.

(** From collection [c] to collection [c']: every request that has a
    [provider_id] is still there, at its place and under its [_id], and
    still has one. *)
Definition keeps_providers (c c' : list (Doc Servicerequest.t)) : Prop :=
  forall i d,
    nth_error c i = Some d ->
    Servicerequest.provider_id (body d) <> None ->
    exists d',
      nth_error c' i = Some d'
      /\ _id d' = _id d
      /\ Servicerequest.provider_id (body d') <> None.

(** A handler that keeps the assignments, whatever the store. *)
Definition preserving {A : Type} (m : M A) : Prop :=
  forall db,
    keeps_providers (db_servicerequest db) (db_servicerequest (snd (m db))).

End Assignments.

(** ** What the nearby query is specified to return *)

Section NearbySpec.
Context {F : PyFloat}.

Definition services (p : Doc Providerprofile.t) : list string :=
  match Providerprofile.service_types (body p) with
  | Some l => l
  | None => []
  end.

(** The recorded coordinate of a profile, when it has both parts. *)
Definition position (p : Doc Providerprofile.t) : option LocationDTO :=
  match Providerprofile.lat (body p), Providerprofile.lng (body p) with
  | Some plat, Some plng => Some {| lat := plat; lng := plng |}
  | _, _ => None
  end.

(** The entry returned for a profile: its distance is rounded. *)
Definition nearby_view (origin : LocationDTO) (p : Doc Providerprofile.t)
    : list Nearby.t :=
  match position p with
  | Some loc =>
      [ {| Nearby.user_id := Providerprofile.user_id (body p);
           Nearby.lat := lat loc;
           Nearby.lng := lng loc;
           Nearby.distance_km := round2 (distance_km origin loc) |} ]
  | None => []
  end.

(** Within the radius, by the unrounded distance. *)
Definition within (origin : LocationDTO) (radius_km : float)
    (p : Doc Providerprofile.t) : bool :=
  match position p with
  | Some loc => (distance_km origin loc <=? radius_km)%fl
  | None => false
  end.


(** The capability filter of the code: an empty service type counts as
    absent. *)
Definition serves (service_type : option string)
    (p : Doc Providerprofile.t) : bool :=
  match service_type with
  | Some st => (st =? "")%string || str_in st (services p)
  | None => true
  end.

(** The entries of the eligible profiles, in the order of the scan. *)
Definition selected (serves_filter : option string -> Doc Providerprofile.t -> bool)
    (origin : LocationDTO) (service_type : option string) (radius_km : float)
    (profiles : list (Doc Providerprofile.t)) : list Nearby.t :=
  flat_map (nearby_view origin)
    (filter (fun p => is_online p && serves_filter service_type p
                      && within origin radius_km p) profiles).


End NearbySpec.

(** ** Listings *)

Section Listings.
Context {F : PyFloat}.

(** The cursor method [sort("created_at", -1)] of the driver. *)
Variable sort_created_at_desc : forall A : Type, list (Doc A) -> list (Doc A).

(** [it["id"] = it.get("id") or str(it.get("_id"))], on a returned
    dictionary. *)
Definition fill_id {A : Type} (it : Doc A) : Doc A :=
  set_id (or_str (id it) (_id it)) it.

(** The filter of [list_requests] for the role of the caller. *)
Definition visible_to (user : Doc User.t) (d : Doc Servicerequest.t) : bool :=
  match User.role (body user) with
  | motorist =>
      (Servicerequest.motorist_id (body d) =? caller_id user)%string
  | provider =>
      option_string_eqb (Servicerequest.provider_id (body d))
        (Some (caller_id user))
  | admin => true
  end.

(** [list_requests] (lines 277-288); the value of the ["items"] key. *)
Definition list_requests (user : Doc User.t) (db : DB)
    : list (Doc Servicerequest.t) :=
  let items :=
    sort_created_at_desc (find (visible_to user) (db_servicerequest db)) in
  map fill_id items.

(** [admin_list_applications] (lines 406-413). *)
Definition admin_list_applications (user : Doc User.t) (db : DB)
    : Response (list (Doc Providerapplication.t)) :=
  if negb (role_eqb (User.role (body user)) admin)
  then HTTPException 403 "Admins only"
  else
    let items :=
      sort_created_at_desc (find (fun _ => true) (db_providerapplication db))
    in
    Ok (map fill_id items).

End Listings.

(** ** How the store evolves *)

Section Evolution.
Context {F : PyFloat}.

(** From collection [c] to [c']: every document of [c] has a successor at
    the same place, related to it by [P], and documents may have been
    added at the end. *)
Definition grows {A : Type} (P : Doc A -> Doc A -> Prop)
    (c c' : list (Doc A)) : Prop :=
  exists kept added, c' = kept ++ added /\ Forall2 P c kept.

(** The same document but for the mirrored [id]. *)
Definition same_but_id {A : Type} (d d' : Doc A) : Prop :=
  _id d' = _id d /\ created_at d' = created_at d
  /\ updated_at d' = updated_at d /\ body d' = body d.

Definition same_application (d d' : Doc Providerapplication.t) : Prop :=
  _id d' = _id d /\ id d' = id d /\ created_at d' = created_at d
  /\ updated_at d' = updated_at d
  /\ Providerapplication.user_id (body d')
     = Providerapplication.user_id (body d)
  /\ Providerapplication.company_name (body d')
     = Providerapplication.company_name (body d)
  /\ Providerapplication.service_types (body d')
     = Providerapplication.service_types (body d)
  /\ Providerapplication.license_number (body d')
     = Providerapplication.license_number (body d)
  /\ Providerapplication.insurance_policy (body d')
     = Providerapplication.insurance_policy (body d)
  /\ Providerapplication.documents (body d')
     = Providerapplication.documents (body d).

Definition same_profile (d d' : Doc Providerprofile.t) : Prop :=
  _id d' = _id d /\ id d' = id d /\ created_at d' = created_at d
  /\ updated_at d' = updated_at d
  /\ Providerprofile.service_types (body d')
     = Providerprofile.service_types (body d).

Definition same_request (d d' : Doc Servicerequest.t) : Prop :=
  _id d' = _id d /\ id d' = id d /\ created_at d' = created_at d
  /\ Servicerequest.motorist_id (body d')
     = Servicerequest.motorist_id (body d)
  /\ Servicerequest.service_type (body d')
     = Servicerequest.service_type (body d)
  /\ Servicerequest.description (body d')
     = Servicerequest.description (body d)
  /\ Servicerequest.pickup_lat (body d')
     = Servicerequest.pickup_lat (body d)
  /\ Servicerequest.pickup_lng (body d')
     = Servicerequest.pickup_lng (body d).

Definition same_payment (d d' : Doc Payment.t) : Prop :=
  _id d' = _id d /\ id d' = id d /\ created_at d' = created_at d
  /\ Payment.request_id (body d') = Payment.request_id (body d)
  /\ Payment.motorist_id (body d') = Payment.motorist_id (body d)
  /\ Payment.provider_id (body d') = Payment.provider_id (body d)
  /\ Payment.amount (body d') = Payment.amount (body d)
  /\ Payment.currency (body d') = Payment.currency (body d)
  /\ Payment.gateway (body d') = Payment.gateway (body d).

(** What a handler may do to the store: add documents at the end of a
    collection, and rewrite in place the parts of a document that the
    relations above leave open. *)
Record evolves (db db' : DB) : Prop := {
  ev_user : grows same_but_id (db_user db) (db_user db');
  ev_providerapplication :
    grows same_application (db_providerapplication db)
      (db_providerapplication db');
  ev_providerprofile :
    grows same_profile (db_providerprofile db) (db_providerprofile db');
  ev_servicerequest :
    grows same_request (db_servicerequest db) (db_servicerequest db');
  ev_payment : grows same_payment (db_payment db) (db_payment db');
  ev_review : grows eq (db_review db) (db_review db');
  ev_dispute : grows eq (db_dispute db) (db_dispute db');
  ev_notificationtoken :
    grows eq (db_notificationtoken db) (db_notificationtoken db')
}.

(** A handler whose writes stay within the relation [R]. *)
Definition keeping (R : DB -> DB -> Prop) {A : Type} (m : M A) : Prop :=
  forall db, R db (snd (m db)).

(** Every document of [c] is still at its place in [c'], related to what
    it was by [P]. *)
Definition stays_put {A : Type} (P : Doc A -> Doc A -> Prop)
    (c c' : list (Doc A)) : Prop :=
  forall i d,
    nth_error c i = Some d -> exists d', nth_error c' i = Some d' /\ P d d'.

(** The e-mail addresses and the phone numbers that [register] checks:
    those that are truthy. *)
Definition truthy_values (l : list (option string)) : list string :=
  flat_map (fun o => if truthy o then [or_str o ""] else []) l.

Definition emails (users : list (Doc User.t)) : list string :=
  truthy_values (map (fun d => User.email (body d)) users).

Definition phones (users : list (Doc User.t)) : list string :=
  truthy_values (map (fun d => User.phone (body d)) users).

End Evolution.

(** ** Registration, in words *)

Section Registration.
Context {F : PyFloat}.

(** The e-mail address of the payload is given and some stored user has
    it. *)
Definition email_taken (payload : RegisterDTO) (db : DB) : Prop :=
  truthy (reg_email payload) = true
  /\ exists u, In u (db_user db) /\ User.email (body u) = reg_email payload.

Definition phone_taken (payload : RegisterDTO) (db : DB) : Prop :=
  truthy (reg_phone payload) = true
  /\ exists u, In u (db_user db) /\ User.phone (body u) = reg_phone payload.

(** The generated identifier is not in use among the users. *)
Definition fresh_user_id (oid : string) (db : DB) : Prop :=
  forall u, In u (db_user db) -> _id u <> oid /\ id u <> Some oid.

(** The document [doc] that [register] stores (lines 173-182). *)
Definition registered_user (pwd_hash : string -> string)
    (payload : RegisterDTO) : User.t :=
  {| User.name := reg_name payload;
     User.email := reg_email payload;
     User.phone := reg_phone payload;
     User.role := reg_role payload;
     User.is_verified := false;
     User.is_active := true;
     User.password_hash :=
       if truthy (reg_password payload)
       then Some (pwd_hash (or_str (reg_password payload) ""))
       else None |}.

(** From store [db] to store [db']: e-mail addresses and phone numbers
    that were unique among the users still are. *)
Definition contacts_stay_unique (db db' : DB) : Prop :=
  (NoDup (emails (db_user db)) -> NoDup (emails (db_user db')))
  /\ (NoDup (phones (db_user db)) -> NoDup (phones (db_user db'))).

(** The login that names the registered e-mail address and a password. *)
Definition login_of (payload : RegisterDTO) (password : string) : LoginDTO :=
  {| login_email := reg_email payload;
     login_phone := None;
     login_password := Some password |}.

End Registration.

(** ** Documents that handlers store *)

Section StoredDocuments.
Context {F : PyFloat}.

(** The document [application] of [provider_apply] (lines 211-219). *)
Definition application_doc (payload : ProviderApplyDTO) (user : Doc User.t)
    : Providerapplication.t :=
  {| Providerapplication.user_id := caller_id user;
     Providerapplication.company_name := pa_company_name payload;
     Providerapplication.service_types := pa_service_types payload;
     Providerapplication.license_number := pa_license_number payload;
     Providerapplication.insurance_policy := pa_insurance_policy payload;
     Providerapplication.documents := [];
     Providerapplication.status := Providerapplication.pending |}.

(** The profile that an approval creates (line 425). *)
Definition approved_profile (uid : string) (service_types : list string)
    : Providerprofile.t :=
  {| Providerprofile.user_id := uid;
     Providerprofile.status := Providerprofile.offline;
     Providerprofile.service_types := Some service_types;
     Providerprofile.lat := None;
     Providerprofile.lng := None |}.

(** The payment that [create_payment_intent] stores, with the status that
    a webhook call has set since. *)
Definition payment_doc (payload : PaymentIntentDTO) (user : Doc User.t)
    (provider_id : option string) (status : string) : Payment.t :=
  {| Payment.request_id := pi_request_id payload;
     Payment.motorist_id := caller_id user;
     Payment.provider_id := provider_id;
     Payment.amount := pi_amount payload;
     Payment.currency := pi_currency payload;
     Payment.status := status;
     Payment.gateway := "peach" |}.

End StoredDocuments.

(** ** Orders *)

Section Orders.
Context {F : PyFloat}.


End Orders.

(** ** One profile per provider *)

Section ProfileInvariant.
Context {F : PyFloat}.

(** No two profiles share an [_id], and no two share a [user_id]. *)
Definition profiles_unique (db : DB) : Prop :=
  NoDup (map (fun d => _id d) (db_providerprofile db))
  /\ NoDup (map (fun d => Providerprofile.user_id (body d))
              (db_providerprofile db)).

Definition same_profiles (db db' : DB) : Prop :=
  db_providerprofile db' = db_providerprofile db.

(** What one call can do to the profiles: nothing; rewrite one profile
    without touching [_id] and [user_id]; rewrite the presence of the
    profile with the [_id] of the one found for a [user_id]; or add a
    profile for a [user_id] that had none. *)
Definition profile_step (oid : string) (db db' : DB) : Prop :=
  db_providerprofile db' = db_providerprofile db
  \/ (exists q set,
        db_providerprofile db' = update_one q set (db_providerprofile db)
        /\ forall d,
             _id (set d) = _id d
             /\ Providerprofile.user_id (body (set d))
                = Providerprofile.user_id (body d))
  \/ (exists prof uid payload,
        find_one (by_user_id uid) (db_providerprofile db) = Some prof
        /\ db_providerprofile db'
           = update_one (by__id (_id prof))
               (set_body (set_presence uid payload)) (db_providerprofile db))
  \/ (exists now data,
        find_one (by_user_id (Providerprofile.user_id data))
          (db_providerprofile db) = None
        /\ db_providerprofile db'
           = db_providerprofile db ++ [new_document oid now data]).

End ProfileInvariant.

(** ** Ratings *)

Section Ratings.
Context {F : PyFloat}.

(** Every stored review has a rating from 1 to 5. *)
Definition ratings_in_range (db : DB) : Prop :=
  Forall (fun r => (1 <= Review.rating (body r) <= 5)%Z) (db_review db).

Definition ratings_stay_in_range (db db' : DB) : Prop :=
  ratings_in_range db -> ratings_in_range db'.

End Ratings.

(** ** Exact real arithmetic as an instance of [PyFloat] *)

Module RealFloat.
Local Open Scope R_scope.

Definition Rleb (a b : R) : bool := if Rle_dec a b then true else false.

Definition Rltb (a b : R) : bool := if Rlt_dec a b then true else false.

(** The angle of the point [(x, y)], in [(-PI, PI]]. *)
Definition Ratan2 (y x : R) : R :=
  if Rlt_dec 0 x then atan (y / x)
  else if Rlt_dec x 0
       then (if Rle_dec 0 y then atan (y / x) + PI else atan (y / x) - PI)
       else if Rlt_dec 0 y then PI / 2
            else if Rlt_dec y 0 then - (PI / 2) else 0.

(** Rounding to the nearest integer, ties to even. *)
Definition round_half_even (x : R) : Z :=
  let f := Zfloor x in
  if Rlt_dec (x - IZR f) (1 / 2) then f
  else if Rlt_dec (1 / 2) (x - IZR f) then (f + 1)%Z
       else if Z.even f then f else (f + 1)%Z.

Definition Rround2 (x : R) : R := IZR (round_half_even (x * 100)) / 100.

(** Truncation towards zero. *)
Definition Rtrunc (x : R) : Z :=
  if Rle_dec 0 x then Zfloor x else (- Zfloor (- x))%Z.

Definition real_float : PyFloat :=
  {| float := R;
     float_of_Q := Q2R;
     fadd := Rplus;
     fsub := Rminus;
     fmul := Rmult;
     fdiv := Rdiv;
     fpow2 := Rsqr;
     radians := fun x => x * (PI / 180);
     sin := Rtrigo_def.sin;
     cos := Rtrigo_def.cos;
     sqrt := R_sqrt.sqrt;
     atan2 := Ratan2;
     fleb := Rleb;
     fltb := Rltb;
     round2 := Rround2;
     float_to_int := Rtrunc |}.

End RealFloat.

(** ** Example data *)

Module Examples.
Import RealFloat.
#[local] Existing Instance real_float.

Local Open Scope R_scope.

(** A pickup point, and a tow provider who is online at that very point. *)
Definition pickup : LocationDTO := {| lat := - 2620 / 100; lng := 2805 / 100 |}.

Definition tow_provider : Doc Providerprofile.t :=
  {| _id := "p1"; id := Some "p1";
     created_at := Some 0%Z; updated_at := Some 0%Z;
     body := {| Providerprofile.user_id := "provider-1";
                Providerprofile.status := Providerprofile.online;
                Providerprofile.service_types := Some ["tow"];
                Providerprofile.lat := Some (lat pickup);
                Providerprofile.lng := Some (lng pickup) |} |}.

Definition tow_entry : Nearby.t :=
  {| Nearby.user_id := "provider-1";
     Nearby.lat := lat pickup;
     Nearby.lng := lng pickup;
     Nearby.distance_km := 0 |}.

Definition empty_db : DB :=
  {| db_user := []; db_providerapplication := []; db_providerprofile := [];
     db_servicerequest := []; db_payment := []; db_review := [];
     db_dispute := []; db_notificationtoken := [] |}.

(** A store whose only provider profile is [tow_provider]. *)
Definition one_provider_db : DB :=
  on_providerprofile (fun _ => [tow_provider]) empty_db.


Definition example_motorist : Doc User.t :=
  {| _id := "m1"; id := Some "m1";
     created_at := Some 0%Z; updated_at := Some 0%Z;
     body := {| User.name := "Thandi";
                User.email := Some "thandi@example.org";
                User.phone := None;
                User.role := motorist;
                User.password_hash := None;
                User.is_verified := false;
                User.is_active := true |} |}.

(** A request for a tow at the pickup point. *)
Definition tow_request : RequestCreateDTO :=
  {| rc_service_type := "tow";
     rc_description := None;
     pickup_lat := lat pickup;
     pickup_lng := lng pickup |}.


(** A request of [example_motorist] with the given provider and status. *)
Definition request_of_m1 (provider_id : option string)
    (status : Servicerequest.status_t) : Doc Servicerequest.t :=
  {| _id := "r1"; id := Some "r1";
     created_at := Some 100%Z; updated_at := Some 100%Z;
     body := {| Servicerequest.motorist_id := "m1";
                Servicerequest.service_type := "tow";
                Servicerequest.description := None;
                Servicerequest.pickup_lat := lat pickup;
                Servicerequest.pickup_lng := lng pickup;
                Servicerequest.provider_id := provider_id;
                Servicerequest.status := status |} |}.

(** A store whose only request is the given one. *)
Definition one_request_db (r : Doc Servicerequest.t) : DB :=
  on_servicerequest (fun _ => [r]) empty_db.

(** A provider whose user document was never given the mirrored [id]; the
    token's subject resolves to it through the [_id] fallback of
    [get_current_user]. *)
Definition unmirrored_provider : Doc User.t :=
  {| _id := "p9"; id := None;
     created_at := None; updated_at := None;
     body := {| User.name := "Sipho";
                User.email := None;
                User.phone := Some "+27110000000";
                User.role := provider;
                User.password_hash := None;
                User.is_verified := false;
                User.is_active := true |} |}.

(** The same request, stored without the mirrored [id]. *)
Definition unmirrored_request : Doc Servicerequest.t :=
  {| _id := "r1"; id := None;
     created_at := Some 100%Z; updated_at := Some 100%Z;
     body := body (request_of_m1 None Servicerequest.pending) |}.


(** A bearer token whose subject is [unmirrored_provider]. *)
Definition provider_token : Token :=
  {| sub := "p9"; token_role := provider; exp := 3600; iat := 0 |}.

(** A store with [unmirrored_provider] and one request that is still
    pending and has no provider. *)
Definition pending_request_db : DB :=
  on_user (fun _ => [unmirrored_provider])
    (one_request_db (request_of_m1 None Servicerequest.pending)).


(** A user who registered with a password (the stored hash is opaque
    here), and a login that names the e-mail address and gives no
    password. *)
Definition user_with_password : Doc User.t :=
  {| _id := "u7"; id := Some "u7";
     created_at := Some 0%Z; updated_at := Some 0%Z;
     body := {| User.name := "Lerato";
                User.email := Some "lerato@example.org";
                User.phone := None;
                User.role := admin;
                User.password_hash := Some "$2b$12$hash";
                User.is_verified := false;
                User.is_active := true |} |}.

Definition passwordless_login : LoginDTO :=
  {| login_email := Some "lerato@example.org";
     login_phone := None;
     login_password := None |}.

Definition one_user_db : DB := on_user (fun _ => [user_with_password]) empty_db.


Definition second_motorist : Doc User.t :=
  {| _id := "m2"; id := Some "m2";
     created_at := Some 0%Z; updated_at := Some 0%Z;
     body := {| User.name := "Pieter";
                User.email := None;
                User.phone := Some "+27210000000";
                User.role := motorist;
                User.password_hash := None;
                User.is_verified := false;
                User.is_active := true |} |}.

(** Two motorists ask for a tow at the pickup point. *)
Definition first_call : CreateRequestCall :=
  {| call_payload := tow_request; call_user := example_motorist;
     call_now := 100; call_oid := "r1" |}.

Definition second_call : CreateRequestCall :=
  {| call_payload := tow_request; call_user := second_motorist;
     call_now := 101; call_oid := "r2" |}.







(** A registration with e-mail address and password. *)
Definition ana_registration : RegisterDTO :=
  {| reg_name := "Ana";
     reg_email := Some "ana@example.org";
     reg_phone := None;
     reg_password := Some "s3cret";
     reg_role := motorist |}.

(** A stand-in for passlib: the hash is the password behind a marker. *)
Definition toy_hash (password : string) : string := "hash:" ++ password.

Definition toy_verify (password hash : string) : bool :=
  (hash =? toy_hash password)%string.


(** A provider reports being online at the pickup point. *)
Definition online_at_pickup : ProviderStatusDTO :=
  {| ps_status := Providerprofile.online;
     ps_lat := Some (lat pickup);
     ps_lng := Some (lng pickup) |}.

Definition tow_application : ProviderApplyDTO :=
  {| pa_company_name := Some "Sipho Tow";
     pa_service_types := ["tow"];
     pa_license_number := None;
     pa_insurance_policy := None |}.

Definition example_admin : Doc User.t := user_with_password.

Definition tow_payment : PaymentIntentDTO :=
  {| pi_request_id := "r1"; pi_amount := 450; pi_currency := "ZAR" |}.


(** The point (0, 0). *)
Definition null_island : LocationDTO := {| lat := 0; lng := 0 |}.


(** A driver-side sort by [created_at], newest first, documents without
    [created_at] last. *)
Definition newer {A : Type} (a b : Doc A) : bool :=
  match created_at a, created_at b with
  | Some x, Some y => (y <? x)%Z
  | Some _, None => true
  | None, _ => false
  end.

Fixpoint insert_newest {A : Type} (x : Doc A) (l : list (Doc A))
    : list (Doc A) :=
  match l with
  | [] => [x]
  | y :: l' => if newer x y then x :: y :: l' else y :: insert_newest x l'
  end.

Definition newest_first (A : Type) (l : list (Doc A)) : list (Doc A) :=
  fold_right insert_newest [] l.


End Examples.

(** * Properties *)

(** ** The nearby query *)

Section NearbyFacts.
Context {F : PyFloat}.

Lemma lacks_service_serves (service_type : option string)
    (p : Doc Providerprofile.t) :
  lacks_service service_type p = negb (serves service_type p).
Proof.
  destruct service_type as [st|]; simpl; [|reflexivity].
  unfold services. now rewrite negb_orb.
Qed.

(** One turn of the loop appends the entry of [p] when [p] passes both
    filters, and nothing otherwise. *)
Lemma nearby_step_app (origin : LocationDTO) (service_type : option string)
    (radius_km : float) (results : list Nearby.t)
    (p : Doc Providerprofile.t) :
  nearby_step origin service_type radius_km results p
  = results ++ (if serves service_type p && within origin radius_km p
                then nearby_view origin p else []).
Proof.
  unfold nearby_step, within, nearby_view, position.
  rewrite lacks_service_serves.
  destruct (serves service_type p); simpl.
  - destruct (Providerprofile.lat (body p)) as [plat|];
      [destruct (Providerprofile.lng (body p)) as [plng|]|];
      simpl; try now rewrite app_nil_r.
    destruct (fleb _ _); [reflexivity | now rewrite app_nil_r].
  - now rewrite app_nil_r.
Qed.

Lemma nearby_loop (origin : LocationDTO) (service_type : option string)
    (radius_km : float) (profiles : list (Doc Providerprofile.t)) :
  forall results,
    fold_left (nearby_step origin service_type radius_km) profiles results
    = results
      ++ flat_map (nearby_view origin)
           (filter (fun p => serves service_type p
                             && within origin radius_km p) profiles).
Proof.
  induction profiles as [|p profiles IH]; intros results; simpl.
  - now rewrite app_nil_r.
  - rewrite IH, nearby_step_app.
    destruct (serves service_type p && within origin radius_km p); simpl.
    + now rewrite <- app_assoc.
    + now rewrite app_nil_r.
Qed.

Lemma filter_filter {A : Type} (f g : A -> bool) (l : list A) :
  filter g (filter f l) = filter (fun x => f x && g x) l.
Proof.
  induction l as [|x l IH]; simpl; [reflexivity|].
  destruct (f x); simpl; [destruct (g x)|]; now rewrite IH.
Qed.

(** Before sorting, the result list holds the entries of the eligible
    profiles in the order of the scan. *)
Lemma nearby_results (lat lng : float) (service_type : option string)
    (radius_km : float) (db : DB) :
  providers_nearby lat lng service_type radius_km db
  = sort_by_distance
      (selected serves {| lat := lat; lng := lng |} service_type radius_km
         (db_providerprofile db)).
Proof.
  unfold providers_nearby, selected, find.
  rewrite nearby_loop, filter_filter. simpl.
  f_equal. f_equal. apply filter_ext. intros p.
  now rewrite andb_assoc.
Qed.

Lemma insert_by_distance_perm (x : Nearby.t) (l : list Nearby.t) :
  Permutation (insert_by_distance x l) (x :: l).
Proof.
  induction l as [|y l IH]; simpl; [reflexivity|].
  destruct (fltb _ _); [reflexivity|].
  rewrite IH. apply perm_swap.
Qed.

Lemma fold_insert_perm (l : list Nearby.t) :
  forall sorted,
    Permutation
      (fold_left (fun sorted x => insert_by_distance x sorted) l sorted)
      (sorted ++ l).
Proof.
  induction l as [|x l IH]; intros sorted; simpl.
  - now rewrite app_nil_r.
  - rewrite IH, insert_by_distance_perm.
    simpl. apply Permutation_middle.
Qed.

Lemma sort_by_distance_perm (l : list Nearby.t) :
  Permutation (sort_by_distance l) l.
Proof. unfold sort_by_distance. now rewrite fold_insert_perm. Qed.

Section Ordered.
(** [<] on floats never holds in both directions. *)
Hypothesis fltb_asym :
  forall a b : float, (a <? b)%fl = true -> (b <? a)%fl = false.





End Ordered.
End NearbyFacts.


(** ** Facts of the real-number instance *)

Module RealFacts.
Import RealFloat Examples.
#[local] Existing Instance real_float.
Local Open Scope R_scope.

Lemma Q2R_1 : Q2R 1 = 1.
Proof. unfold Q2R. simpl. lra. Qed.

Lemma Q2R_30 : Q2R 30 = 30.
Proof. unfold Q2R. simpl. lra. Qed.


Lemma Ratan2_0_1 : Ratan2 0 1 = 0.
Proof.
  unfold Ratan2. destruct (Rlt_dec 0 1) as [_|H]; [|lra].
  replace (0 / 1) with 0 by lra. apply atan_0.
Qed.

(** A point is at distance zero from itself. *)
Lemma distance_km_self (a : LocationDTO) : distance_km a a = 0.
Proof.
  unfold distance_km.
  cbn -[Q2R PI Rtrigo_def.sin Rtrigo_def.cos R_sqrt.sqrt Ratan2].
  rewrite !Rminus_diag.
  replace (0 / Q2R 2) with 0 by (unfold Q2R; simpl; lra).
  rewrite sin_0, Rsqr_0, Rmult_0_r, Rplus_0_r, sqrt_0.
  rewrite Q2R_1, Rminus_0_r, sqrt_1, Ratan2_0_1. lra.
Qed.

Lemma round_half_even_0 : round_half_even 0 = 0%Z.
Proof.
  unfold round_half_even. rewrite (ZfloorZ 0).
  destruct (Rlt_dec (0 - 0) (1 / 2)); [reflexivity | lra].
Qed.

Lemma Rround2_0 : Rround2 0 = 0.
Proof. unfold Rround2. rewrite Rmult_0_l, round_half_even_0. lra. Qed.

Lemma Rtrunc_0 : Rtrunc 0 = 0%Z.
Proof.
  unfold Rtrunc. destruct (Rle_dec 0 0); [apply (ZfloorZ 0) | lra].
Qed.

Lemma within_pickup : within pickup default_radius_km tow_provider = true.
Proof.
  unfold within, position, tow_provider. cbn [body Providerprofile.lat Providerprofile.lng].
  replace {| lat := lat pickup; lng := lng pickup |} with pickup by reflexivity.
  rewrite distance_km_self. unfold default_radius_km.
  cbn [fleb float_of_Q real_float]. rewrite Q2R_30.
  unfold Rleb. destruct (Rle_dec 0 30); [reflexivity | lra].
Qed.

Lemma nearby_view_pickup : nearby_view pickup tow_provider = [tow_entry].
Proof.
  unfold nearby_view, position, tow_provider.
  cbn [body Providerprofile.lat Providerprofile.lng Providerprofile.user_id].
  replace {| lat := lat pickup; lng := lng pickup |} with pickup by reflexivity.
  rewrite distance_km_self. cbn [round2 real_float]. rewrite Rround2_0.
  reflexivity.
Qed.

(** From the pickup point, the nearby query over a list of profiles of
    which only [tow_provider] passes the filters returns its entry. *)
Lemma nearby_tow_provider (service_type : option string) (db : DB) :
  filter (fun p => is_online p && serves service_type p
                   && within pickup default_radius_km p)
    (db_providerprofile db) = [tow_provider] ->
  providers_nearby (lat pickup) (lng pickup) service_type default_radius_km db
  = [tow_entry].
Proof.
  intros H. rewrite nearby_results.
  replace {| lat := lat pickup; lng := lng pickup |} with pickup by reflexivity.
  unfold selected. rewrite H.
  cbn [flat_map]. rewrite nearby_view_pickup. reflexivity.
Qed.

Lemma filter_one_provider (service_type : option string) (db : DB) :
  db_providerprofile db = [tow_provider] ->
  serves service_type tow_provider = true ->
  filter (fun p => is_online p && serves service_type p
                   && within pickup default_radius_km p)
    (db_providerprofile db) = [tow_provider].
Proof.
  intros -> H. cbn [filter]. rewrite H, within_pickup. reflexivity.
Qed.

End RealFacts.



(** ** The document store *)

Section MongoFacts.
Variable A : Type.
Implicit Types (q : Doc A -> bool) (set : Doc A -> Doc A) (c : list (Doc A)).

Lemma update_one_no_match q set c :
  (forall d, In d c -> q d = false) -> update_one q set c = c.
Proof.
  induction c as [|d c IH]; intros H; simpl; [reflexivity|].
  rewrite (H d (or_introl eq_refl)). f_equal. apply IH.
  intros d' Hd'. apply H. now right.
Qed.

Lemma update_one_app_last q set c (x : Doc A) :
  (forall d, In d c -> q d = false) ->
  update_one q set (c ++ [x]) = c ++ [if q x then set x else x].
Proof.
  induction c as [|d c IH]; intros H; simpl.
  - now destruct (q x).
  - rewrite (H d (or_introl eq_refl)). f_equal. apply IH.
    intros d' Hd'. apply H. now right.
Qed.

Lemma find_one_no_match q c :
  find_one q c = None <-> (forall d, In d c -> q d = false).
Proof.
  unfold find_one. split.
  - intros H d Hd. exact (find_none q c H d Hd).
  - induction c as [|d c IH]; intros H; simpl; [reflexivity|].
    rewrite (H d (or_introl eq_refl)). apply IH.
    intros d' Hd'. apply H. now right.
Qed.


Lemma find_one_exists q c (d : Doc A) :
  In d c -> q d = true -> exists d', find_one q c = Some d'.
Proof.
  intros Hin Hq. destruct (find_one q c) as [d'|] eqn:E; [now exists d'|].
  rewrite find_one_no_match in E. rewrite (E d Hin) in Hq. discriminate.
Qed.

End MongoFacts.

(** ** Request creation *)

Section CreateRequestFacts.
Context {F : PyFloat}.

(** Every entry of the nearby query stems from a stored profile. *)
Lemma nearby_from_profile (olat olng : float) (service_type : option string)
    (radius_km : float) (db : DB) (e : Nearby.t) :
  In e (providers_nearby olat olng service_type radius_km db) ->
  exists p, In p (db_providerprofile db)
            /\ is_online p = true
            /\ Providerprofile.user_id (body p) = Nearby.user_id e.
Proof.
  rewrite nearby_results. intros He.
  apply (Permutation_in _ (sort_by_distance_perm _)) in He.
  unfold selected in He. apply in_flat_map in He as (p & Hp & He).
  apply filter_In in Hp as (Hin & Hok).
  apply andb_true_iff in Hok as (Hok & _).
  apply andb_true_iff in Hok as (Honline & _).
  exists p. repeat split; try assumption.
  unfold nearby_view in He. destruct (position p); [|contradiction].
  destruct He as [<-|[]]. reflexivity.
Qed.

(** The store after a call of [create_request] that found [chosen]. *)
Lemma create_request_run_match (payload : RequestCreateDTO)
    (user : Doc User.t) (now : Z) (oid : string) (db : DB)
    (chosen : Nearby.t) (rest : list Nearby.t) :
  User.role (body user) = motorist ->
  providers_nearby (pickup_lat payload) (pickup_lng payload)
    (Some (rc_service_type payload)) default_radius_km db = chosen :: rest ->
  create_request payload user now oid db
  = (Ok {| request_id := oid;
           match_ := Some {| match_provider_id := Nearby.user_id chosen;
                             eta_min := eta_of chosen |} |},
     on_providerprofile
       (update_one (by_user_id (Nearby.user_id chosen))
          (set_body (set_profile_status Providerprofile.busy)))
       (on_servicerequest
          (update_one (by_id oid)
             (set_body (assign_provider (Nearby.user_id chosen))))
          (on_servicerequest
             (fun c => c ++ [new_document oid now (request_doc payload user)])
             db))).
Proof.
  intros Hrole Hnear. unfold create_request. rewrite Hrole. simpl.
  unfold bind, create_document, query.
  change (providers_nearby (pickup_lat payload) (pickup_lng payload)
            (Some (rc_service_type payload)) default_radius_km
            (on_servicerequest
               (fun c => c ++ [new_document oid now (request_doc payload user)])
               db))
    with (providers_nearby (pickup_lat payload) (pickup_lng payload)
            (Some (rc_service_type payload)) default_radius_km db).
  rewrite Hnear. reflexivity.
Qed.

(** The store after a call of [create_request] that found nobody. *)
Lemma create_request_run_no_match (payload : RequestCreateDTO)
    (user : Doc User.t) (now : Z) (oid : string) (db : DB) :
  User.role (body user) = motorist ->
  providers_nearby (pickup_lat payload) (pickup_lng payload)
    (Some (rc_service_type payload)) default_radius_km db = [] ->
  create_request payload user now oid db
  = (Ok {| request_id := oid; match_ := None |},
     on_servicerequest
       (fun c => c ++ [new_document oid now (request_doc payload user)]) db).
Proof.
  intros Hrole Hnear. unfold create_request. rewrite Hrole. simpl.
  unfold bind, create_document, query.
  change (providers_nearby (pickup_lat payload) (pickup_lng payload)
            (Some (rc_service_type payload)) default_radius_km
            (on_servicerequest
               (fun c => c ++ [new_document oid now (request_doc payload user)])
               db))
    with (providers_nearby (pickup_lat payload) (pickup_lng payload)
            (Some (rc_service_type payload)) default_radius_km db).
  rewrite Hnear. reflexivity.
Qed.

Lemma by_id_new_document {A : Type} (oid : string) (now : Z) (data : A) :
  by_id oid (new_document oid now data) = true.
Proof. unfold by_id. simpl. apply String.eqb_refl. Qed.

End CreateRequestFacts.





(** ** Status updates *)

Section UpdateStatusFacts.
Context {F : PyFloat}.



(** [update_request_status], case by case. *)
Lemma update_request_status_run (request_id : string) (status : TargetStatus)
    (user : Doc User.t) (now : Z) (db : DB) :
  update_request_status request_id status user now db
  = match or_else (find_one (by_id request_id) (db_servicerequest db))
            (find_one (by__id request_id) (db_servicerequest db)) with
    | None => (HTTPException 404 "Request not found", db)
    | Some req =>
        if may_update user req
        then (Ok tt,
              on_servicerequest
                (update_one (by_id request_id)
                   (fun d => set_updated_at now
                      (set_body (set_request_status (target_status status))
                         d))) db)
        else (HTTPException 403
                (match User.role (body user) with
                 | provider => "Not your job"
                 | _ => "Not your request"
                 end), db)
    end.
Proof.
  unfold update_request_status, bind, query, may_update.
  destruct (or_else _ _) as [req|]; [|reflexivity].
  destruct (User.role (body user)); simpl; [| |reflexivity].
  - now destruct (in_caller_ids (Some _) user).
  - now destruct (in_caller_ids (Servicerequest.provider_id _) user).
Qed.

End UpdateStatusFacts.






(** The part of C5 that the code keeps: a caller who fails the ownership
    test gets 403 and the store stays as it was; an admin passes for every
    request; a provider or motorist whose document has the mirrored [id]
    passes only for a request whose [provider_id], respectively
    [motorist_id], is that [id] or the [_id]. *)
Lemma update_request_status_ownership {F : PyFloat} (request_id : string)
    (status : TargetStatus) (user : Doc User.t) (now : Z) (db : DB)
    (req : Doc Servicerequest.t) :
  or_else (find_one (by_id request_id) (db_servicerequest db))
    (find_one (by__id request_id) (db_servicerequest db)) = Some req ->
  let run := update_request_status request_id status user now db in
  (may_update user req = false ->
     snd run = db /\ exists detail, fst run = HTTPException 403 detail)
  /\ (may_update user req = true -> fst run = Ok tt)
  /\ (User.role (body user) = admin -> may_update user req = true)
  /\ (forall uid, id user = Some uid -> may_update user req = true ->
        match User.role (body user) with
        | provider =>
            Servicerequest.provider_id (body req) = Some uid
            \/ Servicerequest.provider_id (body req) = Some (_id user)
        | motorist =>
            Servicerequest.motorist_id (body req) = uid
            \/ Servicerequest.motorist_id (body req) = _id user
        | admin => True
        end).
Proof.
  intros Hfind run. subst run.
  rewrite update_request_status_run, Hfind.
  split; [|split; [|split]].
  - intros ->. split; [reflexivity | eexists; reflexivity].
  - now intros ->.
  - unfold may_update. now intros ->.
  - intros uid Hid. unfold may_update, in_caller_ids. rewrite Hid.
    destruct (User.role (body user)); [| |trivial].
    + intros H. apply orb_true_iff in H as [H|H];
        apply String.eqb_eq in H; auto.
    + destruct (Servicerequest.provider_id (body req)) as [x|];
        [|discriminate].
      intros H. apply orb_true_iff in H as [H|H];
        apply String.eqb_eq in H; subst; auto.
Qed.


(** ** Login *)

Section LoginFacts.
Context {F : PyFloat}.

(** [login], case by case. *)
Lemma login_run (JWT_EXPIRES_IN : Z)
    (pwd_verify : string -> string -> bool) (payload : LoginDTO) (now : Z)
    (db : DB) :
  login JWT_EXPIRES_IN pwd_verify payload now db
  = (match (if login_query_empty payload then None
            else find_one (login_query payload) (db_user db)) with
     | None => HTTPException 401 "Invalid credentials"
     | Some u =>
         if truthy (login_password payload)
            && truthy (User.password_hash (body u))
            && negb (pwd_verify (or_str (login_password payload) "")
                       (or_str (User.password_hash (body u)) ""))
         then HTTPException 401 "Invalid credentials"
         else Ok {| token := {| sub := caller_id u;
                                token_role := User.role (body u);
                                exp := now + JWT_EXPIRES_IN;
                                iat := now |};
                    user_view := {| uv_id := caller_id u;
                                    uv_name := User.name (body u);
                                    uv_role := User.role (body u) |} |}
     end, db).
Proof.
  unfold login, bind, query, raise, ret.
  destruct (if login_query_empty payload then None else _) as [u|];
    [|reflexivity].
  now destruct (_ && _ && _).
Qed.

Lemma truthy_Some (s : string) : s <> "" -> truthy (Some s) = true.
Proof. intros H. simpl. apply negb_true_iff. now apply String.eqb_neq. Qed.

Lemma truthy_inv (o : option string) :
  truthy o = true -> exists s, o = Some s /\ s <> "" /\ or_str o "" = s.
Proof.
  destruct o as [s|]; [|discriminate]. simpl. intros H.
  apply negb_true_iff in H. exists s. rewrite H.
  repeat split. now apply String.eqb_neq.
Qed.

End LoginFacts.

(** C9.  [login] never writes.  For a stored user matched by the e-mail
    and/or phone of the request: when the request has no password, or the
    user has no [password_hash], [login] returns a token for that user
    (subject, role, lifetime [JWT_EXPIRES_IN]) whatever [pwd_context.verify]
    would say.  [login] raises only 401, and exactly when no user was
    looked up (no query field), no user matches, or a password was
    submitted, a hash is stored and verification fails. *)
Theorem login_outcome {F : PyFloat} (JWT_EXPIRES_IN : Z)
    (pwd_verify : string -> string -> bool) (payload : LoginDTO) (now : Z)
    (db : DB) :
  let run := login JWT_EXPIRES_IN pwd_verify payload now db in
  snd run = db
  /\ (forall u,
        login_query_empty payload = false ->
        find_one (login_query payload) (db_user db) = Some u ->
        login_password payload = None
        \/ User.password_hash (body u) = None ->
        fst run
        = Ok {| token := {| sub := caller_id u;
                            token_role := User.role (body u);
                            exp := now + JWT_EXPIRES_IN;
                            iat := now |};
                user_view := {| uv_id := caller_id u;
                                uv_name := User.name (body u);
                                uv_role := User.role (body u) |} |})
  /\ (forall code detail,
        fst run = HTTPException code detail ->
        code = 401%Z
        /\ (login_query_empty payload = true
            \/ find_one (login_query payload) (db_user db) = None
            \/ exists u pw h,
                 find_one (login_query payload) (db_user db) = Some u
                 /\ login_password payload = Some pw
                 /\ User.password_hash (body u) = Some h
                 /\ pwd_verify pw h = false))
  /\ (login_query_empty payload = true
      \/ find_one (login_query payload) (db_user db) = None
      \/ (exists u pw h,
            find_one (login_query payload) (db_user db) = Some u
            /\ login_password payload = Some pw /\ pw <> ""
            /\ User.password_hash (body u) = Some h /\ h <> ""
            /\ pwd_verify pw h = false) ->
      fst run = HTTPException 401 "Invalid credentials").
Proof.
  intros run. subst run. rewrite login_run. cbn [fst snd].
  split; [reflexivity|].
  destruct (login_query_empty payload) eqn:Hq.
  { split; [discriminate|]. split; [|reflexivity].
    intros code detail H. injection H as <- _. now split; [|left]. }
  destruct (find_one (login_query payload) (db_user db)) as [u|] eqn:Hu.
  2:{ split; [discriminate|]. split; [|reflexivity].
      intros code detail H. injection H as <- _.
      split; [reflexivity | right; now left]. }
  destruct (truthy (login_password payload)
            && truthy (User.password_hash (body u))
            && negb (pwd_verify (or_str (login_password payload) "")
                       (or_str (User.password_hash (body u)) ""))) eqn:E.
  - apply andb_true_iff in E as (E & Hv).
    apply andb_true_iff in E as (Epw & Eh).
    apply truthy_inv in Epw as (pw & Hpw & _ & Epw).
    apply truthy_inv in Eh as (h & Hh & _ & Eh).
    rewrite Epw, Eh in Hv. apply negb_true_iff in Hv.
    split; [|split; [|reflexivity]].
    + intros u' _ E' [H|H]; [congruence|]. injection E' as <-. congruence.
    + intros code detail H. injection H as <- _. split; [reflexivity|].
      right. right. now exists u, pw, h.
  - split; [|split].
    + intros u' _ E' _. now injection E' as <-.
    + discriminate.
    + intros [H|[H|(u' & pw & h & Eu & Hpw & Npw & Hh & Nh & Hv)]];
        try discriminate.
      injection Eu as <-. rewrite Hpw, Hh in E.
      rewrite (truthy_Some Npw), (truthy_Some Nh) in E. simpl in E.
      apply String.eqb_neq in Npw, Nh. rewrite Npw, Nh, Hv in E.
      discriminate.
Qed.

(** A user with a stored password hash gets a token from a login that
    gives the e-mail address and no password, with a verifier that accepts
    nothing. *)
Lemma login_outcome_witness :
  fst (login (F := RealFloat.real_float) 3600 (fun _ _ => false)
         Examples.passwordless_login 50 Examples.one_user_db)
  = Ok {| token := {| sub := "u7"; token_role := admin;
                      exp := 3650; iat := 50 |};
          user_view := {| uv_id := "u7"; uv_name := "Lerato";
                          uv_role := admin |} |}.
Proof.
  exact (proj1 (proj2 (@login_outcome RealFloat.real_float 3600
                         (fun _ _ => false) Examples.passwordless_login 50
                         Examples.one_user_db))
           Examples.user_with_password eq_refl eq_refl
           (or_introl eq_refl)).
Defined.

(** ** Assignments are kept *)

Section AssignmentFacts.
Context {F : PyFloat}.

Lemma keeps_providers_refl (c : list (Doc Servicerequest.t)) :
  keeps_providers c c.
Proof. intros i d Hd Hp. now exists d. Qed.

Lemma keeps_providers_trans (c1 c2 c3 : list (Doc Servicerequest.t)) :
  keeps_providers c1 c2 -> keeps_providers c2 c3 -> keeps_providers c1 c3.
Proof.
  intros H12 H23 i d Hd Hp.
  destruct (H12 i d Hd Hp) as (d2 & Hd2 & Hid2 & Hp2).
  destruct (H23 i d2 Hd2 Hp2) as (d3 & Hd3 & Hid3 & Hp3).
  exists d3. repeat split; congruence.
Qed.

Lemma keeps_providers_app (c l : list (Doc Servicerequest.t)) :
  keeps_providers c (c ++ l).
Proof.
  intros i d Hd Hp. exists d. repeat split; try assumption.
  rewrite nth_error_app1; [assumption|].
  apply nth_error_Some. congruence.
Qed.

Lemma keeps_providers_update_one (q : Doc Servicerequest.t -> bool)
    (set : Doc Servicerequest.t -> Doc Servicerequest.t)
    (c : list (Doc Servicerequest.t)) :
  (forall d, _id (set d) = _id d) ->
  (forall d, Servicerequest.provider_id (body d) <> None ->
             Servicerequest.provider_id (body (set d)) <> None) ->
  keeps_providers c (update_one q set c).
Proof.
  intros Hid Hset. induction c as [|x c IH]; intros i d Hd Hp.
  - now destruct i.
  - simpl. destruct (q x).
    + destruct i as [|i]; simpl in *.
      * injection Hd as <-. exists (set x). auto.
      * now exists d.
    + destruct i as [|i]; simpl in *.
      * now exists d.
      * now apply IH.
Qed.

Lemma preserving_ret {A : Type} (a : A) : preserving (ret a).
Proof. intros db. apply keeps_providers_refl. Qed.

Lemma preserving_raise {A : Type} (code : Z) (detail : string) :
  preserving (raise (A := A) code detail).
Proof. intros db. apply keeps_providers_refl. Qed.

Lemma preserving_query {A : Type} (f : DB -> A) : preserving (query f).
Proof. intros db. apply keeps_providers_refl. Qed.

Lemma preserving_bind {A B : Type} (m : M A) (k : A -> M B) :
  preserving m -> (forall a, preserving (k a)) -> preserving (bind m k).
Proof.
  intros Hm Hk db. unfold bind. specialize (Hm db).
  destruct (m db) as [[a|code detail] db1]; simpl in *; [|assumption].
  eapply keeps_providers_trans; [exact Hm | apply Hk].
Qed.

(** A write to another collection. *)
Lemma preserving_write_elsewhere (f : DB -> DB) :
  (forall db, db_servicerequest (f db) = db_servicerequest db) ->
  preserving (write f).
Proof. intros H db. simpl. rewrite H. apply keeps_providers_refl. Qed.

Lemma preserving_create_elsewhere {A : Type}
    (collection : (list (Doc A) -> list (Doc A)) -> DB -> DB)
    (oid : string) (now : Z) (data : A) :
  (forall f db, db_servicerequest (collection f db) = db_servicerequest db) ->
  preserving (create_document collection oid now data).
Proof. intros H db. simpl. rewrite H. apply keeps_providers_refl. Qed.

Lemma preserving_create_request_doc (oid : string) (now : Z)
    (data : Servicerequest.t) :
  preserving (create_document on_servicerequest oid now data).
Proof. intros db. simpl. apply keeps_providers_app. Qed.

Lemma preserving_update_request (q : Doc Servicerequest.t -> bool)
    (set : Doc Servicerequest.t -> Doc Servicerequest.t) :
  (forall d, _id (set d) = _id d) ->
  (forall d, Servicerequest.provider_id (body d) <> None ->
             Servicerequest.provider_id (body (set d)) <> None) ->
  preserving (write (on_servicerequest (update_one q set))).
Proof.
  intros Hid Hset db. simpl. now apply keeps_providers_update_one.
Qed.

End AssignmentFacts.

Create HintDb preserving.

#[local] Hint Resolve preserving_ret preserving_raise preserving_query
  preserving_create_request_doc : preserving.

(** Walk through a handler: binds, branches, and the writes it makes. *)
Ltac preserve :=
  repeat first
    [ progress intros
    | apply preserving_bind
    | solve [auto with preserving]
    | apply preserving_write_elsewhere; reflexivity
    | apply preserving_create_elsewhere; reflexivity
    | apply preserving_update_request; [reflexivity | simpl; congruence]
    | match goal with
      | |- preserving (if ?b then _ else _) => destruct b
      | |- preserving (match ?x with _ => _ end) => destruct x
      end ].

Section HandlersKeepAssignments.
Context {F : PyFloat}.
Variable JWT_EXPIRES_IN : Z.
Variable pwd_hash : string -> string.
Variable pwd_verify : string -> string -> bool.

Lemma get_current_user_preserving (creds : Token) (now : Z) :
  preserving (get_current_user creds now).
Proof. unfold get_current_user. preserve. Qed.

Lemma create_request_preserving (payload : RequestCreateDTO)
    (user : Doc User.t) (now : Z) (oid : string) :
  preserving (create_request payload user now oid).
Proof. unfold create_request, assign_request, mark_busy. preserve. Qed.

Lemma update_request_status_preserving (request_id : string)
    (status : TargetStatus) (user : Doc User.t) (now : Z) :
  preserving (update_request_status request_id status user now).
Proof. unfold update_request_status. preserve. Qed.

Lemma authenticated_preserving {A : Type} (creds : Token) (now : Z)
    (handler : Doc User.t -> M A) :
  (forall user, preserving (handler user)) ->
  preserving (authenticated creds now handler).
Proof.
  intros H. unfold authenticated, void.
  apply preserving_bind; [apply get_current_user_preserving|].
  intros user. apply preserving_bind; [apply H | intros; apply preserving_ret].
Qed.

(** Every endpoint keeps the assignments. *)
Lemma serve_preserving (c : Call) (now : Z) (oid : string) :
  preserving (serve JWT_EXPIRES_IN pwd_hash pwd_verify c now oid).
Proof.
  destruct c; unfold serve, void, read_only;
    try apply authenticated_preserving; intros;
    try apply create_request_preserving;
    try apply update_request_status_preserving;
    unfold register, login, provider_apply, provider_status,
      create_payment_intent, payments_webhook, register_fcm_token,
      post_review, raise_dispute, admin_set_application_status;
    preserve.
Qed.

End HandlersKeepAssignments.

(** C7.  Over every sequence of calls of the API, whatever the clock
    readings and generated identifiers, a request that has a [provider_id]
    stays in the store at its place, under its [_id], and keeps having a
    [provider_id]: no endpoint clears it. *)
Theorem provider_id_never_cleared {F : PyFloat} (JWT_EXPIRES_IN : Z)
    (pwd_hash : string -> string) (pwd_verify : string -> string -> bool)
    (calls : list (Call * Z * string)) (db : DB) :
  keeps_providers (db_servicerequest db)
    (db_servicerequest
       (serve_all JWT_EXPIRES_IN pwd_hash pwd_verify calls db)).
Proof.
  revert db. induction calls as [|[[c now] oid] calls IH]; intros db; simpl.
  - apply keeps_providers_refl.
  - eapply keeps_providers_trans; [|apply IH].
    apply serve_preserving.
Qed.

(** ** Two calls of [create_request] *)

Section RaceFacts.
Context {F : PyFloat}.

(** The four database operations of a call, run without interruption,
    are [create_request]. *)
Lemma steps_are_create_request (c : CreateRequestCall) (db : DB) :
  run_steps c 4 at_start db
  = (returned (fst (run_call c db)), snd (run_call c db)).
Proof.
  unfold run_call, create_request. cbn [run_steps].
  unfold step_call at 1. cbn [create_request_step].
  destruct (negb (role_eqb (User.role (body (call_user c))) motorist));
    [reflexivity|].
  unfold step_call at 1. cbn [create_request_step].
  unfold bind, create_document, query. cbn [fst snd].
  unfold step_call.
  destruct (providers_nearby _ _ _ _ _) as [|chosen rest]; reflexivity.
Qed.

Lemma race_first_runs (c1 c2 : CreateRequestCall) (n : nat) :
  forall s,
    fold_left (race_step c1 c2) (repeat true n) s
    = {| first_point := fst (run_steps c1 n (first_point s) (store s));
         second_point := second_point s;
         store := snd (run_steps c1 n (first_point s) (store s)) |}.
Proof.
  induction n as [|n IH]; intros s; cbn [repeat fold_left run_steps].
  - now destruct s.
  - rewrite IH. unfold race_step.
    now destruct (step_call c1 (first_point s) (store s)).
Qed.

Lemma race_second_runs (c1 c2 : CreateRequestCall) (n : nat) :
  forall s,
    fold_left (race_step c1 c2) (repeat false n) s
    = {| first_point := first_point s;
         second_point := fst (run_steps c2 n (second_point s) (store s));
         store := snd (run_steps c2 n (second_point s) (store s)) |}.
Proof.
  induction n as [|n IH]; intros s; cbn [repeat fold_left run_steps].
  - now destruct s.
  - rewrite IH. unfold race_step.
    now destruct (step_call c2 (second_point s) (store s)).
Qed.

(** One after the other, the two calls are two runs of [create_request]. *)
Lemma run_one_after_the_other (c1 c2 : CreateRequestCall) (db : DB) :
  run_schedule c1 c2 one_after_the_other db
  = {| first_point := returned (fst (run_call c1 db));
       second_point := returned (fst (run_call c2 (snd (run_call c1 db))));
       store := snd (run_call c2 (snd (run_call c1 db))) |}.
Proof.
  unfold run_schedule.
  change one_after_the_other with (repeat true 4 ++ repeat false 4).
  rewrite fold_left_app, race_first_runs, race_second_runs.
  cbn [first_point second_point store].
  now rewrite !steps_are_create_request.
Qed.

End RaceFacts.

Section SoleProvider.
Context {F : PyFloat}.

Lemma is_online_busy (p : Doc Providerprofile.t) :
  is_online (set_body (set_profile_status Providerprofile.busy) p) = false.
Proof. reflexivity. Qed.

(** Marking the only online provider busy leaves nobody online, when no
    two profiles share a [user_id]. *)
Lemma nobody_online_after_busy (profiles : list (Doc Providerprofile.t))
    (p : Doc Providerprofile.t) :
  NoDup (map (fun d => Providerprofile.user_id (body d)) profiles) ->
  filter is_online profiles = [p] ->
  filter is_online
    (update_one (by_user_id (Providerprofile.user_id (body p)))
       (set_body (set_profile_status Providerprofile.busy)) profiles) = [].
Proof.
  induction profiles as [|x c IH]; intros Hnd Hon; [discriminate|].
  simpl in Hon, Hnd |- *. inversion Hnd as [|? ? Hx Hc]; subst.
  destruct (is_online x) eqn:Ex.
  - injection Hon as -> Hc'. unfold by_user_id at 1.
    rewrite String.eqb_refl. cbn [filter]. now rewrite is_online_busy.
  - assert (Hp : In p c).
    { apply (proj1 (filter_In is_online p c)). rewrite Hon. now left. }
    destruct (by_user_id (Providerprofile.user_id (body p)) x) eqn:Eq.
    + exfalso. apply Hx. unfold by_user_id in Eq.
      apply String.eqb_eq in Eq. rewrite Eq.
      apply (in_map (fun d => Providerprofile.user_id (body d)) c p Hp).
    + simpl. rewrite Ex. now apply IH.
Qed.

Lemma nearby_nobody_online (olat olng : float)
    (service_type : option string) (radius_km : float) (db : DB) :
  filter is_online (db_providerprofile db) = [] ->
  providers_nearby olat olng service_type radius_km db = [].
Proof. intros H. unfold providers_nearby, find. now rewrite H. Qed.

End SoleProvider.

(** C6 (amended).  Two calls of [create_request] by motorists, run one
    after the other, against a store in which no two profiles share a
    [user_id] and exactly one provider is online, the first call finding
    a match: the first request is assigned to that provider, the second
    call finds nobody and its request stays pending without provider.
    The two new requests are the last two of the collection. *)
Theorem one_after_the_other_single_assignment {F : PyFloat}
    (c1 c2 : CreateRequestCall) (db : DB) (p : Doc Providerprofile.t)
    (chosen : Nearby.t) (rest : list Nearby.t) :
  User.role (body (call_user c1)) = motorist ->
  User.role (body (call_user c2)) = motorist ->
  NoDup (map (fun d => Providerprofile.user_id (body d))
           (db_providerprofile db)) ->
  filter is_online (db_providerprofile db) = [p] ->
  providers_nearby (pickup_lat (call_payload c1))
    (pickup_lng (call_payload c1))
    (Some (rc_service_type (call_payload c1))) default_radius_km db
  = chosen :: rest ->
  (forall d, In d (db_servicerequest db) -> id d <> Some (call_oid c1)) ->
  let s := run_schedule c1 c2 one_after_the_other db in
  Nearby.user_id chosen = Providerprofile.user_id (body p)
  /\ first_point s
     = returned (Ok {| request_id := call_oid c1;
                       match_ :=
                         Some {| match_provider_id :=
                                   Providerprofile.user_id (body p);
                                 eta_min := eta_of chosen |} |})
  /\ second_point s
     = returned (Ok {| request_id := call_oid c2; match_ := None |})
  /\ db_servicerequest (store s)
     = db_servicerequest db
       ++ [set_body (assign_provider (Providerprofile.user_id (body p)))
             (new_document (call_oid c1) (call_now c1)
                (request_doc (call_payload c1) (call_user c1)));
           new_document (call_oid c2) (call_now c2)
             (request_doc (call_payload c2) (call_user c2))]
  /\ filter is_online (db_providerprofile (store s)) = [].
Proof.
  intros Hr1 Hr2 Hnd Hon Hnear Hfresh s. subst s.
  assert (Hp : Nearby.user_id chosen = Providerprofile.user_id (body p)).
  { assert (Hc : In chosen (chosen :: rest)) by now left.
    rewrite <- Hnear in Hc.
    destruct (nearby_from_profile _ _ _ _ _ _ Hc) as (p' & Hin & Ho & Hu).
    assert (Hp' : In p' (filter is_online (db_providerprofile db)))
      by (apply filter_In; now split).
    rewrite Hon in Hp'. destruct Hp' as [->|[]]. now symmetry. }
  pose proof (create_request_run_match (call_payload c1) (call_user c1)
                (call_now c1) (call_oid c1) db Hr1 Hnear) as E1.
  rewrite Hp in E1. fold (run_call c1) in E1.
  set (db1 := on_providerprofile _ _) in E1.
  assert (Hoff : filter is_online (db_providerprofile db1) = []).
  { subst db1. cbn [db_providerprofile on_providerprofile on_servicerequest].
    now apply nobody_online_after_busy. }
  pose proof (create_request_run_no_match (call_payload c2) (call_user c2)
                (call_now c2) (call_oid c2) db1 Hr2
                (nearby_nobody_online _ _ _ _ _ Hoff)) as E2.
  fold (run_call c2) in E2.
  rewrite run_one_after_the_other. cbn [first_point second_point store].
  rewrite E1. cbn [fst snd]. rewrite E2. cbn [fst snd].
  split; [exact Hp|]. split; [reflexivity|]. split; [reflexivity|].
  split; [|exact Hoff].
  subst db1. cbn [db_servicerequest on_providerprofile on_servicerequest].
  rewrite update_one_app_last.
  - rewrite by_id_new_document. now rewrite <- app_assoc.
  - intros d Hd. specialize (Hfresh d Hd). unfold by_id.
    destruct (id d) as [y|]; [|reflexivity].
    apply String.eqb_neq. congruence.
Qed.

Section Interleaving.
Context {F : PyFloat}.

(** When both calls have inserted and queried before either writes, both
    act on what they read. *)
Lemma run_both_query_first (c1 c2 : CreateRequestCall) (db : DB)
    (chosen1 chosen2 : Nearby.t) (rest1 rest2 : list Nearby.t) :
  User.role (body (call_user c1)) = motorist ->
  User.role (body (call_user c2)) = motorist ->
  providers_nearby (pickup_lat (call_payload c1))
    (pickup_lng (call_payload c1))
    (Some (rc_service_type (call_payload c1))) default_radius_km db
  = chosen1 :: rest1 ->
  providers_nearby (pickup_lat (call_payload c2))
    (pickup_lng (call_payload c2))
    (Some (rc_service_type (call_payload c2))) default_radius_km db
  = chosen2 :: rest2 ->
  let inserted_both :=
    on_servicerequest
      (fun c => c ++ [new_document (call_oid c2) (call_now c2)
                        (request_doc (call_payload c2) (call_user c2))])
      (on_servicerequest
         (fun c => c ++ [new_document (call_oid c1) (call_now c1)
                           (request_doc (call_payload c1) (call_user c1))])
         db) in
  run_schedule c1 c2 both_query_first db
  = {| first_point :=
         returned (Ok {| request_id := call_oid c1;
                         match_ :=
                           Some {| match_provider_id := Nearby.user_id chosen1;
                                   eta_min := eta_of chosen1 |} |});
       second_point :=
         returned (Ok {| request_id := call_oid c2;
                         match_ :=
                           Some {| match_provider_id := Nearby.user_id chosen2;
                                   eta_min := eta_of chosen2 |} |});
       store :=
         snd (mark_busy chosen2
                (snd (assign_request (call_oid c2) chosen2
                        (snd (mark_busy chosen1
                                (snd (assign_request (call_oid c1) chosen1
                                        inserted_both))))))) |}.
Proof.
  intros Hr1 Hr2 Hn1 Hn2 inserted_both. subst inserted_both.
  unfold run_schedule, both_query_first. cbn [fold_left].
  unfold race_step at 8. cbn [first_point second_point store].
  unfold step_call at 1. cbn [create_request_step]. rewrite Hr1.
  cbn [negb role_eqb]. unfold create_document at 1. cbn [snd].
  unfold race_step at 7. cbn [first_point second_point store].
  unfold step_call at 1. cbn [create_request_step].
  change (providers_nearby (pickup_lat (call_payload c1))
            (pickup_lng (call_payload c1))
            (Some (rc_service_type (call_payload c1))) default_radius_km
            (on_servicerequest _ db))
    with (providers_nearby (pickup_lat (call_payload c1))
            (pickup_lng (call_payload c1))
            (Some (rc_service_type (call_payload c1))) default_radius_km db).
  rewrite Hn1.
  unfold race_step at 6. cbn [first_point second_point store].
  unfold step_call at 1. cbn [create_request_step]. rewrite Hr2.
  cbn [negb role_eqb]. unfold create_document at 1. cbn [snd].
  unfold race_step at 5. cbn [first_point second_point store].
  unfold step_call at 1. cbn [create_request_step].
  change (providers_nearby (pickup_lat (call_payload c2))
            (pickup_lng (call_payload c2))
            (Some (rc_service_type (call_payload c2))) default_radius_km
            (on_servicerequest _ (on_servicerequest _ db)))
    with (providers_nearby (pickup_lat (call_payload c2))
            (pickup_lng (call_payload c2))
            (Some (rc_service_type (call_payload c2))) default_radius_km db).
  rewrite Hn2.
  unfold race_step, step_call.
  cbn [first_point second_point store create_request_step].
  reflexivity.
Qed.

End Interleaving.

(** One provider is online at the pickup point; two motorists ask for a
    tow, one after the other: the first gets the provider, the second
    nobody. *)
Lemma one_after_the_other_single_assignment_witness :
  second_point
    (run_schedule (F := RealFloat.real_float) Examples.first_call
       Examples.second_call one_after_the_other Examples.one_provider_db)
  = returned (Ok {| request_id := "r2"; match_ := None |}).
Proof.
  refine (proj1 (proj2 (proj2
            (@one_after_the_other_single_assignment RealFloat.real_float
               Examples.first_call Examples.second_call
               Examples.one_provider_db Examples.tow_provider
               Examples.tow_entry [] eq_refl eq_refl _ eq_refl _ _)))).
  - repeat constructor. intros [].
  - apply RealFacts.nearby_tow_provider, RealFacts.filter_one_provider;
      reflexivity.
  - intros d [].
Defined.

(** C6 as stated fails.  One provider is online at the pickup point and
    two motorists ask for a tow; both calls insert their request and read
    the nearby providers before either writes its match.  Both calls
    return the same provider and both requests end up [assigned] to it. *)
Lemma both_assigned_when_interleaved :
  let s :=
    run_schedule (F := RealFloat.real_float) Examples.first_call
      Examples.second_call both_query_first Examples.one_provider_db in
  first_point s
  = returned (Ok {| request_id := "r1";
                    match_ :=
                      Some {| match_provider_id := "provider-1";
                              eta_min := eta_of Examples.tow_entry |} |})
  /\ second_point s
     = returned (Ok {| request_id := "r2";
                       match_ :=
                         Some {| match_provider_id := "provider-1";
                                 eta_min := eta_of Examples.tow_entry |} |})
  /\ map (fun d => _id d) (assigned_to "provider-1" (store s)) = ["r1"; "r2"].
Proof.
  intros s. subst s.
  rewrite (@run_both_query_first RealFloat.real_float Examples.first_call
             Examples.second_call Examples.one_provider_db
             Examples.tow_entry Examples.tow_entry [] []);
    try reflexivity.
  - repeat split.
  - apply RealFacts.nearby_tow_provider, RealFacts.filter_one_provider;
      reflexivity.
  - apply RealFacts.nearby_tow_provider, RealFacts.filter_one_provider;
      reflexivity.
Qed.

(** ** The distance *)

(** Swapping the two points leaves [distance_km] as it is, for every
    float arithmetic in which [*] commutes and the squared sine of half a
    difference does not depend on the order of the difference. *)
Lemma distance_km_sym {F : PyFloat} :
  (forall x y : float, (x * y)%fl = (y * x)%fl) ->
  (forall x y : float,
      fpow2 (sin ((x - y) / float_of_Q 2)%fl)
      = fpow2 (sin ((y - x) / float_of_Q 2)%fl)) ->
  forall a b : LocationDTO, distance_km a b = distance_km b a.
Proof.
  intros Hmul Hsin a b. unfold distance_km.
  rewrite (Hsin (radians (lat b)) (radians (lat a))).
  rewrite (Hsin (radians (lng b)) (radians (lng a))).
  now rewrite (Hmul (cos (radians (lat a))) (cos (radians (lat b)))).
Qed.

Module RealGeo.
Import RealFloat.
#[local] Existing Instance real_float.
Local Open Scope R_scope.

Lemma Q2R_06 : Q2R (6 # 10) = 6 / 10.
Proof. unfold Q2R. simpl. lra. Qed.

(** Over the reals the distance is symmetric. *)
Lemma distance_km_sym_real (a b : LocationDTO) :
  distance_km a b = distance_km b a.
Proof.
  apply distance_km_sym.
  - intros x y. apply Rmult_comm.
  - intros x y. cbn [fpow2 sin fdiv fsub float_of_Q real_float].
    replace ((y - x) / Q2R 2) with (- ((x - y) / Q2R 2))
      by (unfold Rdiv; ring).
    rewrite sin_neg. apply Rsqr_neg.
Qed.

Lemma Ratan2_nonneg (y x : R) : 0 <= y -> 0 <= Ratan2 y x.
Proof.
  intros Hy. unfold Ratan2.
  destruct (Rlt_dec 0 x) as [Hx|Hx].
  - destruct (Req_dec y 0) as [->|Hy0].
    + replace (0 / x) with 0 by (unfold Rdiv; ring).
      rewrite atan_0. lra.
    + left. rewrite <- atan_0. apply atan_increasing.
      apply Rdiv_lt_0_compat; lra.
  - destruct (Rlt_dec x 0) as [Hx'|Hx'].
    + destruct (Rle_dec 0 y) as [_|Hn]; [|lra].
      pose proof (atan_bound (y / x)) as [Hlo _].
      pose proof PI_RGT_0. lra.
    + pose proof PI_RGT_0.
      destruct (Rlt_dec 0 y); [lra|].
      destruct (Rlt_dec y 0); lra.
Qed.

(** Over the reals the distance is not negative. *)
Lemma distance_km_nonneg (a b : LocationDTO) : 0 <= distance_km a b.
Proof.
  unfold distance_km.
  cbn [float_of_Q fmul atan2 real_float].
  apply Rmult_le_pos; [unfold Q2R; simpl; lra|].
  apply Rmult_le_pos; [unfold Q2R; simpl; lra|].
  apply Ratan2_nonneg, sqrt_pos.
Qed.

Lemma round_half_even_nonneg (x : R) : 0 <= x -> (0 <= round_half_even x)%Z.
Proof.
  intros Hx. assert (H : (0 <= Zfloor x)%Z) by (apply Zfloor_lub; simpl; lra).
  unfold round_half_even.
  destruct (Rlt_dec _ _); [assumption|].
  destruct (Rlt_dec _ _); [lia|].
  destruct (Z.even _); lia.
Qed.

Lemma Rround2_nonneg (x : R) : 0 <= x -> 0 <= Rround2 x.
Proof.
  intros Hx. unfold Rround2.
  assert (H : (0 <= round_half_even (x * 100))%Z)
    by (apply round_half_even_nonneg; lra).
  apply IZR_le in H. simpl in H. lra.
Qed.

(** Over the reals, [int] is [floor] on the estimate of every entry that
    the nearby query returns: [eta_min] is
    [max(3, floor(distance_km / 0.6))]. *)
Lemma eta_of_floor (olat olng : R) (service_type : option string)
    (radius_km : R) (db : DB) (e : Nearby.t) :
  In e (providers_nearby olat olng service_type radius_km db) ->
  0 <= Nearby.distance_km e
  /\ eta_of e = Z.max 3 (Zfloor (Nearby.distance_km e / (6 / 10))).
Proof.
  rewrite nearby_results. intros He.
  apply (Permutation_in _ (sort_by_distance_perm _)) in He.
  unfold selected in He. apply in_flat_map in He as (p & _ & He).
  unfold nearby_view in He. destruct (position p) as [loc|]; [|contradiction].
  destruct He as [<-|[]]. cbn [Nearby.distance_km].
  assert (H : 0 <= Rround2 (distance_km {| lat := olat; lng := olng |} loc))
    by apply Rround2_nonneg, distance_km_nonneg.
  split; [exact H|].
  unfold eta_of. cbn [Nearby.distance_km float_to_int fdiv float_of_Q round2
                        real_float].
  rewrite Q2R_06. unfold Rtrunc.
  destruct (Rle_dec 0 _) as [_|Hn]; [reflexivity|].
  exfalso. apply Hn. apply Rmult_le_pos; [exact H|].
  left. apply Rinv_0_lt_compat. lra.
Qed.

End RealGeo.

(** ** Ties after rounding *)

Module RealOrder.
Import RealFloat Examples.
#[local] Existing Instance real_float.
Local Open Scope R_scope.











End RealOrder.

(** * Further properties *)

(** ** How the store evolves *)

Section GrowsFacts.
Variable A : Type.
Variable P : Doc A -> Doc A -> Prop.
Hypothesis P_refl : forall d, P d d.
Hypothesis P_trans : forall d1 d2 d3, P d1 d2 -> P d2 d3 -> P d1 d3.

Lemma Forall2_same (c : list (Doc A)) : Forall2 P c c.
Proof. induction c; constructor; auto. Qed.

Lemma grows_refl (c : list (Doc A)) : grows P c c.
Proof.
  exists c, []. split; [now rewrite app_nil_r | apply Forall2_same].
Qed.

Lemma grows_app (c added : list (Doc A)) : grows P c (c ++ added).
Proof. exists c, added. split; [reflexivity | apply Forall2_same]. Qed.

Lemma grows_update_one (q : Doc A -> bool) (set : Doc A -> Doc A)
    (c : list (Doc A)) :
  (forall d, P d (set d)) -> grows P c (update_one q set c).
Proof.
  intros Hset. exists (update_one q set c), []. split.
  - now rewrite app_nil_r.
  - induction c as [|d c IH]; simpl; [constructor|].
    destruct (q d); constructor; auto. apply Forall2_same.
Qed.

Lemma Forall2_chain (c1 : list (Doc A)) :
  forall c2 c3, Forall2 P c1 c2 -> Forall2 P c2 c3 -> Forall2 P c1 c3.
Proof.
  induction c1 as [|d1 c1 IH]; intros c2 c3 H12 H23.
  - inversion H12; subst. inversion H23; subst. constructor.
  - inversion H12 as [|? d2 ? c2' Hd Hc]; subst.
    inversion H23 as [|? d3 ? c3' Hd' Hc']; subst.
    constructor; [eapply P_trans; eassumption | eapply IH; eassumption].
Qed.

Lemma grows_trans (c1 c2 c3 : list (Doc A)) :
  grows P c1 c2 -> grows P c2 c3 -> grows P c1 c3.
Proof.
  intros (k2 & a2 & -> & H12) (k3 & a3 & -> & H23).
  apply Forall2_app_inv_l in H23 as (k3a & k3b & Hk & _ & ->).
  exists k3a, (k3b ++ a3). split; [now rewrite app_assoc|].
  eapply Forall2_chain; eassumption.
Qed.

(** What [grows] says about one document. *)
Lemma grows_nth (c c' : list (Doc A)) (i : nat) (d : Doc A) :
  grows P c c' -> nth_error c i = Some d ->
  exists d', nth_error c' i = Some d' /\ P d d'.
Proof.
  intros (kept & added & -> & H). revert i.
  induction H as [|x y c k Hxy H IH]; intros i Hi.
  - now destruct i.
  - destruct i as [|i]; simpl in *.
    + injection Hi as <-. now exists y.
    + now apply IH.
Qed.

End GrowsFacts.

Section KeepingFacts.
Context {F : PyFloat}.
Variable R : DB -> DB -> Prop.
Hypothesis R_refl : forall db, R db db.
Hypothesis R_trans : forall db1 db2 db3, R db1 db2 -> R db2 db3 -> R db1 db3.

Lemma keeping_ret {A : Type} (a : A) : keeping R (ret a).
Proof. intros db. apply R_refl. Qed.

Lemma keeping_raise {A : Type} (code : Z) (detail : string) :
  keeping R (raise (A := A) code detail).
Proof. intros db. apply R_refl. Qed.

Lemma keeping_query {A : Type} (f : DB -> A) : keeping R (query f).
Proof. intros db. apply R_refl. Qed.

Lemma keeping_bind {A B : Type} (m : M A) (k : A -> M B) :
  keeping R m -> (forall a, keeping R (k a)) -> keeping R (bind m k).
Proof.
  intros Hm Hk db. unfold bind. specialize (Hm db).
  destruct (m db) as [[a|code detail] db1]; simpl in *; [|assumption].
  eapply R_trans; [exact Hm | apply Hk].
Qed.

Lemma keeping_write (f : DB -> DB) :
  (forall db, R db (f db)) -> keeping R (write f).
Proof. intros H db. apply H. Qed.

Lemma keeping_create_document {A : Type}
    (collection : (list (Doc A) -> list (Doc A)) -> DB -> DB)
    (oid : string) (now : Z) (data : A) :
  (forall db,
      R db (collection (fun c => c ++ [new_document oid now data]) db)) ->
  keeping R (create_document collection oid now data).
Proof. intros H db. apply H. Qed.

End KeepingFacts.

(** The relations between a document and its successor are reflexive and
    transitive. *)
Ltac same_solver :=
  unfold same_but_id, same_application, same_profile, same_request,
    same_payment, set_presence;
  intros;
  repeat match goal with
         | |- context [match ?x with Some _ => _ | None => _ end] =>
             destruct x
         end;
  simpl in *; intuition congruence.

Section EvolvesFacts.
Context {F : PyFloat}.

Lemma evolves_refl (db : DB) : evolves db db.
Proof. constructor; apply grows_refl; same_solver. Qed.

Lemma evolves_trans (db1 db2 db3 : DB) :
  evolves db1 db2 -> evolves db2 db3 -> evolves db1 db3.
Proof.
  intros [] []. constructor;
    (eapply grows_trans; [|eassumption|eassumption]); same_solver.
Qed.

Lemma evolves_on_user (f : list (Doc User.t) -> list (Doc User.t))
    (db : DB) :
  grows same_but_id (db_user db) (f (db_user db)) ->
  evolves db (on_user f db).
Proof.
  intros H. constructor; simpl; try assumption; apply grows_refl;
    same_solver.
Qed.

Lemma evolves_on_providerapplication
    (f : list (Doc Providerapplication.t) -> list (Doc Providerapplication.t))
    (db : DB) :
  grows same_application (db_providerapplication db)
    (f (db_providerapplication db)) ->
  evolves db (on_providerapplication f db).
Proof.
  intros H. constructor; simpl; try assumption; apply grows_refl;
    same_solver.
Qed.

Lemma evolves_on_providerprofile
    (f : list (Doc Providerprofile.t) -> list (Doc Providerprofile.t))
    (db : DB) :
  grows same_profile (db_providerprofile db) (f (db_providerprofile db)) ->
  evolves db (on_providerprofile f db).
Proof.
  intros H. constructor; simpl; try assumption; apply grows_refl;
    same_solver.
Qed.

Lemma evolves_on_servicerequest
    (f : list (Doc Servicerequest.t) -> list (Doc Servicerequest.t))
    (db : DB) :
  grows same_request (db_servicerequest db) (f (db_servicerequest db)) ->
  evolves db (on_servicerequest f db).
Proof.
  intros H. constructor; simpl; try assumption; apply grows_refl;
    same_solver.
Qed.

Lemma evolves_on_payment (f : list (Doc Payment.t) -> list (Doc Payment.t))
    (db : DB) :
  grows same_payment (db_payment db) (f (db_payment db)) ->
  evolves db (on_payment f db).
Proof.
  intros H. constructor; simpl; try assumption; apply grows_refl;
    same_solver.
Qed.

Lemma evolves_on_review (f : list (Doc Review.t) -> list (Doc Review.t))
    (db : DB) :
  grows eq (db_review db) (f (db_review db)) -> evolves db (on_review f db).
Proof.
  intros H. constructor; simpl; try assumption; apply grows_refl;
    same_solver.
Qed.

Lemma evolves_on_dispute (f : list (Doc Dispute.t) -> list (Doc Dispute.t))
    (db : DB) :
  grows eq (db_dispute db) (f (db_dispute db)) ->
  evolves db (on_dispute f db).
Proof.
  intros H. constructor; simpl; try assumption; apply grows_refl;
    same_solver.
Qed.

Lemma evolves_on_notificationtoken
    (f : list (Doc Notificationtoken.t) -> list (Doc Notificationtoken.t))
    (db : DB) :
  grows eq (db_notificationtoken db) (f (db_notificationtoken db)) ->
  evolves db (on_notificationtoken f db).
Proof.
  intros H. constructor; simpl; try assumption; apply grows_refl;
    same_solver.
Qed.

End EvolvesFacts.

(** Walk through a handler and check each of its writes. *)
Ltac evolve_write :=
  first
    [ apply evolves_on_user | apply evolves_on_providerapplication
    | apply evolves_on_providerprofile | apply evolves_on_servicerequest
    | apply evolves_on_payment | apply evolves_on_review
    | apply evolves_on_dispute | apply evolves_on_notificationtoken ];
  first [ apply grows_app | apply grows_update_one ]; same_solver.

Ltac evolve :=
  repeat first
    [ exact evolves_refl
    | exact evolves_trans
    | progress intros
    | apply keeping_bind
    | apply keeping_ret
    | apply keeping_raise
    | apply keeping_query
    | apply keeping_write; intros; evolve_write
    | apply keeping_create_document; intros; evolve_write
    | match goal with
      | |- keeping _ (if ?b then _ else _) => destruct b
      | |- keeping _ (match ?x with _ => _ end) => destruct x
      end ].

Section HandlersEvolve.
Context {F : PyFloat}.
Variable JWT_EXPIRES_IN : Z.
Variable pwd_hash : string -> string.
Variable pwd_verify : string -> string -> bool.

Lemma authenticated_keeping (R : DB -> DB -> Prop) {A : Type}
    (creds : Token) (now : Z) (handler : Doc User.t -> M A) :
  (forall db, R db db) ->
  (forall db1 db2 db3, R db1 db2 -> R db2 db3 -> R db1 db3) ->
  (forall user, keeping R (handler user)) ->
  keeping R (authenticated creds now handler).
Proof.
  intros Hrefl Htrans H. unfold authenticated, void, get_current_user.
  apply keeping_bind; [exact Htrans| |].
  - destruct (exp creds <=? now)%Z; [now apply keeping_raise|].
    destruct (sub creds =? "")%string; [now apply keeping_raise|].
    apply keeping_bind; [exact Htrans | now apply keeping_query |].
    intros [u|]; [now apply keeping_ret | now apply keeping_raise].
  - intros user. apply keeping_bind; [exact Htrans | apply H |].
    intros. now apply keeping_ret.
Qed.

(** Every endpoint evolves the store. *)
Lemma serve_evolves (c : Call) (now : Z) (oid : string) :
  keeping evolves (serve JWT_EXPIRES_IN pwd_hash pwd_verify c now oid).
Proof.
  destruct c; unfold serve, void, read_only;
    try (apply authenticated_keeping;
         [exact evolves_refl | exact evolves_trans | intros]);
    unfold register, login, provider_apply, provider_status,
      create_request, assign_request, mark_busy, update_request_status,
      create_payment_intent, payments_webhook, register_fcm_token,
      post_review, raise_dispute, admin_set_application_status;
    evolve.
Qed.

Lemma serve_all_evolves (calls : list (Call * Z * string)) (db : DB) :
  evolves db (serve_all JWT_EXPIRES_IN pwd_hash pwd_verify calls db).
Proof.
  revert db. induction calls as [|[[c now] oid] calls IH]; intros db; simpl.
  - apply evolves_refl.
  - eapply evolves_trans; [|apply IH]. apply serve_evolves.
Qed.

End HandlersEvolve.

Lemma grows_stays_put {A : Type} (P : Doc A -> Doc A -> Prop)
    (c c' : list (Doc A)) :
  grows P c c' -> stays_put P c c'.
Proof. intros H i d Hd. eapply grows_nth; eassumption. Qed.

Lemma stays_put_weaken {A : Type} (P Q : Doc A -> Doc A -> Prop)
    (c c' : list (Doc A)) :
  (forall d d', P d d' -> Q d d') -> stays_put P c c' -> stays_put Q c c'.
Proof.
  intros HPQ H i d Hd. destruct (H i d Hd) as (d' & Hd' & HP).
  exists d'. auto.
Qed.

Lemma grows_eq_app {A : Type} (c c' : list (Doc A)) :
  grows eq c c' -> exists added, c' = c ++ added.
Proof.
  intros (kept & added & -> & H). exists added. f_equal.
  induction H; congruence.
Qed.

(** X1.  No sequence of calls deletes or moves a document or changes its
    [_id]: in each of the eight collections, every stored document is
    still at its place afterwards, under the same [_id]. *)
Theorem documents_are_never_deleted {F : PyFloat} (JWT_EXPIRES_IN : Z)
    (pwd_hash : string -> string) (pwd_verify : string -> string -> bool)
    (calls : list (Call * Z * string)) (db : DB) :
  let db' := serve_all JWT_EXPIRES_IN pwd_hash pwd_verify calls db in
  stays_put (fun d d' => _id d' = _id d) (db_user db) (db_user db')
  /\ stays_put (fun d d' => _id d' = _id d) (db_providerapplication db)
       (db_providerapplication db')
  /\ stays_put (fun d d' => _id d' = _id d) (db_providerprofile db)
       (db_providerprofile db')
  /\ stays_put (fun d d' => _id d' = _id d) (db_servicerequest db)
       (db_servicerequest db')
  /\ stays_put (fun d d' => _id d' = _id d) (db_payment db) (db_payment db')
  /\ stays_put (fun d d' => _id d' = _id d) (db_review db) (db_review db')
  /\ stays_put (fun d d' => _id d' = _id d) (db_dispute db) (db_dispute db')
  /\ stays_put (fun d d' => _id d' = _id d) (db_notificationtoken db)
       (db_notificationtoken db').
Proof.
  intros db'.
  destruct (serve_all_evolves JWT_EXPIRES_IN pwd_hash pwd_verify calls db).
  repeat split;
    (eapply stays_put_weaken; [|apply grows_stays_put; eassumption]);
    same_solver.
Qed.

(** X2.  No sequence of calls changes a stored user: name, e-mail, phone,
    role, password hash and flags of every user document stay as they
    were (there is no endpoint to edit a user, change a role or reset a
    password). *)
Theorem stored_users_never_change {F : PyFloat} (JWT_EXPIRES_IN : Z)
    (pwd_hash : string -> string) (pwd_verify : string -> string -> bool)
    (calls : list (Call * Z * string)) (db : DB) :
  stays_put (fun u u' => _id u' = _id u /\ body u' = body u) (db_user db)
    (db_user (serve_all JWT_EXPIRES_IN pwd_hash pwd_verify calls db)).
Proof.
  destruct (serve_all_evolves JWT_EXPIRES_IN pwd_hash pwd_verify calls db).
  eapply stays_put_weaken; [|apply grows_stays_put; eassumption].
  same_solver.
Qed.

(** X3.  No sequence of calls changes who asked for a request, for which
    service, with which description or where: [motorist_id],
    [service_type], [description], [pickup_lat], [pickup_lng] and the
    mirrored [id] of every stored request stay as they were. *)
Theorem request_core_never_changes {F : PyFloat} (JWT_EXPIRES_IN : Z)
    (pwd_hash : string -> string) (pwd_verify : string -> string -> bool)
    (calls : list (Call * Z * string)) (db : DB) :
  stays_put
    (fun r r' =>
       _id r' = _id r /\ id r' = id r
       /\ Servicerequest.motorist_id (body r')
          = Servicerequest.motorist_id (body r)
       /\ Servicerequest.service_type (body r')
          = Servicerequest.service_type (body r)
       /\ Servicerequest.description (body r')
          = Servicerequest.description (body r)
       /\ Servicerequest.pickup_lat (body r')
          = Servicerequest.pickup_lat (body r)
       /\ Servicerequest.pickup_lng (body r')
          = Servicerequest.pickup_lng (body r))
    (db_servicerequest db)
    (db_servicerequest (serve_all JWT_EXPIRES_IN pwd_hash pwd_verify calls db)).
Proof.
  destruct (serve_all_evolves JWT_EXPIRES_IN pwd_hash pwd_verify calls db).
  eapply stays_put_weaken; [|apply grows_stays_put; eassumption].
  same_solver.
Qed.

(** X4.  Reviews, disputes and notification tokens are append-only: after
    any sequence of calls each of these collections is what it was,
    followed by the documents added. *)
Theorem feedback_is_append_only {F : PyFloat} (JWT_EXPIRES_IN : Z)
    (pwd_hash : string -> string) (pwd_verify : string -> string -> bool)
    (calls : list (Call * Z * string)) (db : DB) :
  let db' := serve_all JWT_EXPIRES_IN pwd_hash pwd_verify calls db in
  (exists added, db_review db' = db_review db ++ added)
  /\ (exists added, db_dispute db' = db_dispute db ++ added)
  /\ (exists added,
        db_notificationtoken db' = db_notificationtoken db ++ added).
Proof.
  intros db'.
  destruct (serve_all_evolves JWT_EXPIRES_IN pwd_hash pwd_verify calls db).
  repeat split; now apply grows_eq_app.
Qed.

(** X5.  No sequence of calls changes what a payment is for: request,
    motorist, provider, amount, currency and gateway of every stored
    payment stay as they were; only its status and [updated_at] can. *)
Theorem payment_core_never_changes {F : PyFloat} (JWT_EXPIRES_IN : Z)
    (pwd_hash : string -> string) (pwd_verify : string -> string -> bool)
    (calls : list (Call * Z * string)) (db : DB) :
  stays_put
    (fun p p' =>
       _id p' = _id p /\ id p' = id p
       /\ Payment.request_id (body p') = Payment.request_id (body p)
       /\ Payment.motorist_id (body p') = Payment.motorist_id (body p)
       /\ Payment.provider_id (body p') = Payment.provider_id (body p)
       /\ Payment.amount (body p') = Payment.amount (body p)
       /\ Payment.currency (body p') = Payment.currency (body p)
       /\ Payment.gateway (body p') = Payment.gateway (body p))
    (db_payment db)
    (db_payment (serve_all JWT_EXPIRES_IN pwd_hash pwd_verify calls db)).
Proof.
  destruct (serve_all_evolves JWT_EXPIRES_IN pwd_hash pwd_verify calls db).
  eapply stays_put_weaken; [|apply grows_stays_put; eassumption].
  same_solver.
Qed.

(** ** Tokens *)

Section TokenFacts.
Context {F : PyFloat}.

(** [get_current_user], case by case. *)
Lemma get_current_user_run (creds : Token) (now : Z) (db : DB) :
  get_current_user creds now db
  = (if (exp creds <=? now)%Z then HTTPException 401 "Invalid token"
     else if (sub creds =? "")%string then HTTPException 401 "Invalid token"
     else match or_else (find_one (by_id (sub creds)) (db_user db))
                  (find_one (by__id (sub creds)) (db_user db)) with
          | Some u => Ok u
          | None => HTTPException 401 "User not found"
          end, db).
Proof.
  unfold get_current_user.
  destruct (exp creds <=? now)%Z; [reflexivity|].
  destruct (sub creds =? "")%string; [reflexivity|].
  unfold bind, query. now destruct (or_else _ _).
Qed.

Lemma by_id_true {A : Type} (x : string) (d : Doc A) :
  by_id x d = true <-> id d = Some x.
Proof.
  unfold by_id. destruct (id d) as [y|]; [|split; discriminate].
  rewrite String.eqb_eq. split; congruence.
Qed.

Lemma by__id_true {A : Type} (x : string) (d : Doc A) :
  by__id x d = true <-> _id d = x.
Proof. unfold by__id. apply String.eqb_eq. Qed.

Lemma find_one_some {A : Type} (q : Doc A -> bool) (c : list (Doc A))
    (d : Doc A) :
  find_one q c = Some d -> In d c /\ q d = true.
Proof. apply find_some. Qed.

(** The subject that tokens carry names the user by [id] or by [_id]. *)
Lemma caller_id_names (u : Doc User.t) :
  id u = Some (caller_id u) \/ _id u = caller_id u.
Proof.
  unfold caller_id, or_str. destruct (id u) as [s|]; [|now right].
  destruct (s =? "")%string; [now right | now left].
Qed.

(** A token for a user who is the only one named by its subject resolves
    to that user until it expires. *)
Lemma token_resolves (JWT_EXPIRES_IN : Z) (u : Doc User.t) (r : Role)
    (now now' : Z) (db : DB) :
  In u (db_user db) ->
  caller_id u <> "" ->
  (now' < now + JWT_EXPIRES_IN)%Z ->
  (forall u', In u' (db_user db) ->
              id u' = Some (caller_id u) \/ _id u' = caller_id u ->
              u' = u) ->
  get_current_user (create_token JWT_EXPIRES_IN (caller_id u) r now) now' db
  = (Ok u, db).
Proof.
  intros Hin Hne Hnow Huniq. rewrite get_current_user_run.
  cbn [exp sub create_token].
  destruct (Z.leb_spec (now + JWT_EXPIRES_IN) now') as [Hle|_]; [lia|].
  apply String.eqb_neq in Hne. rewrite Hne.
  destruct (find_one (by_id (caller_id u)) (db_user db)) as [u1|] eqn:E1.
  - apply find_one_some in E1 as (H1 & Hq). apply by_id_true in Hq.
    cbn [or_else]. now rewrite (Huniq u1 H1 (or_introl Hq)).
  - cbn [or_else].
    assert (Hu : _id u = caller_id u).
    { destruct (caller_id_names u) as [H|H]; [|exact H].
      rewrite find_one_no_match in E1. specialize (E1 u Hin).
      apply by_id_true in H. congruence. }
    destruct (find_one_exists (by__id (caller_id u)) (db_user db) u Hin)
      as (u2 & E2).
    { now apply by__id_true. }
    rewrite E2. apply find_one_some in E2 as (H2 & Hq).
    apply by__id_true in Hq. now rewrite (Huniq u2 H2 (or_intror Hq)).
Qed.

End TokenFacts.

(** X6.  [get_current_user] never writes; it accepts a token only when
    the token has not expired and has a subject, and then returns a stored
    user whose [id] or [_id] is that subject; every refusal is a 401. *)
Theorem get_current_user_sound {F : PyFloat} (creds : Token) (now : Z)
    (db : DB) :
  let run := get_current_user creds now db in
  snd run = db
  /\ (forall u, fst run = Ok u ->
        In u (db_user db) /\ (now < exp creds)%Z /\ sub creds <> ""
        /\ (id u = Some (sub creds) \/ _id u = sub creds))
  /\ (forall code detail, fst run = HTTPException code detail ->
        code = 401%Z).
Proof.
  intros run. subst run. rewrite get_current_user_run. cbn [fst snd].
  split; [reflexivity|].
  destruct (Z.leb_spec (exp creds) now) as [He|He].
  { split; [discriminate|]. intros code detail H. now injection H. }
  destruct (String.eqb_spec (sub creds) "") as [Hs|Hs].
  { split; [discriminate|]. intros code detail H. now injection H. }
  destruct (find_one (by_id (sub creds)) (db_user db)) as [u1|] eqn:E1;
    cbn [or_else].
  - split; [|discriminate]. intros u H. injection H as <-.
    apply find_one_some in E1 as (H1 & Hq). apply by_id_true in Hq. auto.
  - destruct (find_one (by__id (sub creds)) (db_user db)) as [u2|] eqn:E2.
    + split; [|discriminate]. intros u H. injection H as <-.
      apply find_one_some in E2 as (H2 & Hq). apply by__id_true in Hq. auto.
    + split; [discriminate|]. intros code detail H. now injection H.
Qed.

(** X7.  A token that [login] issues is accepted by [get_current_user]
    until it expires, and resolves to a user with the role and the id the
    login reported, provided the subject is not empty and names one user
    only. *)
Theorem login_token_authenticates {F : PyFloat} (JWT_EXPIRES_IN : Z)
    (pwd_verify : string -> string -> bool) (payload : LoginDTO)
    (now now' : Z) (db : DB) (resp : AuthResponse) :
  fst (login JWT_EXPIRES_IN pwd_verify payload now db) = Ok resp ->
  sub (token resp) <> "" ->
  (now' < now + JWT_EXPIRES_IN)%Z ->
  (forall u1 u2,
      In u1 (db_user db) -> In u2 (db_user db) ->
      id u1 = Some (sub (token resp)) \/ _id u1 = sub (token resp) ->
      id u2 = Some (sub (token resp)) \/ _id u2 = sub (token resp) ->
      u1 = u2) ->
  exists u,
    In u (db_user db)
    /\ get_current_user (token resp) now' db = (Ok u, db)
    /\ caller_id u = sub (token resp)
    /\ User.role (body u) = token_role (token resp)
    /\ uv_id (user_view resp) = caller_id u
    /\ uv_role (user_view resp) = User.role (body u).
Proof.
  intros Hlogin Hsub Hnow Huniq. rewrite login_run in Hlogin.
  cbn [fst] in Hlogin.
  destruct (login_query_empty payload); [discriminate|].
  destruct (find_one (login_query payload) (db_user db)) as [u|] eqn:Eu;
    [|discriminate].
  destruct (_ && _ && _); [discriminate|]. injection Hlogin as <-.
  cbn [token sub token_role user_view uv_id uv_role] in *.
  apply find_one_some in Eu as (Hin & _).
  exists u. repeat split; try assumption.
  apply (@token_resolves F JWT_EXPIRES_IN u (User.role (body u)) now now' db);
    try assumption.
  intros u' Hin' Hu'. apply (Huniq u' u Hin' Hin Hu' (caller_id_names u)).
Qed.

(** The token of the passwordless login of [login_outcome_witness] is
    accepted half an hour later. *)
Lemma login_token_authenticates_witness :
  exists u,
    In u (db_user Examples.one_user_db)
    /\ get_current_user (F := RealFloat.real_float)
         {| sub := "u7"; token_role := admin; exp := 3650; iat := 50 |}
         1850 Examples.one_user_db
       = (Ok u, Examples.one_user_db)
    /\ caller_id u = "u7"
    /\ User.role (body u) = admin
    /\ "u7" = caller_id u
    /\ admin = User.role (body u).
Proof.
  refine (@login_token_authenticates RealFloat.real_float 3600
            (fun _ _ => false) Examples.passwordless_login 50 1850
            Examples.one_user_db
            {| token := {| sub := "u7"; token_role := admin;
                           exp := 3650; iat := 50 |};
               user_view := {| uv_id := "u7"; uv_name := "Lerato";
                               uv_role := admin |} |}
            eq_refl _ _ _).
  - discriminate.
  - reflexivity.
  - intros u1 u2 [<-|[]] [<-|[]] _ _. reflexivity.
Defined.

(** ** Registration *)

Section RegisterFacts.
Context {F : PyFloat}.
Variable JWT_EXPIRES_IN : Z.
Variable pwd_hash : string -> string.

Lemma find_one_app_last {A : Type} (q : Doc A -> bool) (c : list (Doc A))
    (x : Doc A) :
  (forall d, In d c -> q d = false) ->
  find_one q (c ++ [x]) = if q x then Some x else None.
Proof.
  intros H. unfold find_one. induction c as [|d c IH]; simpl.
  - now destruct (q x).
  - rewrite (H d (or_introl eq_refl)). apply IH.
    intros d' Hd'. apply H. now right.
Qed.

Lemma option_string_eqb_true (a b : option string) :
  option_string_eqb a b = true <-> a = b.
Proof.
  destruct a as [x|], b as [y|]; simpl; try (split; congruence).
  rewrite String.eqb_eq. split; congruence.
Qed.

Lemma truthy_or_str (o : option string) :
  truthy o = true -> o = Some (or_str o "").
Proof.
  intros H. apply truthy_inv in H as (s & -> & _ & E). now rewrite E.
Qed.

(** The two uniqueness checks of [register], in words. *)
Lemma email_check (payload : RegisterDTO) (db : DB) :
  truthy (reg_email payload)
  && is_some (find_one (by_email (or_str (reg_email payload) ""))
                (db_user db)) = true
  <-> email_taken payload db.
Proof.
  unfold email_taken. split.
  - intros H. apply andb_true_iff in H as (Ht & Hf). split; [exact Ht|].
    destruct (find_one _ _) as [u|] eqn:E; [|discriminate].
    apply find_one_some in E as (Hin & Hq). exists u. split; [exact Hin|].
    unfold by_email in Hq. apply option_string_eqb_true in Hq.
    now rewrite Hq, <- truthy_or_str.
  - intros (Ht & u & Hin & Hu). rewrite Ht. simpl.
    destruct (find_one _ _) as [u'|] eqn:E; [reflexivity|].
    rewrite find_one_no_match in E. specialize (E u Hin).
    unfold by_email in E. rewrite Hu, <- truthy_or_str in E by exact Ht.
    destruct (reg_email payload); simpl in E;
      [now rewrite String.eqb_refl in E | discriminate].
Qed.

Lemma phone_check (payload : RegisterDTO) (db : DB) :
  truthy (reg_phone payload)
  && is_some (find_one (by_phone (or_str (reg_phone payload) ""))
                (db_user db)) = true
  <-> phone_taken payload db.
Proof.
  unfold phone_taken. split.
  - intros H. apply andb_true_iff in H as (Ht & Hf). split; [exact Ht|].
    destruct (find_one _ _) as [u|] eqn:E; [|discriminate].
    apply find_one_some in E as (Hin & Hq). exists u. split; [exact Hin|].
    unfold by_phone in Hq. apply option_string_eqb_true in Hq.
    now rewrite Hq, <- truthy_or_str.
  - intros (Ht & u & Hin & Hu). rewrite Ht. simpl.
    destruct (find_one _ _) as [u'|] eqn:E; [reflexivity|].
    rewrite find_one_no_match in E. specialize (E u Hin).
    unfold by_phone in E. rewrite Hu, <- truthy_or_str in E by exact Ht.
    destruct (reg_phone payload); simpl in E;
      [now rewrite String.eqb_refl in E | discriminate].
Qed.

(** [register], case by case. *)
Lemma register_run (payload : RegisterDTO) (now : Z) (oid : string)
    (db : DB) :
  register JWT_EXPIRES_IN pwd_hash payload now oid db
  = if truthy (reg_email payload)
       && is_some (find_one (by_email (or_str (reg_email payload) ""))
                     (db_user db))
    then (HTTPException 400 "Email already registered", db)
    else if truthy (reg_phone payload)
            && is_some (find_one (by_phone (or_str (reg_phone payload) ""))
                          (db_user db))
    then (HTTPException 400 "Phone already registered", db)
    else
      let db' :=
        on_user
          (fun c =>
             update_one (fun d => negb (is_some (id d)) && by__id oid d)
               (set_id oid)
               (c ++ [new_document oid now
                        (registered_user pwd_hash payload)])) db in
      (match find_one (by_id oid) (db_user db') with
       | None => HTTPException 500 "Internal Server Error"
       | Some u =>
           Ok {| token := create_token JWT_EXPIRES_IN oid
                            (User.role (body u)) now;
                 user_view := {| uv_id := oid;
                                 uv_name := User.name (body u);
                                 uv_role := User.role (body u) |} |}
       end, db').
Proof.
  unfold register, bind, query, raise, create_document, write, ret.
  destruct (truthy (reg_email payload) && _); [reflexivity|].
  destruct (truthy (reg_phone payload) && _); [reflexivity|].
  cbn [db_user on_user]. now destruct (find_one (by_id oid) _).
Qed.

(** With a fresh identifier the mirroring step of [register] finds
    nothing to do and the lookup finds the new user. *)
Lemma register_fresh (payload : RegisterDTO) (now : Z) (oid : string)
    (db : DB) :
  fresh_user_id oid db ->
  update_one (fun d => negb (is_some (id d)) && by__id oid d) (set_id oid)
    (db_user db ++ [new_document oid now (registered_user pwd_hash payload)])
  = db_user db ++ [new_document oid now (registered_user pwd_hash payload)]
  /\ find_one (by_id oid)
       (db_user db
        ++ [new_document oid now (registered_user pwd_hash payload)])
     = Some (new_document oid now (registered_user pwd_hash payload)).
Proof.
  intros Hfresh. split.
  - apply update_one_no_match. intros d Hd.
    apply in_app_or in Hd as [Hd|[<-|[]]]; [|reflexivity].
    destruct (Hfresh d Hd) as (H1 & _).
    apply andb_false_iff. right. unfold by__id. now apply String.eqb_neq.
  - rewrite find_one_app_last.
    + now rewrite by_id_new_document.
    + intros d Hd. destruct (Hfresh d Hd) as (_ & H2).
      destruct (by_id oid d) eqn:E; [|reflexivity].
      apply by_id_true in E. contradiction.
Qed.

Lemma register_run_fresh (payload : RegisterDTO) (now : Z) (oid : string)
    (db : DB) :
  ~ email_taken payload db -> ~ phone_taken payload db ->
  fresh_user_id oid db ->
  register JWT_EXPIRES_IN pwd_hash payload now oid db
  = (Ok {| token := {| sub := oid; token_role := reg_role payload;
                       exp := now + JWT_EXPIRES_IN; iat := now |};
           user_view := {| uv_id := oid; uv_name := reg_name payload;
                           uv_role := reg_role payload |} |},
     on_user
       (fun c => c ++ [new_document oid now
                         (registered_user pwd_hash payload)]) db).
Proof.
  intros He Hp Hfresh. rewrite register_run.
  destruct (truthy (reg_email payload) && _) eqn:E1.
  { apply email_check in E1. contradiction. }
  destruct (truthy (reg_phone payload) && _) eqn:E2.
  { apply phone_check in E2. contradiction. }
  destruct (register_fresh payload now Hfresh) as (Hu & Hf).
  cbn [db_user on_user]. rewrite Hu, Hf.
  unfold on_user. now rewrite Hu.
Qed.

End RegisterFacts.

(** X8.  [register] refuses with 400 and writes nothing when the e-mail
    address, or else the phone number, of the payload is given and some
    stored user has it.  Otherwise, with a generated identifier that is
    not in use, it stores exactly one new user (role as requested, a
    password hash only when a password is given, not verified, active) and
    returns a token whose subject is the new identifier. *)
Theorem register_outcome {F : PyFloat} (JWT_EXPIRES_IN : Z)
    (pwd_hash : string -> string) (payload : RegisterDTO) (now : Z)
    (oid : string) (db : DB) :
  let run := register JWT_EXPIRES_IN pwd_hash payload now oid db in
  (email_taken payload db ->
     run = (HTTPException 400 "Email already registered", db))
  /\ (~ email_taken payload db -> phone_taken payload db ->
        run = (HTTPException 400 "Phone already registered", db))
  /\ (~ email_taken payload db -> ~ phone_taken payload db ->
      fresh_user_id oid db ->
        run
        = (Ok {| token := {| sub := oid; token_role := reg_role payload;
                             exp := now + JWT_EXPIRES_IN; iat := now |};
                 user_view := {| uv_id := oid; uv_name := reg_name payload;
                                 uv_role := reg_role payload |} |},
           on_user
             (fun c => c ++ [new_document oid now
                               (registered_user pwd_hash payload)]) db)).
Proof.
  intros run. subst run. split; [|split].
  - intros He. rewrite register_run.
    apply email_check in He. now rewrite He.
  - intros He Hp. rewrite register_run.
    destruct (truthy (reg_email payload) && _) eqn:E1.
    { apply email_check in E1. contradiction. }
    apply phone_check in Hp. now rewrite Hp.
  - apply register_run_fresh.
Qed.

(** A first registration, into an empty store. *)
Lemma register_outcome_witness :
  register (F := RealFloat.real_float) 3600 Examples.toy_hash
    Examples.ana_registration 10 "u1" Examples.empty_db
  = (Ok {| token := {| sub := "u1"; token_role := motorist;
                       exp := 3610; iat := 10 |};
           user_view := {| uv_id := "u1"; uv_name := "Ana";
                           uv_role := motorist |} |},
     on_user
       (fun c => c ++ [new_document "u1" 10
                         (registered_user Examples.toy_hash
                            Examples.ana_registration)])
       Examples.empty_db).
Proof.
  refine (proj2 (proj2 (@register_outcome RealFloat.real_float 3600
                          Examples.toy_hash Examples.ana_registration 10
                          "u1" Examples.empty_db)) _ _ _).
  - intros (_ & u & [] & _).
  - intros (H & _). discriminate H.
  - intros u [].
Defined.

(** ** Unique contacts *)

Section ContactFacts.
Context {F : PyFloat}.
Variable JWT_EXPIRES_IN : Z.
Variable pwd_hash : string -> string.
Variable pwd_verify : string -> string -> bool.

Lemma truthy_values_app (l1 l2 : list (option string)) :
  truthy_values (l1 ++ l2) = truthy_values l1 ++ truthy_values l2.
Proof. unfold truthy_values. apply flat_map_app. Qed.

Lemma in_truthy_values (l : list (option string)) (s : string) :
  In s (truthy_values l) -> In (Some s) l.
Proof.
  unfold truthy_values. intros H. apply in_flat_map in H as (o & Ho & Hs).
  destruct (truthy o) eqn:E; [|contradiction].
  destruct Hs as [<-|[]]. now rewrite <- truthy_or_str.
Qed.

Lemma map_body_update_one_set_id {A : Type} (q : Doc A -> bool) (x : string)
    (c : list (Doc A)) :
  map (fun d => body d) (update_one q (set_id x) c)
  = map (fun d => body d) c.
Proof.
  induction c as [|d c IH]; simpl; [reflexivity|].
  destruct (q d); simpl; congruence.
Qed.

(** The users after a registration that passed both checks carry the
    bodies of the users before, followed by the new one. *)
Lemma registered_bodies (payload : RegisterDTO) (now : Z) (oid : string)
    (users : list (Doc User.t)) :
  map (fun d => body d)
    (update_one (fun d => negb (is_some (id d)) && by__id oid d)
       (set_id oid)
       (users ++ [new_document oid now (registered_user pwd_hash payload)]))
  = map (fun d => body d) users ++ [registered_user pwd_hash payload].
Proof. now rewrite map_body_update_one_set_id, map_app. Qed.

Lemma emails_of_bodies (users : list (Doc User.t)) :
  emails users
  = truthy_values (map User.email (map (fun d => body d) users)).
Proof. unfold emails. now rewrite map_map. Qed.

Lemma phones_of_bodies (users : list (Doc User.t)) :
  phones users
  = truthy_values (map User.phone (map (fun d => body d) users)).
Proof. unfold phones. now rewrite map_map. Qed.

Lemma NoDup_snoc_truthy (l : list (option string)) (o : option string) :
  NoDup (truthy_values l) ->
  (truthy o = true -> ~ In o l) ->
  NoDup (truthy_values (l ++ [o])).
Proof.
  intros Hnd Ho. rewrite truthy_values_app. unfold truthy_values at 2.
  simpl. destruct (truthy o) eqn:E; simpl; [|now rewrite app_nil_r].
  apply NoDup_app; [assumption | repeat constructor; intros [] |].
  intros s Hs [<-|[]]. apply in_truthy_values in Hs.
  rewrite <- truthy_or_str in Hs by exact E. now apply Ho.
Qed.

Lemma register_keeps_contacts_unique (payload : RegisterDTO) (now : Z)
    (oid : string) :
  keeping contacts_stay_unique
    (register JWT_EXPIRES_IN pwd_hash payload now oid).
Proof.
  intros db. rewrite register_run.
  destruct (truthy (reg_email payload) && _) eqn:E1;
    [split; intros H; exact H|].
  destruct (truthy (reg_phone payload) && _) eqn:E2;
    [split; intros H; exact H|].
  cbv zeta. cbn [snd].
  rewrite <- not_true_iff_false, email_check in E1.
  rewrite <- not_true_iff_false, phone_check in E2.
  split; intros Hnd; cbn [db_user on_user].
  - rewrite emails_of_bodies, registered_bodies, map_app.
    apply NoDup_snoc_truthy; [now rewrite <- emails_of_bodies|].
    cbn [registered_user User.email]. intros Ht Hin. apply E1.
    split; [exact Ht|]. rewrite map_map in Hin.
    apply in_map_iff in Hin as (u & Hu & Hin). now exists u.
  - rewrite phones_of_bodies, registered_bodies, map_app.
    apply NoDup_snoc_truthy; [now rewrite <- phones_of_bodies|].
    cbn [registered_user User.phone]. intros Ht Hin. apply E2.
    split; [exact Ht|]. rewrite map_map in Hin.
    apply in_map_iff in Hin as (u & Hu & Hin). now exists u.
Qed.

Lemma contacts_stay_unique_refl (db : DB) : contacts_stay_unique db db.
Proof. split; auto. Qed.

Lemma contacts_stay_unique_trans (db1 db2 db3 : DB) :
  contacts_stay_unique db1 db2 -> contacts_stay_unique db2 db3 ->
  contacts_stay_unique db1 db3.
Proof. intros [] []. split; auto. Qed.

End ContactFacts.

(** Walk through a handler that does not write to the users. *)
Ltac leave_users :=
  repeat first
    [ exact contacts_stay_unique_refl
    | exact contacts_stay_unique_trans
    | progress intros
    | apply keeping_bind
    | apply keeping_ret
    | apply keeping_raise
    | apply keeping_query
    | apply keeping_write; intros; apply contacts_stay_unique_refl
    | apply keeping_create_document; intros;
      apply contacts_stay_unique_refl
    | match goal with
      | |- keeping _ (if ?b then _ else _) => destruct b
      | |- keeping _ (match ?x with _ => _ end) => destruct x
      end ].

Section ContactsOverCalls.
Context {F : PyFloat}.
Variable JWT_EXPIRES_IN : Z.
Variable pwd_hash : string -> string.
Variable pwd_verify : string -> string -> bool.

Lemma serve_keeps_contacts_unique (c : Call) (now : Z) (oid : string) :
  keeping contacts_stay_unique
    (serve JWT_EXPIRES_IN pwd_hash pwd_verify c now oid).
Proof.
  destruct c; unfold serve, void, read_only;
    try (apply authenticated_keeping;
         [exact contacts_stay_unique_refl
         | exact contacts_stay_unique_trans | intros]);
    try (apply keeping_bind;
         [exact contacts_stay_unique_trans
         | apply register_keeps_contacts_unique
         | intros; apply keeping_ret; exact contacts_stay_unique_refl]);
    unfold login, provider_apply, provider_status,
      create_request, assign_request, mark_busy, update_request_status,
      create_payment_intent, payments_webhook, register_fcm_token,
      post_review, raise_dispute, admin_set_application_status;
    leave_users.
Qed.

End ContactsOverCalls.

(** X9.  No sequence of calls makes two users share an e-mail address or
    a phone number: if the (non-empty) e-mail addresses of the stored
    users are pairwise different they stay so, and likewise the phone
    numbers. *)
Theorem contacts_remain_unique {F : PyFloat} (JWT_EXPIRES_IN : Z)
    (pwd_hash : string -> string) (pwd_verify : string -> string -> bool)
    (calls : list (Call * Z * string)) (db : DB) :
  let db' := serve_all JWT_EXPIRES_IN pwd_hash pwd_verify calls db in
  (NoDup (emails (db_user db)) -> NoDup (emails (db_user db')))
  /\ (NoDup (phones (db_user db)) -> NoDup (phones (db_user db'))).
Proof.
  revert db. induction calls as [|[[c now] oid] calls IH]; intros db; simpl.
  - split; auto.
  - destruct (serve_keeps_contacts_unique JWT_EXPIRES_IN pwd_hash pwd_verify
                c now oid db) as (He & Hp).
    destruct (IH (snd (serve JWT_EXPIRES_IN pwd_hash pwd_verify c now oid db)))
      as (He' & Hp').
    split; auto.
Qed.

(** ** Registration, then login *)

Section RegisterLoginFacts.
Context {F : PyFloat}.

Lemma caller_id_new_document (oid : string) (now : Z) (data : User.t) :
  caller_id (new_document oid now data) = oid.
Proof. unfold caller_id. simpl. now destruct (oid =? "")%string. Qed.

(** After a registration with an e-mail address, the login by that
    address finds the new user. *)
Lemma login_finds_registered (pwd_hash : string -> string)
    (payload : RegisterDTO) (password : string) (now : Z) (oid : string)
    (db : DB) :
  truthy (reg_email payload) = true ->
  ~ email_taken payload db ->
  login_query_empty (login_of payload password) = false
  /\ find_one (login_query (login_of payload password))
       (db_user db
        ++ [new_document oid now (registered_user pwd_hash payload)])
     = Some (new_document oid now (registered_user pwd_hash payload)).
Proof.
  intros Ht He. split.
  - unfold login_query_empty, login_of. cbn [login_email]. now rewrite Ht.
  - rewrite find_one_app_last.
    + unfold login_query, login_of. cbn [login_email login_phone truthy].
      rewrite Ht. unfold by_email. cbn [body new_document registered_user
                                          User.email].
      rewrite <- truthy_or_str by exact Ht.
      replace (option_string_eqb (reg_email payload) (reg_email payload))
        with true; [reflexivity|].
      symmetry. now apply option_string_eqb_true.
    + intros d Hd. unfold login_query, login_of.
      cbn [login_email login_phone truthy]. rewrite Ht, andb_true_r.
      destruct (by_email (or_str (reg_email payload) "") d) eqn:E;
        [|reflexivity].
      exfalso. apply He. split; [exact Ht|]. exists d. split; [exact Hd|].
      unfold by_email in E. apply option_string_eqb_true in E.
      now rewrite E, <- truthy_or_str.
Qed.

End RegisterLoginFacts.

(** X10.  After a registration with an e-mail address and a password, a
    login with that address and password succeeds when the verifier
    accepts the password against its own hash, and returns a token for the
    new user; a login with a password that the verifier rejects is refused
    with 401.  Neither login writes. *)
Theorem register_then_login {F : PyFloat} (JWT_EXPIRES_IN : Z)
    (pwd_hash : string -> string) (pwd_verify : string -> string -> bool)
    (payload : RegisterDTO) (password : string) (now now' : Z) (oid : string)
    (db : DB) :
  truthy (reg_email payload) = true ->
  reg_password payload = Some password ->
  password <> "" ->
  ~ email_taken payload db -> ~ phone_taken payload db ->
  fresh_user_id oid db ->
  let db' := snd (register JWT_EXPIRES_IN pwd_hash payload now oid db) in
  (pwd_verify password (pwd_hash password) = true ->
     login JWT_EXPIRES_IN pwd_verify (login_of payload password) now' db'
     = (Ok {| token := {| sub := oid; token_role := reg_role payload;
                          exp := now' + JWT_EXPIRES_IN; iat := now' |};
              user_view := {| uv_id := oid; uv_name := reg_name payload;
                              uv_role := reg_role payload |} |}, db'))
  /\ (forall wrong,
        wrong <> "" -> pwd_hash password <> "" ->
        pwd_verify wrong (pwd_hash password) = false ->
        login JWT_EXPIRES_IN pwd_verify (login_of payload wrong) now' db'
        = (HTTPException 401 "Invalid credentials", db')).
Proof.
  intros Ht Hpw Hne He Hp Hfresh db'. subst db'.
  rewrite (@register_run_fresh F JWT_EXPIRES_IN pwd_hash payload now oid db
             He Hp Hfresh).
  cbn [snd]. split.
  - intros Hv. rewrite login_run. cbn [db_user on_user].
    destruct (@login_finds_registered F pwd_hash payload password now oid db Ht
                He)
      as (-> & ->).
    rewrite caller_id_new_document.
    cbn [body new_document registered_user User.password_hash User.role
         User.name login_of login_password].
    rewrite Hpw, (truthy_Some Hne). cbn [or_str].
    apply String.eqb_neq in Hne. rewrite Hne.
    unfold truthy. destruct (pwd_hash password =? "")%string eqn:Eh.
    + reflexivity.
    + cbn [negb andb]. now rewrite Hv.
  - intros wrong Hw Hh Hv. rewrite login_run. cbn [db_user on_user].
    destruct (@login_finds_registered F pwd_hash payload wrong now oid db Ht
                He)
      as (-> & ->).
    cbn [body new_document registered_user User.password_hash User.role
         User.name login_of login_password].
    rewrite Hpw, (truthy_Some Hne), (truthy_Some Hw). cbn [or_str].
    apply String.eqb_neq in Hne, Hw. rewrite Hne, Hw. cbv beta iota.
    rewrite (truthy_Some Hh).
    apply String.eqb_neq in Hh. rewrite Hh, Hv. reflexivity.
Qed.

(** Ana registers into an empty store and logs in with her password. *)
Lemma register_then_login_witness :
  login (F := RealFloat.real_float) 3600 Examples.toy_verify
    (login_of Examples.ana_registration "s3cret") 20
    (snd (register 3600 Examples.toy_hash Examples.ana_registration 10 "u1"
            Examples.empty_db))
  = (Ok {| token := {| sub := "u1"; token_role := motorist;
                       exp := 3620; iat := 20 |};
           user_view := {| uv_id := "u1"; uv_name := "Ana";
                           uv_role := motorist |} |},
     snd (register 3600 Examples.toy_hash Examples.ana_registration 10 "u1"
            Examples.empty_db)).
Proof.
  refine (proj1 (@register_then_login RealFloat.real_float 3600
                   Examples.toy_hash Examples.toy_verify
                   Examples.ana_registration "s3cret" 10 20 "u1"
                   Examples.empty_db eq_refl eq_refl _ _ _ _) eq_refl).
  - discriminate.
  - intros (_ & u & [] & _).
  - intros (H & _). discriminate H.
  - intros u [].
Defined.

(** ** Provider presence *)

Section PresenceFacts.
Context {F : PyFloat}.

(** [provider_status], case by case. *)
Lemma provider_status_run (payload : ProviderStatusDTO) (user : Doc User.t)
    (now : Z) (oid : string) (db : DB) :
  provider_status payload user now oid db
  = if negb (provider_or_admin user)
    then (HTTPException 403 "Only providers can set status", db)
    else
      match find_one (by_user_id (caller_id user)) (db_providerprofile db)
      with
      | Some prof =>
          (Ok tt,
           on_providerprofile
             (update_one (by__id (_id prof))
                (set_body (set_presence (caller_id user) payload))) db)
      | None =>
          (Ok tt,
           on_providerprofile
             (fun c => c ++ [new_document oid now
                               (presence_data (caller_id user) payload)])
             db)
      end.
Proof.
  unfold provider_status.
  destruct (negb (provider_or_admin user)); [reflexivity|].
  unfold bind, query. now destruct (find_one _ _).
Qed.

Lemma set_presence_user_id (uid : string) (payload : ProviderStatusDTO)
    (p : Providerprofile.t) :
  Providerprofile.user_id (set_presence uid payload p) = uid.
Proof.
  unfold set_presence. now destruct (ps_lat payload), (ps_lng payload).
Qed.

Lemma set_presence_status (uid : string) (payload : ProviderStatusDTO)
    (p : Providerprofile.t) :
  Providerprofile.status (set_presence uid payload p) = ps_status payload.
Proof.
  unfold set_presence. now destruct (ps_lat payload), (ps_lng payload).
Qed.

Lemma set_presence_position (uid : string) (payload : ProviderStatusDTO)
    (p : Providerprofile.t) (plat plng : float) :
  ps_lat payload = Some plat -> ps_lng payload = Some plng ->
  Providerprofile.lat (set_presence uid payload p) = Some plat
  /\ Providerprofile.lng (set_presence uid payload p) = Some plng.
Proof. unfold set_presence. now intros -> ->. Qed.

(** The write of [provider_status] filters on the [_id] of the profile it
    found by [user_id]; the next lookup by [user_id] finds the document
    that was written. *)
Lemma find_after_presence (uid : string) (payload : ProviderStatusDTO)
    (c : list (Doc Providerprofile.t)) (prof : Doc Providerprofile.t) :
  find_one (by_user_id uid) c = Some prof ->
  exists d,
    find_one (by_user_id uid)
      (update_one (by__id (_id prof)) (set_body (set_presence uid payload)) c)
    = Some (set_body (set_presence uid payload) d).
Proof.
  assert (Hq : forall d,
             by_user_id uid (set_body (set_presence uid payload) d) = true).
  { intros d. unfold by_user_id. cbn [body set_body].
    rewrite set_presence_user_id. apply String.eqb_refl. }
  unfold find_one. induction c as [|x c IH]; [discriminate|].
  cbn [List.find update_one].
  destruct (by_user_id uid x) eqn:Ex.
  - intros H. injection H as <-. unfold by__id at 1.
    rewrite String.eqb_refl. cbn [List.find]. rewrite Hq. now exists x.
  - intros H. destruct (by__id (_id prof) x).
    + cbn [List.find]. rewrite Hq. now exists x.
    + cbn [List.find]. rewrite Ex. now apply IH.
Qed.

End PresenceFacts.

(** X11.  When a provider or admin reports a status, the call succeeds
    and the profile that the next lookup by the caller's id finds carries
    the reported status and, when both coordinates were given, the
    reported position; a caller who had no profile gets exactly one new
    document. *)
Theorem provider_status_stored {F : PyFloat} (payload : ProviderStatusDTO)
    (user : Doc User.t) (now : Z) (oid : string) (db : DB) :
  provider_or_admin user = true ->
  let run := provider_status payload user now oid db in
  fst run = Ok tt
  /\ (exists p,
        find_one (by_user_id (caller_id user)) (db_providerprofile (snd run))
        = Some p
        /\ Providerprofile.status (body p) = ps_status payload
        /\ (forall plat plng,
              ps_lat payload = Some plat -> ps_lng payload = Some plng ->
              Providerprofile.lat (body p) = Some plat
              /\ Providerprofile.lng (body p) = Some plng))
  /\ (find_one (by_user_id (caller_id user)) (db_providerprofile db) = None ->
      db_providerprofile (snd run)
      = db_providerprofile db
        ++ [new_document oid now (presence_data (caller_id user) payload)])
  /\ (find_one (by_user_id (caller_id user)) (db_providerprofile db) <> None ->
      List.length (db_providerprofile (snd run))
      = List.length (db_providerprofile db)).
Proof.
  intros Hrole run. subst run. rewrite provider_status_run, Hrole.
  cbn [negb].
  destruct (find_one (by_user_id (caller_id user)) (db_providerprofile db))
    as [prof|] eqn:E; cbn [fst snd db_providerprofile on_providerprofile].
  - split; [reflexivity|]. split; [|split; [discriminate|]].
    + destruct (find_after_presence (caller_id user) payload _ E)
        as (d & ->).
      eexists. split; [reflexivity|]. cbn [body set_body].
      split; [apply set_presence_status|].
      intros plat plng. apply set_presence_position.
    + intros _. clear E. induction (db_providerprofile db) as [|x c IH];
        [reflexivity|].
      cbn [update_one]. destruct (by__id (_id prof) x); simpl; congruence.
  - split; [reflexivity|]. split; [|split; [reflexivity | congruence]].
    rewrite find_one_app_last by now apply find_one_no_match.
    unfold by_user_id at 1. cbn [body new_document]. unfold presence_data.
    rewrite set_presence_user_id, String.eqb_refl.
    eexists. split; [reflexivity|]. cbn [body new_document].
    split; [apply set_presence_status|].
    intros plat plng. apply set_presence_position.
Qed.

(** A provider without profile goes online at the pickup point. *)
Lemma provider_status_stored_witness :
  fst (provider_status (F := RealFloat.real_float) Examples.online_at_pickup
         Examples.unmirrored_provider 5 "p1" Examples.empty_db)
  = Ok tt.
Proof.
  exact (proj1 (@provider_status_stored RealFloat.real_float
                  Examples.online_at_pickup Examples.unmirrored_provider 5
                  "p1" Examples.empty_db eq_refl)).
Defined.

(** ** Payments *)

(** X12.  A payment intent is stored with the caller as motorist, the
    amount and currency of the payload, status [initiated] and the
    provider that the request has at that moment (none when the request
    is unknown); a later webhook call that names the intent sets the
    status it carries, or [succeeded] when it carries none, and stamps
    [updated_at]; no other payment changes.  The generated identifier is
    not empty and not in use. *)
Theorem payment_intent_then_webhook {F : PyFloat}
    (payload : PaymentIntentDTO) (user : Doc User.t) (now now' : Z)
    (oid : string) (status : option string) (db : DB) :
  oid <> "" ->
  (forall p, In p (db_payment db) -> id p <> Some oid) ->
  let provider_id :=
    match find_one (by_id (pi_request_id payload)) (db_servicerequest db) with
    | Some r => Servicerequest.provider_id (body r)
    | None => None
    end in
  let intent := create_payment_intent payload user now oid db in
  let paid := payments_webhook (Some oid) status now' (snd intent) in
  fst intent = Ok oid
  /\ db_payment (snd intent)
     = db_payment db
       ++ [new_document oid now
             (payment_doc payload user provider_id "initiated")]
  /\ fst paid = Ok tt
  /\ db_payment (snd paid)
     = db_payment db
       ++ [set_updated_at now'
             (new_document oid now
                (payment_doc payload user provider_id
                   match status with
                   | Some s => s
                   | None => "succeeded"
                   end))].
Proof.
  intros Hne Hfresh provider_id intent paid. subst intent paid provider_id.
  unfold create_payment_intent, payments_webhook, bind, query,
    create_document, write.
  cbn [fst snd truthy or_str]. apply String.eqb_neq in Hne. rewrite Hne.
  cbn [negb fst snd db_payment on_payment]. repeat split.
  rewrite update_one_app_last.
  - now rewrite by_id_new_document.
  - intros p Hp. specialize (Hfresh p Hp).
    destruct (by_id oid p) eqn:E; [|reflexivity].
    apply by_id_true in E. contradiction.
Qed.

(** A payment for a request that is not stored, then the gateway's
    call. *)
Lemma payment_intent_then_webhook_witness :
  fst (create_payment_intent (F := RealFloat.real_float)
         Examples.tow_payment Examples.example_motorist 30 "pay1"
         Examples.empty_db)
  = Ok "pay1".
Proof.
  refine (proj1 (@payment_intent_then_webhook RealFloat.real_float
                   Examples.tow_payment Examples.example_motorist 30 40
                   "pay1" None Examples.empty_db _ _)).
  - discriminate.
  - intros p [].
Defined.

(** ** Applications *)

Section ApplicationFacts.
Context {F : PyFloat}.

(** [admin_set_application_status] for an admin, case by case. *)
Lemma admin_set_application_status_run (app_id : string) (approve : bool)
    (user : Doc User.t) (now : Z) (oid : string) (db : DB) :
  User.role (body user) = admin ->
  admin_set_application_status app_id approve user now oid db
  = let status :=
      if approve then Providerapplication.approved
      else Providerapplication.rejected in
    let db1 :=
      on_providerapplication
        (update_one (by_id app_id) (set_body (set_application_status status)))
        db in
    match find_one (by_id app_id) (db_providerapplication db1) with
    | Some a =>
        if approve
        then
          match find_one (by_user_id (Providerapplication.user_id (body a)))
                  (db_providerprofile db1) with
          | Some _ => (Ok tt, db1)
          | None =>
              (Ok tt,
               on_providerprofile
                 (fun c =>
                    c ++ [new_document oid now
                            (approved_profile
                               (Providerapplication.user_id (body a))
                               (Providerapplication.service_types (body a)))])
                 db1)
          end
        else (Ok tt, db1)
    | None => (Ok tt, db1)
    end.
Proof.
  intros Hrole. unfold admin_set_application_status. rewrite Hrole.
  cbn [role_eqb negb]. unfold bind, write, query. cbn [fst snd].
  destruct (find_one (by_id app_id) _) as [a|]; [|reflexivity].
  destruct approve; [|reflexivity].
  now destruct (find_one (by_user_id _) _).
Qed.

End ApplicationFacts.

(** X13.  When a provider applies and an admin then decides on that
    application, the application is stored with the decision.  An
    approval creates an offline profile for the applicant that lists the
    service types applied for, unless the applicant has a profile
    already; a rejection, or an approval for an applicant with a profile,
    leaves the profiles as they were.  The identifier generated for the
    application is not in use. *)
Theorem apply_then_decide {F : PyFloat} (payload : ProviderApplyDTO)
    (applicant admin_user : Doc User.t) (approve : bool) (now now' : Z)
    (oid oid' : string) (db : DB) :
  provider_or_admin applicant = true ->
  User.role (body admin_user) = admin ->
  (forall a, In a (db_providerapplication db) -> id a <> Some oid) ->
  let applied := provider_apply payload applicant now oid db in
  let decided :=
    admin_set_application_status oid approve admin_user now' oid'
      (snd applied) in
  fst applied = Ok (oid, Providerapplication.pending)
  /\ fst decided = Ok tt
  /\ db_providerapplication (snd decided)
     = db_providerapplication db
       ++ [set_body
             (set_application_status
                (if approve then Providerapplication.approved
                 else Providerapplication.rejected))
             (new_document oid now (application_doc payload applicant))]
  /\ db_providerprofile (snd decided)
     = if approve
       then match find_one (by_user_id (caller_id applicant))
                    (db_providerprofile db) with
            | Some _ => db_providerprofile db
            | None =>
                db_providerprofile db
                ++ [new_document oid' now'
                      (approved_profile (caller_id applicant)
                         (pa_service_types payload))]
            end
       else db_providerprofile db.
Proof.
  intros Happ Hadm Hfresh applied decided. subst decided applied.
  unfold provider_apply. rewrite Happ. cbn [negb].
  unfold bind, create_document, ret. cbn [fst snd].
  rewrite (admin_set_application_status_run _ _ _ _ _ _ Hadm).
  cbv zeta. cbn [db_providerapplication on_providerapplication].
  fold (application_doc payload applicant).
  assert (Hq : forall a, In a (db_providerapplication db) ->
                         by_id oid a = false).
  { intros a Ha. specialize (Hfresh a Ha).
    destruct (by_id oid a) eqn:E; [|reflexivity].
    apply by_id_true in E. contradiction. }
  assert (Eu : forall status,
             update_one (by_id oid)
               (set_body (set_application_status status))
               (db_providerapplication db
                ++ [new_document oid now (application_doc payload applicant)])
             = db_providerapplication db
               ++ [set_body (set_application_status status)
                     (new_document oid now
                        (application_doc payload applicant))]).
  { intros status.
    now rewrite (update_one_app_last _ _ _ _ Hq), by_id_new_document. }
  rewrite Eu, (find_one_app_last _ _ _ Hq).
  replace (by_id oid (set_body _ (new_document oid now _))) with true
    by (symmetry; apply (by_id_new_document oid now)).
  cbn [body set_body new_document application_doc set_application_status
       Providerapplication.user_id Providerapplication.service_types].
  destruct approve.
  - cbn [db_providerprofile on_providerapplication].
    destruct (find_one (by_user_id (caller_id applicant))
                (db_providerprofile db));
      cbn [fst snd db_providerapplication db_providerprofile
           on_providerprofile on_providerapplication];
      rewrite Eu; now repeat split.
  - cbn [fst snd db_providerapplication db_providerprofile
         on_providerprofile on_providerapplication].
    rewrite Eu. now repeat split.
Qed.

(** Sipho applies for towing and the admin approves. *)
Lemma apply_then_decide_witness :
  fst (provider_apply (F := RealFloat.real_float) Examples.tow_application
         Examples.unmirrored_provider 1 "a1" Examples.empty_db)
  = Ok ("a1", Providerapplication.pending).
Proof.
  refine (proj1 (@apply_then_decide RealFloat.real_float
                   Examples.tow_application Examples.unmirrored_provider
                   Examples.example_admin true 1 2 "a1" "p1"
                   Examples.empty_db eq_refl eq_refl _)).
  intros a [].
Defined.

(** ** After a match *)

Section AfterMatchFacts.
Context {F : PyFloat}.


End AfterMatchFacts.



(** ** What a status update leaves alone *)

Section UpdateFrameFacts.
Context {F : PyFloat}.

Lemma nth_error_update_one_other {A : Type} (q : Doc A -> bool)
    (set : Doc A -> Doc A) (c : list (Doc A)) :
  forall i d,
    nth_error c i = Some d -> q d = false ->
    nth_error (update_one q set c) i = Some d.
Proof.
  induction c as [|x c IH]; intros i d Hd Hq; [now destruct i|].
  cbn [update_one]. destruct i as [|i]; simpl in Hd.
  - injection Hd as ->. now rewrite Hq.
  - destruct (q x); simpl; [assumption | now apply IH].
Qed.

Lemma update_one_length {A : Type} (q : Doc A -> bool)
    (set : Doc A -> Doc A) (c : list (Doc A)) :
  List.length (update_one q set c) = List.length c.
Proof.
  induction c as [|x c IH]; [reflexivity|].
  cbn [update_one]. destruct (q x); simpl; congruence.
Qed.

End UpdateFrameFacts.

(** X15.  [update_request_status] answers 404 and writes nothing when no
    request has [request_id] as [id] or [_id].  In every case it adds and
    removes no request, leaves every request whose [id] is not
    [request_id] exactly as it was, and writes to no other collection. *)
Theorem update_request_status_touches_one {F : PyFloat} (request_id : string)
    (status : TargetStatus) (user : Doc User.t) (now : Z) (db : DB) :
  let run := update_request_status request_id status user now db in
  ((forall d, In d (db_servicerequest db) ->
              id d <> Some request_id /\ _id d <> request_id) ->
     run = (HTTPException 404 "Request not found", db))
  /\ List.length (db_servicerequest (snd run))
     = List.length (db_servicerequest db)
  /\ (forall i d,
        nth_error (db_servicerequest db) i = Some d ->
        id d <> Some request_id ->
        nth_error (db_servicerequest (snd run)) i = Some d)
  /\ db_user (snd run) = db_user db
  /\ db_providerprofile (snd run) = db_providerprofile db
  /\ db_payment (snd run) = db_payment db.
Proof.
  intros run. subst run. rewrite update_request_status_run. split.
  - intros H.
    assert (E1 : find_one (by_id request_id) (db_servicerequest db) = None).
    { apply find_one_no_match. intros d Hd. destruct (H d Hd) as (H1 & _).
      destruct (by_id request_id d) eqn:E; [|reflexivity].
      apply by_id_true in E. contradiction. }
    assert (E2 : find_one (by__id request_id) (db_servicerequest db) = None).
    { apply find_one_no_match. intros d Hd. destruct (H d Hd) as (_ & H2).
      destruct (by__id request_id d) eqn:E; [|reflexivity].
      apply by__id_true in E. contradiction. }
    now rewrite E1, E2.
  - destruct (or_else _ _) as [req|]; [|now repeat split].
    destruct (may_update user req); [|now repeat split].
    cbn [snd db_servicerequest db_user db_providerprofile db_payment
         on_servicerequest].
    split; [apply update_one_length|]. split; [|now repeat split].
    intros i d Hd Hid. apply nth_error_update_one_other; [assumption|].
    destruct (by_id request_id d) eqn:E; [|reflexivity].
    apply by_id_true in E. contradiction.
Qed.

(** ** The sort is stable *)

Section StableSortFacts.
Context {F : PyFloat}.



End StableSortFacts.



(** X18.  [distance_km] gives the same distance whichever of the two
    points comes first, in every float arithmetic in which [*] commutes
    and the squared sine of half a difference is the same for [x - y] and
    [y - x]. *)
Theorem distance_km_symmetric {F : PyFloat} (a b : LocationDTO) :
  (forall x y : float, (x * y)%fl = (y * x)%fl) ->
  (forall x y : float,
      fpow2 (sin ((x - y) / float_of_Q 2)%fl)
      = fpow2 (sin ((y - x) / float_of_Q 2)%fl)) ->
  distance_km a b = distance_km b a.
Proof. intros Hmul Hsin. now apply distance_km_sym. Qed.

(** The two laws hold of the reals. *)
Lemma distance_km_symmetric_witness :
  distance_km (F := RealFloat.real_float) Examples.pickup
    Examples.null_island
  = distance_km Examples.null_island Examples.pickup.
Proof.
  refine (@distance_km_symmetric RealFloat.real_float Examples.pickup
            Examples.null_island _ _).
  - intros x y. apply Rmult_comm.
  - intros x y. cbn [fpow2 sin fdiv fsub float_of_Q RealFloat.real_float].
    replace ((y - x) / Q2R 2)%R with (- ((x - y) / Q2R 2))%R
      by (unfold Rdiv; ring).
    rewrite sin_neg. apply Rsqr_neg.
Defined.

(** ** From match to progress *)

Section LifecycleFacts.
Context {F : PyFloat}.



End LifecycleFacts.



(** ** Listings *)

Section ListingFacts.
Context {F : PyFloat}.

Lemma fill_id_body {A : Type} (it : Doc A) : body (fill_id it) = body it.
Proof. reflexivity. Qed.

Lemma visible_to_fill_id (user : Doc User.t) (d : Doc Servicerequest.t) :
  visible_to user (fill_id d) = visible_to user d.
Proof. reflexivity. Qed.

Lemma insert_newest_perm {A : Type} (x : Doc A) (l : list (Doc A)) :
  Permutation (Examples.insert_newest x l) (x :: l).
Proof.
  induction l as [|y l IH]; simpl; [reflexivity|].
  destruct (Examples.newer x y); [reflexivity|].
  rewrite IH. apply perm_swap.
Qed.

Lemma newest_first_perm (A : Type) (l : list (Doc A)) :
  Permutation (Examples.newest_first l) l.
Proof.
  unfold Examples.newest_first. induction l as [|x l IH]; simpl;
    [reflexivity|].
  now rewrite insert_newest_perm, IH.
Qed.

End ListingFacts.

(** X19.  [list_requests] returns, in the order the driver's sort gives,
    exactly the stored requests that the caller may see: a motorist those
    with the caller's id as [motorist_id], a provider those with it as
    [provider_id], an admin all.  Every item carries an [id] and is
    otherwise the stored document.  The sort is only required to
    permute. *)
Theorem list_requests_visibility {F : PyFloat}
    (sort_created_at_desc : forall A : Type, list (Doc A) -> list (Doc A))
    (user : Doc User.t) (db : DB) :
  (forall (A : Type) (l : list (Doc A)),
      Permutation (sort_created_at_desc A l) l) ->
  let items := list_requests sort_created_at_desc user db in
  Permutation items
    (map fill_id (filter (visible_to user) (db_servicerequest db)))
  /\ (forall it, In it items ->
        id it <> None
        /\ exists d, In d (db_servicerequest db)
                     /\ _id it = _id d /\ body it = body d
                     /\ created_at it = created_at d
                     /\ updated_at it = updated_at d)
  /\ (User.role (body user) = motorist ->
      forall it, In it items ->
        Servicerequest.motorist_id (body it) = caller_id user)
  /\ (User.role (body user) = provider ->
      forall it, In it items ->
        Servicerequest.provider_id (body it) = Some (caller_id user)).
Proof.
  intros Hsort items.
  assert (Hperm : Permutation items
                    (map fill_id
                       (filter (visible_to user) (db_servicerequest db)))).
  { unfold items, list_requests, find. now rewrite Hsort. }
  assert (Hin : forall it, In it items ->
                  exists d, In d (db_servicerequest db)
                            /\ visible_to user d = true /\ it = fill_id d).
  { intros it Hit. apply (Permutation_in _ Hperm) in Hit.
    apply in_map_iff in Hit as (d & <- & Hd).
    apply filter_In in Hd as (Hd & Hv). now exists d. }
  split; [exact Hperm|]. split; [|split].
  - intros it Hit. destruct (Hin it Hit) as (d & Hd & _ & ->).
    split; [discriminate|]. exists d. now repeat split.
  - intros Hrole it Hit. destruct (Hin it Hit) as (d & _ & Hv & ->).
    unfold visible_to in Hv. rewrite Hrole in Hv.
    now apply String.eqb_eq in Hv.
  - intros Hrole it Hit. destruct (Hin it Hit) as (d & _ & Hv & ->).
    unfold visible_to in Hv. rewrite Hrole in Hv.
    now apply option_string_eqb_true in Hv.
Qed.

(** A motorist lists the requests of a store that holds one of theirs. *)
Lemma list_requests_visibility_witness :
  Permutation
    (list_requests (F := RealFloat.real_float) Examples.newest_first
       Examples.example_motorist
       (Examples.one_request_db Examples.unmirrored_request))
    (map fill_id
       (filter (visible_to Examples.example_motorist)
          (db_servicerequest
             (Examples.one_request_db Examples.unmirrored_request)))).
Proof.
  exact (proj1 (@list_requests_visibility RealFloat.real_float
                  Examples.newest_first Examples.example_motorist
                  (Examples.one_request_db Examples.unmirrored_request)
                  newest_first_perm)).
Defined.

(** X20.  [admin_list_applications] refuses everyone but an admin with
    403; an admin gets every stored application, each with an [id], in
    the order the driver's sort gives. *)
Theorem admin_list_applications_outcome {F : PyFloat}
    (sort_created_at_desc : forall A : Type, list (Doc A) -> list (Doc A))
    (user : Doc User.t) (db : DB) :
  (forall (A : Type) (l : list (Doc A)),
      Permutation (sort_created_at_desc A l) l) ->
  (User.role (body user) <> admin ->
     admin_list_applications sort_created_at_desc user db
     = HTTPException 403 "Admins only")
  /\ (User.role (body user) = admin ->
      exists items,
        admin_list_applications sort_created_at_desc user db = Ok items
        /\ Permutation items (map fill_id (db_providerapplication db))
        /\ forall it, In it items -> id it <> None).
Proof.
  intros Hsort. unfold admin_list_applications. split.
  - intros Hrole. now destruct (User.role (body user)).
  - intros ->. cbn [role_eqb negb]. eexists. split; [reflexivity|].
    assert (Hperm : Permutation
                      (map fill_id
                         (sort_created_at_desc _
                            (find (fun _ => true)
                               (db_providerapplication db))))
                      (map fill_id (db_providerapplication db))).
    { rewrite Hsort. unfold find.
      replace (filter (fun _ => true) (db_providerapplication db))
        with (db_providerapplication db); [reflexivity|].
      induction (db_providerapplication db) as [|a l IH]; simpl; congruence. }
    split; [exact Hperm|].
    intros it Hit. apply (Permutation_in _ Hperm) in Hit.
    apply in_map_iff in Hit as (d & <- & _). discriminate.
Qed.

Lemma admin_list_applications_outcome_witness :
  admin_list_applications (F := RealFloat.real_float) Examples.newest_first
    Examples.example_motorist Examples.empty_db
  = HTTPException 403 "Admins only".
Proof.
  refine (proj1 (@admin_list_applications_outcome RealFloat.real_float
                   Examples.newest_first Examples.example_motorist
                   Examples.empty_db newest_first_perm) _).
  discriminate.
Defined.

(** ** One profile per provider *)

Section ProfileStepFacts.
Context {F : PyFloat}.

Lemma map_update_one_same {A B : Type} (g : Doc A -> B) (q : Doc A -> bool)
    (set : Doc A -> Doc A) (c : list (Doc A)) :
  (forall d, g (set d) = g d) -> map g (update_one q set c) = map g c.
Proof.
  intros H. induction c as [|x c IH]; [reflexivity|].
  cbn [update_one]. destruct (q x); simpl; congruence.
Qed.

(** With unique [_id]s, the write that filters on the [_id] of a stored
    document rewrites that document. *)
Lemma map_update_one_by__id {A B : Type} (g : Doc A -> B)
    (set : Doc A -> Doc A) (c : list (Doc A)) (d : Doc A) :
  NoDup (map (fun x => _id x) c) -> In d c -> g (set d) = g d ->
  map g (update_one (by__id (_id d)) set c) = map g c.
Proof.
  intros Hnd Hin Hg. induction c as [|x c IH]; [reflexivity|].
  inversion Hnd as [|? ? Hx Hc]; subst. cbn [update_one].
  destruct (by__id (_id d) x) eqn:E.
  - apply by__id_true in E. destruct Hin as [->|Hin].
    + simpl. now rewrite Hg.
    + exfalso. apply Hx. rewrite E.
      apply (in_map (fun x => _id x) c d Hin).
  - destruct Hin as [->|Hin].
    + unfold by__id in E. now rewrite String.eqb_refl in E.
    + simpl. now rewrite IH.
Qed.

Lemma NoDup_snoc {A : Type} (l : list A) (x : A) :
  NoDup l -> ~ In x l -> NoDup (l ++ [x]).
Proof.
  intros Hl Hx. apply NoDup_app; [assumption | repeat constructor; intros [] |].
  intros y Hy [<-|[]]. contradiction.
Qed.

(** A step keeps the profiles unique and adds at most the generated
    [_id]. *)
Lemma profile_step_unique (oid : string) (db db' : DB) :
  ~ In oid (map (fun d => _id d) (db_providerprofile db)) ->
  profiles_unique db ->
  profile_step oid db db' ->
  profiles_unique db'
  /\ (map (fun d => _id d) (db_providerprofile db')
      = map (fun d => _id d) (db_providerprofile db)
      \/ map (fun d => _id d) (db_providerprofile db')
         = map (fun d => _id d) (db_providerprofile db) ++ [oid]).
Proof.
  intros Hfresh (Hid & Huid) Hstep. unfold profiles_unique.
  destruct Hstep as [->|[(q & set & -> & Hset)
                        |[(prof & uid & payload & Hfind & ->)
                         |(now & data & Hfind & ->)]]].
  - auto.
  - rewrite !map_update_one_same by (intros d; apply Hset). auto.
  - apply find_one_some in Hfind as (Hin & Hq).
    unfold by_user_id in Hq. apply String.eqb_eq in Hq.
    rewrite (@map_update_one_same _ _ (fun d => _id d)) by reflexivity.
    rewrite (@map_update_one_by__id _ _
               (fun d => Providerprofile.user_id (body d))
               (set_body (set_presence uid payload)) (db_providerprofile db)
               prof Hid Hin).
    + auto.
    + cbn [body set_body]. now rewrite set_presence_user_id.
  - rewrite !map_app. cbn [map new_document _id body].
    split; [|now right]. split; [now apply NoDup_snoc|].
    apply NoDup_snoc; [assumption|].
    intros Hin. apply in_map_iff in Hin as (d & Hd & Hin).
    rewrite find_one_no_match in Hfind. specialize (Hfind d Hin).
    unfold by_user_id in Hfind. rewrite Hd, String.eqb_refl in Hfind.
    discriminate.
Qed.

Lemma same_profiles_refl (db : DB) : same_profiles db db.
Proof. reflexivity. Qed.

Lemma same_profiles_trans (db1 db2 db3 : DB) :
  same_profiles db1 db2 -> same_profiles db2 db3 -> same_profiles db1 db3.
Proof. unfold same_profiles. congruence. Qed.

Lemma snd_void {A : Type} (m : M A) (db : DB) :
  snd (void m db) = snd (m db).
Proof. unfold void, bind. now destruct (m db) as [[a|code detail] db1]. Qed.

(** Behind [get_current_user], the store is what the handler leaves, or
    untouched. *)
Lemma authenticated_step {A : Type} (P : DB -> Prop) (creds : Token)
    (now : Z) (handler : Doc User.t -> M A) (db : DB) :
  P db -> (forall user, P (snd (handler user db))) ->
  P (snd (authenticated creds now handler db)).
Proof.
  intros Hdb Hh. unfold authenticated, bind.
  rewrite get_current_user_run.
  destruct (exp creds <=? now)%Z; [exact Hdb|].
  destruct (sub creds =? "")%string; [exact Hdb|].
  destruct (or_else _ _) as [u|]; [|exact Hdb].
  rewrite snd_void. apply Hh.
Qed.

Lemma provider_status_profile_step (payload : ProviderStatusDTO)
    (user : Doc User.t) (now : Z) (oid : string) (db : DB) :
  profile_step oid db (snd (provider_status payload user now oid db)).
Proof.
  rewrite provider_status_run.
  destruct (negb (provider_or_admin user)); [now left|].
  destruct (find_one (by_user_id (caller_id user)) (db_providerprofile db))
    as [prof|] eqn:E; cbn [snd]; right; right.
  - left. now exists prof, (caller_id user), payload.
  - right. exists now, (presence_data (caller_id user) payload).
    unfold presence_data at 1. rewrite set_presence_user_id. now split.
Qed.

Lemma create_request_profile_step (payload : RequestCreateDTO)
    (user : Doc User.t) (now : Z) (oid : string) (db : DB) :
  profile_step oid db (snd (create_request payload user now oid db)).
Proof.
  unfold create_request.
  destruct (negb (role_eqb (User.role (body user)) motorist)); [now left|].
  unfold bind, create_document, query, assign_request, mark_busy, write, ret.
  cbn [fst snd].
  destruct (providers_nearby _ _ _ _ _) as [|chosen rest]; [now left|].
  cbn [snd]. right. left.
  exists (by_user_id (Nearby.user_id chosen)),
         (set_body (set_profile_status Providerprofile.busy)).
  now split.
Qed.

Lemma admin_set_application_status_profile_step (app_id : string)
    (approve : bool) (user : Doc User.t) (now : Z) (oid : string) (db : DB) :
  profile_step oid db
    (snd (admin_set_application_status app_id approve user now oid db)).
Proof.
  destruct (role_eqb (User.role (body user)) admin) eqn:Er.
  - assert (Hrole : User.role (body user) = admin)
      by (now destruct (User.role (body user))).
    rewrite (admin_set_application_status_run _ _ _ _ _ _ Hrole).
    cbv zeta.
    destruct (find_one (by_id app_id) _) as [a|]; [|now left].
    destruct approve; [|now left].
    cbn [db_providerprofile on_providerapplication].
    destruct (find_one (by_user_id _) (db_providerprofile db)) eqn:E;
      [now left|].
    right. right. right. eexists now, (approved_profile _ _).
    split; [exact E | reflexivity].
  - unfold admin_set_application_status. rewrite Er. now left.
Qed.

End ProfileStepFacts.

(** Walk through a handler that does not write to the profiles. *)
Ltac leave_profiles :=
  repeat first
    [ exact same_profiles_refl
    | exact same_profiles_trans
    | progress intros
    | apply keeping_bind
    | apply keeping_ret
    | apply keeping_raise
    | apply keeping_query
    | apply keeping_write; intros; reflexivity
    | apply keeping_create_document; intros; reflexivity
    | match goal with
      | |- keeping _ (if ?b then _ else _) => destruct b
      | |- keeping _ (match ?x with _ => _ end) => destruct x
      end ].

Section ProfilesOverCalls.
Context {F : PyFloat}.
Variable JWT_EXPIRES_IN : Z.
Variable pwd_hash : string -> string.
Variable pwd_verify : string -> string -> bool.

Lemma serve_profile_step (c : Call) (now : Z) (oid : string) (db : DB) :
  profile_step oid db
    (snd (serve JWT_EXPIRES_IN pwd_hash pwd_verify c now oid db)).
Proof.
  assert (Hkeep : forall (A : Type) (m : M A),
             keeping same_profiles m -> profile_step oid db (snd (m db))).
  { intros A m H. left. apply H. }
  destruct c; cbn [serve];
    try (apply authenticated_step; [now left | intros user]);
    try apply provider_status_profile_step;
    try apply create_request_profile_step;
    try apply admin_set_application_status_profile_step;
    try rewrite snd_void;
    apply Hkeep;
    unfold read_only, register, login, provider_apply,
      update_request_status, create_payment_intent, payments_webhook,
      register_fcm_token, post_review, raise_dispute;
    leave_profiles.
Qed.

End ProfilesOverCalls.

(** X21.  Over every sequence of calls whose generated identifiers are
    pairwise different and not the [_id] of a stored profile, the profiles
    keep pairwise different [_id]s and pairwise different [user_id]s: no
    provider ever gets a second profile. *)
Theorem profiles_remain_unique {F : PyFloat} (JWT_EXPIRES_IN : Z)
    (pwd_hash : string -> string) (pwd_verify : string -> string -> bool)
    (calls : list (Call * Z * string)) (db : DB) :
  profiles_unique db ->
  NoDup (map snd calls) ->
  (forall oid, In oid (map snd calls) ->
               ~ In oid (map (fun d => _id d) (db_providerprofile db))) ->
  profiles_unique (serve_all JWT_EXPIRES_IN pwd_hash pwd_verify calls db).
Proof.
  revert db. induction calls as [|[[c now] oid] calls IH];
    intros db Hu Hnd Hfresh; cbn [serve_all]; [exact Hu|].
  cbn [map snd] in Hnd, Hfresh. inversion Hnd as [|? ? Hoid Hrest]; subst.
  destruct (profile_step_unique
              (db' := snd (serve JWT_EXPIRES_IN pwd_hash pwd_verify c now
                             oid db))
              (Hfresh oid (or_introl eq_refl)) Hu
              (serve_profile_step JWT_EXPIRES_IN pwd_hash pwd_verify c now
                 oid db)) as (Hu' & Hids).
  apply IH; [exact Hu' | exact Hrest |].
  intros oid' Hin' Hin.
  destruct Hids as [E|E]; rewrite E in Hin.
  - exact (Hfresh oid' (or_intror Hin') Hin).
  - apply in_app_or in Hin as [Hin|[<-|[]]].
    + exact (Hfresh oid' (or_intror Hin') Hin).
    + contradiction.
Qed.

(** A provider without profile reports a status. *)
Lemma profiles_remain_unique_witness :
  profiles_unique
    (serve_all (F := RealFloat.real_float) 3600 Examples.toy_hash
       Examples.toy_verify
       [(POST_providers_status Examples.provider_token
           Examples.online_at_pickup, 5%Z, "p1")]
       Examples.pending_request_db).
Proof.
  refine (@profiles_remain_unique RealFloat.real_float 3600
            Examples.toy_hash Examples.toy_verify
            [(POST_providers_status Examples.provider_token
                Examples.online_at_pickup, 5%Z, "p1")]
            Examples.pending_request_db _ _ _).
  - split; constructor.
  - repeat constructor. intros [].
  - intros oid _ [].
Defined.

(** ** An e-mail address registers once *)

(** X22.  After a registration with an e-mail address has succeeded,
    every further registration that gives the same address is refused with
    400 and writes nothing, whatever else it gives. *)
Theorem email_registers_once {F : PyFloat} (JWT_EXPIRES_IN : Z)
    (pwd_hash : string -> string) (first second : RegisterDTO)
    (now now' : Z) (oid oid' : string) (db : DB) :
  truthy (reg_email first) = true ->
  reg_email second = reg_email first ->
  ~ email_taken first db -> ~ phone_taken first db ->
  fresh_user_id oid db ->
  let db' := snd (register JWT_EXPIRES_IN pwd_hash first now oid db) in
  register JWT_EXPIRES_IN pwd_hash second now' oid' db'
  = (HTTPException 400 "Email already registered", db').
Proof.
  intros Ht Hsame He Hp Hfresh db'. subst db'.
  rewrite (@register_run_fresh F JWT_EXPIRES_IN pwd_hash first now oid db
             He Hp Hfresh).
  cbn [snd]. rewrite register_run.
  replace (truthy (reg_email second)
           && is_some (find_one (by_email (or_str (reg_email second) "")) _))
    with true; [reflexivity|].
  symmetry. apply email_check. split; [now rewrite Hsame|].
  exists (new_document oid now (registered_user pwd_hash first)).
  cbn [db_user on_user]. split; [apply in_or_app; right; now left|].
  now rewrite Hsame.
Qed.

(** Ana registers; a second registration with her address is refused. *)
Lemma email_registers_once_witness :
  register (F := RealFloat.real_float) 3600 Examples.toy_hash
    Examples.ana_registration 11 "u2"
    (snd (register 3600 Examples.toy_hash Examples.ana_registration 10 "u1"
            Examples.empty_db))
  = (HTTPException 400 "Email already registered",
     snd (register 3600 Examples.toy_hash Examples.ana_registration 10 "u1"
            Examples.empty_db)).
Proof.
  refine (@email_registers_once RealFloat.real_float 3600 Examples.toy_hash
            Examples.ana_registration Examples.ana_registration 10 11 "u1"
            "u2" Examples.empty_db eq_refl eq_refl _ _ _).
  - intros (_ & u & [] & _).
  - intros (H & _). discriminate H.
  - intros u [].
Defined.

(** ** Ratings *)

Section RatingFacts.
Context {F : PyFloat}.

Lemma ratings_stay_in_range_refl (db : DB) : ratings_stay_in_range db db.
Proof. intros H. exact H. Qed.

Lemma ratings_stay_in_range_trans (db1 db2 db3 : DB) :
  ratings_stay_in_range db1 db2 -> ratings_stay_in_range db2 db3 ->
  ratings_stay_in_range db1 db3.
Proof. unfold ratings_stay_in_range. auto. Qed.

(** [post_review] stores a review only when its rating is from 1 to 5. *)
Lemma post_review_in_range (request_id provider_id : string) (rating : Z)
    (comment : option string) (user : Doc User.t) (now : Z) (oid : string) :
  keeping ratings_stay_in_range
    (post_review request_id provider_id rating comment user now oid).
Proof.
  intros db. unfold post_review.
  destruct ((rating <? 1) || (5 <? rating))%Z eqn:E;
    [apply ratings_stay_in_range_refl|].
  apply orb_false_iff in E as (E1 & E2).
  apply Z.ltb_ge in E1, E2.
  unfold bind, create_document, ret. cbn [fst snd].
  intros H. unfold ratings_in_range in *. cbn [db_review on_review].
  apply Forall_app. split; [exact H|].
  constructor; [|constructor]. cbn [body new_document Review.rating]. lia.
Qed.

End RatingFacts.

(** Walk through a handler that does not write to the reviews. *)
Ltac leave_reviews :=
  repeat first
    [ exact ratings_stay_in_range_refl
    | exact ratings_stay_in_range_trans
    | progress intros
    | apply keeping_bind
    | apply keeping_ret
    | apply keeping_raise
    | apply keeping_query
    | apply keeping_write; intros; apply ratings_stay_in_range_refl
    | apply keeping_create_document; intros;
      apply ratings_stay_in_range_refl
    | match goal with
      | |- keeping _ (if ?b then _ else _) => destruct b
      | |- keeping _ (match ?x with _ => _ end) => destruct x
      end ].

Section RatingsOverCalls.
Context {F : PyFloat}.
Variable JWT_EXPIRES_IN : Z.
Variable pwd_hash : string -> string.
Variable pwd_verify : string -> string -> bool.

Lemma serve_keeps_ratings (c : Call) (now : Z) (oid : string) :
  keeping ratings_stay_in_range
    (serve JWT_EXPIRES_IN pwd_hash pwd_verify c now oid).
Proof.
  destruct c; unfold serve, void, read_only;
    try (apply authenticated_keeping;
         [exact ratings_stay_in_range_refl
         | exact ratings_stay_in_range_trans | intros]);
    try apply post_review_in_range;
    unfold register, login, provider_apply, provider_status,
      create_request, assign_request, mark_busy, update_request_status,
      create_payment_intent, payments_webhook, register_fcm_token,
      raise_dispute, admin_set_application_status;
    leave_reviews.
Qed.

End RatingsOverCalls.

(** X23.  Over every sequence of calls, if every stored review has a
    rating from 1 to 5 then so has every review afterwards: a review with
    another rating is refused with 422 and not stored. *)
Theorem ratings_remain_in_range {F : PyFloat} (JWT_EXPIRES_IN : Z)
    (pwd_hash : string -> string) (pwd_verify : string -> string -> bool)
    (calls : list (Call * Z * string)) (db : DB) :
  ratings_in_range db ->
  ratings_in_range (serve_all JWT_EXPIRES_IN pwd_hash pwd_verify calls db).
Proof.
  revert db. induction calls as [|[[c now] oid] calls IH]; intros db H;
    cbn [serve_all]; [exact H|].
  apply IH.
  exact (@serve_keeps_ratings F JWT_EXPIRES_IN pwd_hash pwd_verify c now oid
           db H).
Qed.

(** A review with six stars is sent to an empty store. *)
Lemma ratings_remain_in_range_witness :
  ratings_in_range
    (serve_all (F := RealFloat.real_float) 3600 Examples.toy_hash
       Examples.toy_verify
       [(POST_reviews Examples.provider_token "r1" "provider-1" 6 None,
         5%Z, "rev1")]
       Examples.pending_request_db).
Proof.
  refine (@ratings_remain_in_range RealFloat.real_float 3600
            Examples.toy_hash Examples.toy_verify
            [(POST_reviews Examples.provider_token "r1" "provider-1" 6 None,
              5%Z, "rev1")]
            Examples.pending_request_db _).
  constructor.
Defined.
